(** * Panel-state reconciliation engine (backend/services/proevent_service.py)

    A shallow embedding of the service functions that react to arm/disarm
    transitions of building panels, together with the properties the
    specification states about them.

    The service talks to three collaborators whose code is not part of the
    verified sources: [proserver_service] (the live system), [sqlite_config]
    (schedules, ignore list, snapshots) and [cache_service] (key/value cache).
    Every call to one of them is recorded, in order, in a trace.  What the
    live system and the configuration reads answer is left arbitrary: an
    environment maps the history of calls so far (and the arguments) to the
    answer, which is either a returned value or a raised exception.

    Conventions.  Building and device ids are Python [int]s, hence [Z].  A
    dict that is iterated ([live_states]) is the list of its items in
    iteration order; its keys are distinct, which is assumed where it
    matters.  A dict or set that is only looked up is a [gmap] or [gset].
    A device list that is [None] and one that is empty are both falsy and
    are not told apart.  Log lines are kept, in order, next to the trace;
    writing one never fails. *)

From Stdlib Require Import ZArith String.
From stdpp Require Import base option list gmap strings pretty.

Local Open Scope Z_scope.
Local Open Scope string_scope.
Local Open Scope list_scope.

(** ** Data *)

(** A device ("ProEvent") row as the service uses it: [dev["id"]] and
    [dev["state"]], the reactive flag (0 = Reactive, 1 = Non-Reactive). *)
Record Device := mkDevice { dev_id : Z; dev_state : Z }.

(** A value of the dict returned by [sqlite_config.get_ignored_proevents()].
    [data.get("building_frk")] may be absent; the two flags are read for
    their truth value only. *)
Record IgnoreData := mkIgnore {
  building_frk : option Z;
  ignore_on_arm : bool;
  ignore_on_disarm : bool }.

(** The dict returned by [sqlite_config.get_building_time]:
    [schedule.get("start_time")] may be [None]. *)
Record Schedule := mkSchedule { start_time : option string }.

(** An element of a bulk write or of a snapshot: [{"id": i, "state": s}]. *)
Definition Target : Type := Z * Z.

Definition Reactive : Z := 0.
Definition NonReactive : Z := 1.

(** Result of a call: a value, or an exception carrying its message. *)
Inductive outcome (A : Type) : Type :=
| Returned (a : A)
| Raised (e : string).
Arguments Returned {A} a.
Arguments Raised {A} e.

(** Calls to the collaborators, as they appear in the trace. *)
Inductive Event : Type :=
| Ev_get_all_live_building_arm_states
| Ev_get_proevents_for_building_from_db (building_id : Z)
| Ev_set_proevent_reactive_state_bulk (target_states : list Target)
| Ev_send_disarmed_axe_message (building_id : Z)
| Ev_get_ignored_proevents
| Ev_get_building_time (building_id : Z)
| Ev_get_snapshot (building_id : Z)
| Ev_save_snapshot (building_id : Z) (snapshot_data : list Target)
| Ev_clear_snapshot (building_id : Z)
| Ev_get_cache_value (key : string)
| Ev_set_cache_panel_state (value : gmap string bool)
| Ev_datetime_now.

Definition is_bulk_write (ev : Event) : bool :=
  match ev with Ev_set_proevent_reactive_state_bulk _ => true | _ => false end.
Definition is_alert (ev : Event) : bool :=
  match ev with Ev_send_disarmed_axe_message _ => true | _ => false end.
Definition is_device_read (ev : Event) : bool :=
  match ev with Ev_get_proevents_for_building_from_db _ => true | _ => false end.
Definition is_snapshot_save (ev : Event) : bool :=
  match ev with Ev_save_snapshot _ _ => true | _ => false end.

(** The answers of the live system, of the configuration reads and of the
    clock, given the calls made so far.  [live_arm_states] is the dict
    [{building_id: is_armed}] in iteration order. *)
Record Env := mkEnv {
  live_arm_states : list Event -> outcome (list (Z * bool));
  proevents_from_db : list Event -> Z -> outcome (list Device);
  bulk_result : list Event -> list Target -> outcome bool;
  axe_result : list Event -> Z -> outcome unit;
  ignored_proevents : list Event -> outcome (gmap Z IgnoreData);
  building_time : list Event -> Z -> outcome (option Schedule);
  clock : list Event -> nat * nat }.

(** Modelled from the spec: the storage behind [cache_service] and the
    snapshot table of [sqlite_config], which the spec describes as a simple
    key/row store.  The cache holds the two keys the service uses,
    ["panel_state_cache"] (a dict from [str(building_id)] to the last arm
    flag) and ['panel_armed'] (the global flag); an absent key reads as
    [None].  A building has at most one snapshot row. *)
Record Store := mkStore {
  panel_state_cache : option (gmap string bool);
  panel_armed : option bool;
  snapshots : gmap Z (list Target) }.

Inductive Level : Type := INFO | WARNING | ERROR.

Record LogEntry := mkLog { log_name : string; log_level : Level; log_text : string }.

Record State := mkState {
  store : Store;
  trace : list Event;
  logs : list LogEntry }.

(** ** The monad of the service: environment, state, exceptions *)

Definition M (A : Type) : Type := Env -> State -> outcome A * State.

#[export] Instance M_ret : MRet M := fun A a _ s => (Returned a, s).
#[export] Instance M_bind : MBind M := fun A B f m env s =>
  match m env s with
  | (Returned a, s') => f a env s'
  | (Raised e, s') => (Raised e, s')
  end.

(** [try: body except Exception as e: handler e] *)
Definition try_except {A} (body : M A) (handler : string -> M A) : M A :=
  fun env s =>
    match body env s with
    | (Returned a, s') => (Returned a, s')
    | (Raised e, s') => handler e env s'
    end.

(** [for x in l: acc = body x acc]; an exception leaves the loop. *)
Fixpoint for_each {A S} (body : A -> S -> M S) (l : list A) (acc : S) : M S :=
  match l with
  | [] => mret acc
  | x :: l' => acc' ← body x acc; for_each body l' acc'
  end.

Definition emit (ev : Event) (s : State) : State :=
  mkState (store s) (trace s ++ [ev]) (logs s).

(** A call answered by the environment: the answer depends on the calls
    made before it; the call itself is appended to the trace. *)
Definition call {A} (ev : Event) (answer : Env -> list Event -> outcome A) : M A :=
  fun env s => (answer env (trace s), emit ev s).

Definition log (name : string) (lvl : Level) (text : string) : M unit :=
  fun _ s => (Returned tt, mkState (store s) (trace s) (logs s ++ [mkLog name lvl text])).

(** [logger = get_logger(__name__)] *)
Definition logger_name : string := "services.proevent_service".
Definition logger_info := log logger_name INFO.
Definition logger_warning := log logger_name WARNING.
Definition logger_error := log logger_name ERROR.
(** The root logger used through [import logging]. *)
Definition logging_info := log "root" INFO.
Definition logging_warning := log "root" WARNING.
Definition logging_error := log "root" ERROR.

(** ** Collaborators *)

Module proserver_service.
Definition get_all_live_building_arm_states : M (list (Z * bool)) :=
    call Ev_get_all_live_building_arm_states live_arm_states.
Definition get_proevents_for_building_from_db (building_id : Z) : M (list Device) :=
    call (Ev_get_proevents_for_building_from_db building_id)
         (fun env h => proevents_from_db env h building_id).
Definition set_proevent_reactive_state_bulk (target_states : list Target) : M bool :=
    call (Ev_set_proevent_reactive_state_bulk target_states)
         (fun env h => bulk_result env h target_states).
Definition send_disarmed_axe_message (building_id : Z) : M unit :=
    call (Ev_send_disarmed_axe_message building_id)
         (fun env h => axe_result env h building_id).
End proserver_service.

Module sqlite_config.
Definition get_ignored_proevents : M (gmap Z IgnoreData) :=
    call Ev_get_ignored_proevents ignored_proevents.
Definition get_building_time (building_id : Z) : M (option Schedule) :=
    call (Ev_get_building_time building_id)
         (fun env h => building_time env h building_id).
(** Modelled from the spec: the snapshot operations of the persistent
    store, [get_snapshot(building_id) -> Optional<list<(id, state)>>],
    [save_snapshot] and [clear_snapshot], acting on the one snapshot row of
    the building. *)
Definition get_snapshot (building_id : Z) : M (option (list Target)) :=
    fun _ s => (Returned (snapshots (store s) !! building_id),
                emit (Ev_get_snapshot building_id) s).
Definition save_snapshot (building_id : Z) (snapshot_data : list Target) : M unit :=
    fun _ s =>
      let st := store s in
      (Returned tt,
       mkState (mkStore (panel_state_cache st) (panel_armed st)
                        (<[building_id := snapshot_data]> (snapshots st)))
               (trace s ++ [Ev_save_snapshot building_id snapshot_data]) (logs s)).
Definition clear_snapshot (building_id : Z) : M unit :=
    fun _ s =>
      let st := store s in
      (Returned tt,
       mkState (mkStore (panel_state_cache st) (panel_armed st)
                        (delete building_id (snapshots st)))
               (trace s ++ [Ev_clear_snapshot building_id]) (logs s)).
End sqlite_config.

Module cache_service.
(** Modelled from the spec: [cache_get]/[cache_set] of the key/value cache,
    for the two keys the service uses.
    [get_cache_value("panel_state_cache")] *)
Definition get_panel_state_cache : M (option (gmap string bool)) :=
    fun _ s => (Returned (panel_state_cache (store s)),
                emit (Ev_get_cache_value "panel_state_cache") s).
(** [get_cache_value('panel_armed')] *)
Definition get_panel_armed : M (option bool) :=
    fun _ s => (Returned (panel_armed (store s)),
                emit (Ev_get_cache_value "panel_armed") s).
(** [set_cache_value("panel_state_cache", value)] *)
Definition set_panel_state_cache (value : gmap string bool) : M unit :=
    fun _ s =>
      let st := store s in
      (Returned tt,
       mkState (mkStore (Some value) (panel_armed st) (snapshots st))
               (trace s ++ [Ev_set_cache_panel_state value]) (logs s)).
End cache_service.

(** ** Python helpers *)

(** [str(building_id)] for an [int]: decimal digits, with a leading minus
    sign for negative numbers. *)
Definition str (building_id : Z) : string := pretty building_id.

(** [f"{b}"] for a [bool] and for [None] or a [bool]. *)
Definition fmt_bool (b : bool) : string := if b then "True" else "False".
Definition fmt_opt_bool (o : option bool) : string :=
  match o with None => "None" | Some b => fmt_bool b end.
Definition fmt_len {A} (l : list A) : string := pretty (length l).
Definition armed_word (is_armed : bool) : string :=
  if is_armed then "ARMED" else "DISARMED".

(** Truth value of a list ([not l] is [negb (truthy l)]). *)
Definition truthy {A} (l : list A) : bool :=
  match l with [] => false | _ => true end.

(** [{pid for pid, data in ignored_map.items()
       if data.get("building_frk") == building_id and data.get("ignore_on_disarm")}] *)
Definition ignored_ids_of (building_id : Z) (ignored_map : gmap Z IgnoreData) : gset Z :=
  dom (filter (fun kv : Z * IgnoreData =>
                 building_frk kv.2 = Some building_id /\ ignore_on_disarm kv.2 = true)
              ignored_map).

(** [[{"id": pid, "state": st} for pid in ignored_ids]].  Python leaves the
    iteration order of a set open; the list here takes the order of
    [elements], which need not be the order an interpreter picks.  The
    properties below fix the targets of such a write as a set (each id
    once), never their order. *)
Definition targets_of (ignored_ids : gset Z) (st : Z) : list Target :=
  (fun pid => (pid, st)) <$> elements ignored_ids.

(** ** backend/services/proevent_service.py *)

Module proevent_service.

(** Body of the [for building_id, is_armed in live_states.items()] loop of
    the first definition of [manage_proevents_on_panel_state_change]
    (the one the second definition shadows).  [new_cached_states] is the
    dict the loop updates in place. *)
Definition panel_state_change_step_shadowed (cached_states : gmap string bool)
    (item : Z * bool) (new_cached_states : gmap string bool) : M (gmap string bool) :=
  let '(building_id, is_armed) := item in
  let prev_state := cached_states !! str building_id in
  match prev_state with
  | None => mret (<[str building_id := is_armed]> new_cached_states)
  | Some prev =>
    if bool_decide (prev = is_armed) then mret new_cached_states else
    logger_info ("[Building " +:+ str building_id +:+ "] Panel state changed -> "
                 +:+ armed_word is_armed);;
    all_proevents ← proserver_service.get_proevents_for_building_from_db building_id;
    if negb (truthy all_proevents) then
      logger_warning ("[Building " +:+ str building_id +:+ "] No ProEvents found in DB.");;
      mret (<[str building_id := is_armed]> new_cached_states)
    else
      ignored_map ← sqlite_config.get_ignored_proevents;
      let ignored_ids := ignored_ids_of building_id ignored_map in
      if is_armed then
        (if truthy (elements ignored_ids) then
           let target_states := targets_of ignored_ids 0 in
           success ← proserver_service.set_proevent_reactive_state_bulk target_states;
           if success : bool then
             logger_info ("[Building " +:+ str building_id +:+ "] Panel ARMED -> "
               +:+ fmt_len target_states +:+ " previously ignored ProEvents set Reactive.")
           else
             logger_error ("[Building " +:+ str building_id
               +:+ "] Failed to reactivate previously ignored ProEvents.")
         else
           logger_info ("[Building " +:+ str building_id
             +:+ "] Panel ARMED -> No previously ignored ProEvents to change."));;
        mret (<[str building_id := is_armed]> new_cached_states)
      else
        (if negb is_armed && truthy (elements ignored_ids) then
           let target_states := targets_of ignored_ids 1 in
           success ← proserver_service.set_proevent_reactive_state_bulk target_states;
           if success : bool then
             logger_info ("[Building " +:+ str building_id +:+ "] Panel DISARMED -> "
               +:+ fmt_len target_states +:+ " selected ProEvents set Non-Reactive.")
           else
             logger_error ("[Building " +:+ str building_id
               +:+ "] Failed to disarm selected ProEvents.")
         else
           logger_info ("[Building " +:+ str building_id
             +:+ "] Panel DISARMED -> No ignored ProEvents to change."));;
        mret (<[str building_id := is_armed]> new_cached_states)
  end.

(** The [try] block of the first definition. *)
Definition panel_state_change_try_shadowed : M unit :=
  live_states ← proserver_service.get_all_live_building_arm_states;
  cached ← cache_service.get_panel_state_cache;
  let cached_states := default ∅ cached in
  let new_cached_states := cached_states in
  new_cached_states ←
    for_each (panel_state_change_step_shadowed cached_states) live_states new_cached_states;
  cache_service.set_panel_state_cache new_cached_states.

(** First definition of [manage_proevents_on_panel_state_change] (lines
    63-125), rebound by the second definition below. *)
Definition manage_proevents_on_panel_state_change_shadowed : M unit :=
  try_except panel_state_change_try_shadowed
    (fun e => logger_error ("Error in manage_proevents_on_panel_state_change: " +:+ e)).

(** Body of the loop of the second, effective definition (lines 140-196). *)
Definition panel_state_change_step (cached_states : gmap string bool)
    (item : Z * bool) (new_cached_states : gmap string bool) : M (gmap string bool) :=
  let '(building_id, is_armed) := item in
  let prev_state := cached_states !! str building_id in
  logger_info ("[DEBUG] Building " +:+ str building_id +:+ ": current=" +:+ fmt_bool is_armed
               +:+ ", previous=" +:+ fmt_opt_bool prev_state);;
  match prev_state with
  | None => mret (<[str building_id := is_armed]> new_cached_states)
  | Some prev =>
    if bool_decide (prev = is_armed) then mret new_cached_states else
    logger_info ("[Building " +:+ str building_id +:+ "] Panel state changed -> "
                 +:+ armed_word is_armed);;
    all_proevents ← proserver_service.get_proevents_for_building_from_db building_id;
    if negb (truthy all_proevents) then
      logger_warning ("[Building " +:+ str building_id +:+ "] No ProEvents found in DB.");;
      mret (<[str building_id := is_armed]> new_cached_states)
    else
      ignored_map ← sqlite_config.get_ignored_proevents;
      let ignored_ids := ignored_ids_of building_id ignored_map in
      if is_armed then
        (if truthy (elements ignored_ids) then
           let target_states := targets_of ignored_ids 0 in
           success ← proserver_service.set_proevent_reactive_state_bulk target_states;
           if success : bool then
             logger_info ("[Building " +:+ str building_id +:+ "] Panel ARMED -> "
               +:+ fmt_len target_states +:+ " previously ignored ProEvents set Reactive.")
           else
             logger_error ("[Building " +:+ str building_id
               +:+ "] Failed to reactivate previously ignored ProEvents.")
         else
           logger_info ("[Building " +:+ str building_id
             +:+ "] Panel ARMED -> No previously ignored ProEvents to change."));;
        mret (<[str building_id := is_armed]> new_cached_states)
      else
        (if negb is_armed && truthy (elements ignored_ids) then
           let target_states := targets_of ignored_ids 1 in
           success ← proserver_service.set_proevent_reactive_state_bulk target_states;
           if success : bool then
             logger_info ("[Building " +:+ str building_id +:+ "] Panel DISARMED -> "
               +:+ fmt_len target_states +:+ " selected ProEvents set Non-Reactive.")
           else
             logger_error ("[Building " +:+ str building_id
               +:+ "] Failed to disarm selected ProEvents.")
         else
           logger_info ("[Building " +:+ str building_id
             +:+ "] Panel DISARMED -> No ignored ProEvents to change."));;
        mret (<[str building_id := is_armed]> new_cached_states)
  end.


(** The [try] block of the second definition (lines 136-199). *)
Definition panel_state_change_try : M unit :=
  live_states ← proserver_service.get_all_live_building_arm_states;
  cached ← cache_service.get_panel_state_cache;
  let cached_states := default ∅ cached in
  let new_cached_states := cached_states in
  new_cached_states ←
    for_each (panel_state_change_step cached_states) live_states new_cached_states;
  cache_service.set_panel_state_cache new_cached_states.

(** The periodic reconciliation tick: the definition of
    [manage_proevents_on_panel_state_change] that is in force. *)
Definition manage_proevents_on_panel_state_change : M unit :=
  try_except panel_state_change_try
    (fun e => logger_error ("Error in manage_proevents_on_panel_state_change: " +:+ e)).

(** [datetime.now(tz).strftime("%H:%M")]: two digits each, zero padded. *)
Definition two_digits (n : nat) : string :=
  if decide (n < 10)%nat then "0" +:+ pretty n else pretty n.
Definition strftime_HM (t : nat * nat) : string :=
  two_digits t.1 +:+ ":" +:+ two_digits t.2.

(** [(schedule.get("start_time") or "20:00")[:5]] *)
Definition start_time_of (schedule : Schedule) : string :=
  let configured :=
    match start_time schedule with
    | None => "20:00"
    | Some EmptyString => "20:00"
    | Some t => t
    end in
  substring 0 5 configured.

(** Body of the loop of [check_and_manage_scheduled_states]. *)
Definition scheduled_check_step (current_time : string) (item : Z * bool) (_ : unit) : M unit :=
  let '(building_id, is_armed) := item in
  schedule ← sqlite_config.get_building_time building_id;
  match schedule with
  | None => mret tt
  | Some schedule =>
    let start_time := start_time_of schedule in
    if negb (String.eqb current_time start_time) then mret tt else
    if is_armed : bool then
      logging_info ("[Building " +:+ str building_id +:+ "] Panel ARMED at start time "
                    +:+ start_time +:+ ". No alert sent.")
    else
      logging_warning ("[Building " +:+ str building_id +:+ "] Panel DISARMED at start time "
                       +:+ start_time +:+ ". Sending AXE alert.");;
      proserver_service.send_disarmed_axe_message building_id
  end.

Definition check_and_manage_scheduled_states : M unit :=
  try_except
    (now ← call Ev_datetime_now (fun env h => Returned (clock env h));
     let current_time := strftime_HM now in
     live_building_arm_states ← proserver_service.get_all_live_building_arm_states;
     for_each (scheduled_check_step current_time) live_building_arm_states tt)
    (fun e => logging_error ("Error in scheduled check_and_manage_scheduled_states: " +:+ e)).

(** [snapshot_data = [{"id": dev["id"], "state": dev["state"]} for dev in ...]] *)
Definition snapshot_of (devices : list Device) : list Target :=
  (fun dev => (dev_id dev, dev_state dev)) <$> devices.

(** The [for device in snapshot_data] loop building [target_states]. *)
Definition schedule_targets (ignored_ids : gset Z) (snapshot_data : list Target) : list Target :=
  (fun device : Target =>
     let device_id := device.1 in
     if bool_decide (device_id ∈ ignored_ids) then (device_id, 1) else (device_id, 0))
  <$> snapshot_data.

Definition take_snapshot_and_apply_schedule (building_id : Z) : M unit :=
  try_except
    (all_devices_from_db ← proserver_service.get_proevents_for_building_from_db building_id;
     if negb (truthy all_devices_from_db) then
       logger_warning ("Building " +:+ str building_id
                       +:+ ": No devices found in ProServer DB to snapshot.")
     else
       let snapshot_data := snapshot_of all_devices_from_db in
       sqlite_config.save_snapshot building_id snapshot_data;;
       ignored_map ← sqlite_config.get_ignored_proevents;
       let ignored_ids := ignored_ids_of building_id ignored_map in
       let target_states := schedule_targets ignored_ids snapshot_data in
       logger_info ("[Building " +:+ str building_id +:+ "]: Snapshot taken. Setting "
         +:+ pretty (size ignored_ids) +:+ " devices to Non-Reactive (1) and "
         +:+ pretty (Z.of_nat (length target_states) - Z.of_nat (size ignored_ids))
         +:+ " to Reactive (0).");;
       proserver_service.set_proevent_reactive_state_bulk target_states;;
       mret tt)
    (fun e => logger_error ("Failed to take snapshot for building " +:+ str building_id
                            +:+ ": " +:+ e)).

Definition _evaluate_building_state (building_id : Z) : M unit :=
  schedule ← sqlite_config.get_building_time building_id;
  match schedule with
  | None => mret tt
  | Some _ =>
    snapshot ← sqlite_config.get_snapshot building_id;
    let snapshot_exists := bool_decide (snapshot <> None) in
    if snapshot_exists then
      logger_info ("[Building " +:+ str building_id
                   +:+ "]: Snapshot exists. Maintaining scheduled state.")
    else
      logger_info ("[Building " +:+ str building_id
                   +:+ "]: Taking snapshot and applying schedule...");;
      take_snapshot_and_apply_schedule building_id
  end.

Definition raise {A} (e : string) : M A := fun _ s => (Raised e, s).

Definition reevaluate_building_state (building_id : Z) : M unit :=
  try_except
    (is_panel_armed ← cache_service.get_panel_armed;
     if default false is_panel_armed then
       logger_warning ("Manual re-evaluation for building " +:+ str building_id
                       +:+ " skipped: Panel is ARMED.")
     else
       logger_info ("Manual re-evaluation triggered for building " +:+ str building_id +:+ ".");;
       _evaluate_building_state building_id)
    (fun e =>
       logger_error ("Error in reevaluate_building_state (Building " +:+ str building_id
                     +:+ "): " +:+ e);;
       raise e).

Definition revert_snapshot (building_id : Z) (snapshot_data : list Target) : M unit :=
  try_except
    (logger_info ("[Building " +:+ str building_id +:+ "]: Reverting "
                  +:+ fmt_len snapshot_data +:+ " devices to their original states.");;
     proserver_service.set_proevent_reactive_state_bulk snapshot_data;;
     sqlite_config.clear_snapshot building_id)
    (fun e => logger_error ("Failed to revert snapshot for building " +:+ str building_id
                            +:+ ": " +:+ e)).

End proevent_service.

Import proevent_service.

(** ** Definitions used by the statements and proofs *)

(** Unfolds the service calls; [split_cases] then splits on every answer
    and test of a run. *)
Ltac unfold_service :=
  unfold panel_state_change_step, panel_state_change_step_shadowed,
    logger_info, logger_warning, logger_error, logging_info, logging_warning,
    logging_error,
    proserver_service.get_proevents_for_building_from_db,
    proserver_service.set_proevent_reactive_state_bulk,
    proserver_service.send_disarmed_axe_message,
    proserver_service.get_all_live_building_arm_states,
    sqlite_config.get_ignored_proevents, sqlite_config.get_building_time,
    sqlite_config.get_snapshot, sqlite_config.save_snapshot,
    sqlite_config.clear_snapshot,
    cache_service.get_panel_state_cache, cache_service.get_panel_armed,
    cache_service.set_panel_state_cache in *.

Ltac run_monad :=
  unfold mbind, M_bind, mret, M_ret, call, emit, log, try_except, raise in *;
  cbn beta iota delta [fst snd trace store logs negb andb] in *.

Ltac split_cases :=
  repeat (run_monad;
          match goal with
          | |- context [if ?x then _ else _] => destruct x eqn:?
          | |- context [match ?x with _ => _ end] =>
              lazymatch x with
              | context [match _ with _ => _ end] => fail
              | _ => destruct x eqn:?
              end
          end);
  run_monad.

(** The calls an iteration of the tick can make: the device read, the
    ignore-list read and the bulk write. *)
Definition step_event (ev : Event) : bool :=
  match ev with
  | Ev_get_proevents_for_building_from_db _
  | Ev_get_ignored_proevents
  | Ev_set_proevent_reactive_state_bulk _ => true
  | _ => false
  end.

(** Effect of one returned iteration on the working copy, as a function. *)
Definition advance (cached_states : gmap string bool) (acc : gmap string bool)
    (item : Z * bool) : gmap string bool :=
  if bool_decide (cached_states !! str item.1 = Some item.2)
  then acc else <[str item.1 := item.2]> acc.

(** The state in which the loop of the tick starts. *)
Definition loop_start (s : State) : State :=
  emit (Ev_get_cache_value "panel_state_cache") (emit Ev_get_all_live_building_arm_states s).

Definition cached_states_of (s : State) : gmap string bool :=
  default ∅ (panel_state_cache (store s)).

(** The calls made between two states of a run. *)
Definition issued (s s' : State) : list Event := drop (length (trace s)) (trace s').

(** The bulk writes of a tick that belong to a building.  Within a tick a
    bulk write is only issued in an iteration of the loop, after the device
    read of that iteration; so a bulk write belongs to the building of the
    last device read before it.  [current] is that building, if any. *)
Fixpoint bulk_writes_for (building_id : Z) (current : option Z) (evs : list Event)
    : list (list Target) :=
  match evs with
  | [] => []
  | Ev_get_proevents_for_building_from_db b :: evs' =>
      bulk_writes_for building_id (Some b) evs'
  | Ev_set_proevent_reactive_state_bulk target_states :: evs' =>
      (if bool_decide (current = Some building_id) then [target_states] else [])
      ++ bulk_writes_for building_id current evs'
  | _ :: evs' => bulk_writes_for building_id current evs'
  end.

(** The device read and the alert of one building. *)
Definition is_device_read_of (building_id : Z) (ev : Event) : bool :=
  match ev with
  | Ev_get_proevents_for_building_from_db b => bool_decide (b = building_id)
  | _ => false
  end.
Definition is_alert_for (building_id : Z) (ev : Event) : bool :=
  match ev with
  | Ev_send_disarmed_axe_message b => bool_decide (b = building_id)
  | _ => false
  end.

(** Two states that differ at most in the log lines written. *)
Definition same_effects (s1 s2 : State) : Prop :=
  store s1 = store s2 /\ trace s1 = trace s2.

(** The state in which a manual re-evaluation that is let through calls
    [_evaluate_building_state]: the global flag has been read and the
    "triggered" line logged. *)
Definition reevaluate_delegation_state (building_id : Z) (s : State) : State :=
  mkState (store s) (trace s ++ [Ev_get_cache_value "panel_armed"])
    (logs s ++ [mkLog logger_name INFO
                  ("Manual re-evaluation triggered for building " +:+ str building_id +:+ ".")]).

(** *** Example world *)

(** Two buildings.  Building 1 has devices 1, 3 and 7 and the ignore set
    {3, 7}; building 2 has a schedule but no device.  The ignore list also
    holds an entry of building 1 that is not flagged and an entry of
    building 2.  Every bulk write reports failure. *)
Definition demo_ignored : gmap Z IgnoreData :=
  <[3 := mkIgnore (Some 1) false true]>
  (<[7 := mkIgnore (Some 1) false true]>
  (<[5 := mkIgnore (Some 1) false false]>
  (<[9 := mkIgnore (Some 2) false true]> ∅))).

Definition demo_env : Env :=
  mkEnv (fun _ => Returned [(1, true); (2, false)])
        (fun _ b => Returned (if decide (b = 1)
                              then [mkDevice 1 0; mkDevice 3 1; mkDevice 7 1] else []))
        (fun _ _ => Returned false)
        (fun _ _ => Returned tt)
        (fun _ => Returned demo_ignored)
        (fun _ _ => Returned (Some (mkSchedule (Some "20:00:00"))))
        (fun _ => (20%nat, 0%nat)).

(** The same world with a device read that fails for building 2. *)
Definition demo_env_failing : Env :=
  mkEnv (live_arm_states demo_env)
        (fun h b => if decide (b = 2) then Raised "connection lost"
                    else proevents_from_db demo_env h b)
        (bulk_result demo_env) (axe_result demo_env) (ignored_proevents demo_env)
        (building_time demo_env) (clock demo_env).

Definition demo_state (cache : option (gmap string bool)) (flag : option bool) : State :=
  mkState (mkStore cache flag ∅) [] [].

(** Both buildings cached as Disarmed: building 1 is on an edge to Armed. *)
Definition demo_disarmed : State :=
  demo_state (Some (<[str 1 := false]> (<[str 2 := false]> ∅))) (Some false).
(** Both buildings cached as Armed: building 2 is on an edge to Disarmed. *)
Definition demo_armed : State :=
  demo_state (Some (<[str 1 := true]> (<[str 2 := true]> ∅))) (Some true).
(** The cache agrees with the live read. *)
Definition demo_settled : State :=
  demo_state (Some (<[str 1 := true]> (<[str 2 := false]> ∅))) (Some true).
(** Building 1 cached Disarmed and building 2 cached Armed: both on an edge. *)
Definition demo_mixed : State :=
  demo_state (Some (<[str 1 := false]> (<[str 2 := true]> ∅))) (Some false).
(** Building 1 already has a snapshot. *)
Definition demo_snapshotted : State :=
  mkState (mkStore None (Some false) (<[1 := [(1, 0); (3, 0); (7, 0)]]> ∅)) [] [].
(** Nothing cached yet. *)
Definition demo_cold : State := demo_state None None.

(** Building 1 has the snapshot of the spec's example. *)
Definition demo_captured : State :=
  mkState (mkStore None (Some false) (<[1 := [(1, Reactive); (2, NonReactive)]]> ∅)) [] [].

(** The world with the failing device read for building 2, and a live read
    that lists building 2 first. *)
Definition demo_env_earlier_fails : Env :=
  mkEnv (fun _ => Returned [(2, false); (1, true)])
        (proevents_from_db demo_env_failing)
        (bulk_result demo_env) (axe_result demo_env) (ignored_proevents demo_env)
        (building_time demo_env) (clock demo_env).

(** The example world with both panels Disarmed. *)
Definition demo_env_disarming : Env :=
  mkEnv (fun _ => Returned [(1, false); (2, false)])
        (proevents_from_db demo_env)
        (bulk_result demo_env) (axe_result demo_env) (ignored_proevents demo_env)
        (building_time demo_env) (clock demo_env).

(** The claim of the snapshot guard as the specification words it: over two
    calls in succession the device read happens once; the first call saves
    a snapshot and issues a bulk write; the second finds the snapshot and
    neither saves nor writes. *)
Definition exactly_once (env : Env) (s : State) (building_id : Z) : Prop :=
  let r1 := _evaluate_building_state building_id env s in
  let r2 := _evaluate_building_state building_id env r1.2 in
  length (filter (fun ev => is_device_read ev) (issued s r2.2)) = 1%nat
  /\ length (filter (fun ev => is_snapshot_save ev) (issued s r1.2)) = 1%nat
  /\ length (filter (fun ev => is_bulk_write ev) (issued s r1.2)) = 1%nat
  /\ snapshots (store r1.2) !! building_id <> None
  /\ filter (fun ev => is_snapshot_save ev) (issued r1.2 r2.2) = []
  /\ filter (fun ev => is_bulk_write ev) (issued r1.2 r2.2) = [].

(** ** The rest of backend/services/proevent_service.py *)

(** A row of [device_service.get_devices]: [d["id"]], [d["name"]],
    [d["reactive_state"]] and the optional [d["building_name"]]. *)
Record DeviceRow := mkRow {
  row_id : Z;
  row_name : string;
  row_reactive_state : Z;
  row_building_name : option string }.

(** The keyword arguments of a call of [device_service.get_devices];
    [None] stands for an argument that is not passed or passed as [None]. *)
Record GetDevicesArgs := mkArgs {
  arg_building_id : Z;
  arg_search : option string;
  arg_limit : option Z;
  arg_offset : option Z }.

Module proevent_service_rest.

Section with_device_service.

(** [device_service.get_devices], whose code is not among the sources: any
    computation of the service monad. *)
Variable get_devices : GetDevicesArgs -> M (list DeviceRow).

Definition get_all_proevents_for_building (building_id : Z) (search : option string)
    (limit offset : Z) : M (list DeviceRow) :=
  try_except
    (devices ← get_devices (mkArgs building_id search (Some limit) (Some offset));
     if negb (truthy devices) then mret [] else mret devices)
    (fun e =>
       logger_error ("Error getting proevents for building " +:+ str building_id
                     +:+ ": " +:+ e);;
       mret []).

(** [[d["id"] for d in devices if d["id"] not in ignore_ids]] *)
Definition ids_to_update (devices : list DeviceRow) (ignore_ids : list Z) : list Z :=
  filter (fun pid => pid ∉ ignore_ids) (row_id <$> devices).

Definition set_proevent_reactive_for_building (building_id : Z) (reactive : Z)
    (ignore_ids : option (list Z)) : M nat :=
  let ignore_ids := default [] ignore_ids in
  logger_info ("Setting reactive state to " +:+ pretty reactive +:+ " for building "
               +:+ str building_id +:+ ", ignoring " +:+ fmt_len ignore_ids +:+ " IDs.");;
  try_except
    (devices ← get_devices (mkArgs building_id None (Some 1000) None);
     if negb (truthy devices) then
       logger_warning ("No devices found for building " +:+ str building_id
                       +:+ ", nothing to update.");;
       mret 0%nat
     else
       let proevent_ids_to_update := ids_to_update devices ignore_ids in
       if negb (truthy proevent_ids_to_update) then
         logger_info ("All devices in building " +:+ str building_id
                      +:+ " were on the ignore list. No updates sent.");;
         mret 0%nat
       else
         let target_states := (fun pid => (pid, reactive)) <$> proevent_ids_to_update in
         success ← proserver_service.set_proevent_reactive_state_bulk target_states;
         mret (if success : bool then length proevent_ids_to_update else 0%nat))
    (fun e =>
       logger_error ("Error in set_proevent_reactive_for_building (Building "
                     +:+ str building_id +:+ "): " +:+ e);;
       mret 0%nat).

End with_device_service.

Section with_connection.

(** What the helpers would do with a database connection: the [SELECT] of
    the selected ids and the [UPDATE] of [pevReactive_FRK], commit and close
    included.  Both are arbitrary. *)
Variable Conn : Type.
Variable select_selected : Conn -> Z -> M (list Z).
Variable update_reactive : Conn -> Z -> Z -> list Z -> M unit.

(** [sqlite_config()]: [sqlite_config] is the imported module, and calling
    a module raises [TypeError]. *)
Definition call_sqlite_config_module : M Conn :=
  raise "'module' object is not callable".

(** [().cursor()]: a tuple has no such attribute. *)
Definition cursor_of_empty_tuple : M Conn :=
  raise "'tuple' object has no attribute 'cursor'".

Definition get_selected_proevents (building_id : Z) : M (list Z) :=
  try_except
    (conn ← call_sqlite_config_module;
     select_selected conn building_id)
    (fun e =>
       logger_error ("[ERROR] Failed to fetch selected proevents for building "
                     +:+ str building_id +:+ ": " +:+ e);;
       mret []).

(** The [try] statement of [set_selected_proevents_nonreactive], given the
    ids. *)
Definition update_selected_nonreactive (building_id : Z) (selected_ids : list Z) : M unit :=
  try_except
    (cursor ← cursor_of_empty_tuple;
     update_reactive cursor 0 building_id selected_ids;;
     logger_info ("[ACTION] Set " +:+ fmt_len selected_ids
                  +:+ " selected ProEvents non-reactive for building "
                  +:+ str building_id +:+ "."))
    (fun e =>
       logger_error ("[ERROR] Failed to make selected ProEvents non-reactive for building "
                     +:+ str building_id +:+ ": " +:+ e)).

Definition set_selected_proevents_nonreactive (building_id : Z) : M unit :=
  selected_ids ← get_selected_proevents building_id;
  if negb (truthy selected_ids) then
    logger_info ("[INFO] No selected ProEvents to make non-reactive for building "
                 +:+ str building_id +:+ ".")
  else update_selected_nonreactive building_id selected_ids.

(** The [try] statement of [set_selected_proevents_reactive], given the ids. *)
Definition update_selected_reactive (building_id : Z) (selected_ids : list Z) : M unit :=
  try_except
    (conn ← call_sqlite_config_module;
     update_reactive conn 1 building_id selected_ids;;
     logger_info ("[ACTION] Set " +:+ fmt_len selected_ids
                  +:+ " selected ProEvents reactive again for building "
                  +:+ str building_id +:+ "."))
    (fun e =>
       logger_error ("[ERROR] Failed to re-activate selected ProEvents for building "
                     +:+ str building_id +:+ ": " +:+ e)).

Definition set_selected_proevents_reactive (building_id : Z) : M unit :=
  selected_ids ← get_selected_proevents building_id;
  if negb (truthy selected_ids) then
    logger_info ("[INFO] No selected ProEvents to re-activate for building "
                 +:+ str building_id +:+ ".")
  else update_selected_reactive building_id selected_ids.

End with_connection.

End proevent_service_rest.

(** ** backend/services/scheduler_service.py *)

Module scheduler_service.

Definition scheduler_logger : string := "services.scheduler_service".

(** ["=" * 60] *)
Definition rule_line : string :=
  "============================================================".

Section with_traceback.

(** [traceback.format_exc()], the text of the traceback of the exception
    being handled. *)
Variable format_exc : string -> string.

Definition scheduled_job : M unit :=
  log scheduler_logger INFO rule_line;;
  log scheduler_logger INFO "🔄 Scheduler executing scheduled job...";;
  log scheduler_logger INFO rule_line;;
  try_except
    (log scheduler_logger INFO
       "Phase 1: Checking scheduled states and sending AXE alerts if needed...";;
     proevent_service.check_and_manage_scheduled_states;;
     log scheduler_logger INFO "✅ Phase 1 completed";;
     log scheduler_logger INFO "Phase 2: Managing ProEvents on panel state changes...";;
     proevent_service.manage_proevents_on_panel_state_change;;
     log scheduler_logger INFO "✅ Phase 2 completed";;
     log scheduler_logger INFO "✅ Scheduled job completed successfully")
    (fun e =>
       log scheduler_logger ERROR ("❌ Error in scheduled job: " +:+ e);;
       log scheduler_logger ERROR ("Traceback: " +:+ format_exc e));;
  log scheduler_logger INFO rule_line.

End with_traceback.

End scheduler_service.

(** ** backend/routes.py *)

(** What a route handler hands back: the body it returns, or the
    [HTTPException] it raises. *)
Inductive HttpResult (A : Type) : Type :=
| Response (body : A)
| HTTPException (status_code : Z) (detail : string).
Arguments Response {A} body.
Arguments HTTPException {A} status_code detail.

(** [PanelStatus(armed=...)] *)
Record PanelStatus := mkPanelStatus { armed : bool }.

(** [{"status": ..., "message": ...}] *)
Record StatusMessage := mkStatusMessage { status : string; message : string }.

(** The fields of [DeviceActionRequest] the handler reads. *)
Record DeviceActionRequest := mkActionRequest { req_building_id : Z; req_action : string }.

(** [DeviceOut(id=..., name=..., state=..., building_name=..., is_ignored=...)] *)
Record DeviceOut := mkDeviceOut {
  out_id : Z;
  out_name : string;
  out_state : string;
  out_building_name : string;
  out_is_ignored : bool }.

Record DeviceActionSummaryResponse := mkSummary {
  success_count : nat;
  failure_count : nat;
  details : list string }.

(** [c.lower()] on one character and [s.lower()]: the letters [A]-[Z]
    become [a]-[z]; every other byte is kept. *)
Definition ascii_lower (c : Ascii.ascii) : Ascii.ascii :=
  let n := Ascii.N_of_ascii c in
  if ((65 <=? n) && (n <=? 90))%N then Ascii.ascii_of_N (n + 32) else c.

Fixpoint str_lower (s : string) : string :=
  match s with
  | EmptyString => EmptyString
  | String c s' => String (ascii_lower c) (str_lower s')
  end.

Module routes.

Definition routes_logger : string := "routes".

(** Modelled from the spec: [cache_service.set_cache_value('panel_armed',
    value)], the write of the global flag into the key/value cache.  The
    trace has entries for the calls the service functions make; this write,
    which only the HTTP layer makes, changes the store and leaves the trace
    as it is. *)
Definition set_panel_armed (value : bool) : M unit :=
  fun _ s =>
    let st := store s in
    (Returned tt,
     mkState (mkStore (panel_state_cache st) (Some value) (snapshots st))
             (trace s) (logs s)).

(** [GET /panel_status].  The [logger.debug] line at the top is below the
    levels the log of the model keeps and is left out. *)
Definition get_panel_status : M PanelStatus :=
  status ← cache_service.get_panel_armed;
  status ← match status with
           | None => set_panel_armed true;; mret true
           | Some status => mret status
           end;
  log routes_logger INFO ("Panel status retrieved: "
                          +:+ (if status : bool then "Armed" else "Disarmed"));;
  mret (mkPanelStatus status).

(** [POST /panel_status] *)
Definition set_panel_status (status : PanelStatus) : M PanelStatus :=
  log routes_logger INFO ("POST /panel_status called with status: "
                          +:+ (if armed status then "Armed" else "Disarmed"));;
  set_panel_armed (armed status);;
  log routes_logger INFO ("✅ Global panel status set to: "
                          +:+ (if armed status then "Armed" else "Disarmed"));;
  mret status.

(** [POST /buildings/{building_id}/reevaluate] *)
Definition reevaluate_building (building_id : Z) : M (HttpResult StatusMessage) :=
  log routes_logger INFO ("POST /buildings/" +:+ str building_id +:+ "/reevaluate called");;
  try_except
    (proevent_service.reevaluate_building_state building_id;;
     log routes_logger INFO ("✅ Building " +:+ str building_id
                             +:+ " re-evaluated successfully");;
     mret (Response (mkStatusMessage "success"
                       ("Building " +:+ str building_id +:+ " re-evaluated."))))
    (fun e =>
       log routes_logger ERROR ("❌ Failed to re-evaluate building " +:+ str building_id
                                +:+ ": " +:+ e);;
       mret (HTTPException 500 ("Failed to re-evaluate building: " +:+ e))).

Section with_device_service.

Variable get_devices : GetDevicesArgs -> M (list DeviceRow).

(** The body of the [for p in proevents] loop of [list_proevents]. *)
Definition device_out (ignored_proevents : gmap Z IgnoreData) (p : DeviceRow) : DeviceOut :=
  let ignore_status := ignored_proevents !! row_id p in
  let state_str := if decide (row_reactive_state p = 0) then "armed" else "disarmed" in
  mkDeviceOut (row_id p) (row_name p) state_str
    (default EmptyString (row_building_name p))
    (from_option ignore_on_disarm false ignore_status).

(** [f"{x}"] for an optional number and an optional text. *)
Definition fmt_opt_Z (x : option Z) : string :=
  match x with None => "None" | Some n => pretty n end.
Definition fmt_opt_string (x : option string) : string :=
  match x with None => "None" | Some t => t end.

(** [GET /devices].  The three [logger.debug] lines are left out. *)
Definition list_proevents (building : option Z) (search : option string)
    (limit offset : Z) : M (HttpResult (list DeviceOut)) :=
  log routes_logger INFO ("GET /devices called - building=" +:+ fmt_opt_Z building
                          +:+ ", search='" +:+ fmt_opt_string search +:+ "', limit="
                          +:+ pretty limit +:+ ", offset=" +:+ pretty offset);;
  match building with
  | None =>
    log routes_logger WARNING "Building ID is required but not provided";;
    mret (HTTPException 400 "A building ID is required.")
  | Some building =>
    try_except
      (proevents ← proevent_service_rest.get_all_proevents_for_building get_devices
                     building search limit offset;
       ignored_proevents ← sqlite_config.get_ignored_proevents;
       let proevents_out := device_out ignored_proevents <$> proevents in
       log routes_logger INFO ("✅ Returning " +:+ fmt_len proevents_out
                               +:+ " devices for building " +:+ str building);;
       mret (Response proevents_out))
      (fun e =>
         log routes_logger ERROR ("❌ Error in list_proevents for building "
                                  +:+ str building +:+ ": " +:+ e);;
         mret (HTTPException 500 e))
  end.

(** [POST /devices/action], the legacy endpoint. *)
Definition device_action (req : DeviceActionRequest)
    : M (HttpResult DeviceActionSummaryResponse) :=
  log routes_logger WARNING ("Legacy endpoint /devices/action called for building "
                             +:+ str (req_building_id req) +:+ " with action="
                             +:+ req_action req);;
  let reactive_state :=
    if String.eqb (str_lower (req_action req)) "disarm" then 1 else 0 in
  try_except
    (affected_rows ←
       proevent_service_rest.set_proevent_reactive_for_building get_devices
         (req_building_id req) reactive_state (Some []);
     log routes_logger INFO ("Legacy action completed: " +:+ pretty affected_rows
                             +:+ " rows affected");;
     mret (Response (mkSummary affected_rows 0 [])))
    (fun e =>
       log routes_logger ERROR ("❌ Error during legacy bulk action for building "
                                +:+ str (req_building_id req) +:+ ": " +:+ e);;
       mret (HTTPException 500 e)).

End with_device_service.

End routes.

(** ** backend/logger.py: [StreamToLogger] *)

Module stream_to_logger.

(** The object: the level it logs at ([logging.INFO] is 20, [logging.ERROR]
    40) and the text written since the last line break. *)
Record StreamToLogger := mkStream { stream_level : Z; linebuf : string }.

(** A call [logger.log(level, message)]. *)
Definition LogCall : Type := Z * string.

Definition newline : Ascii.ascii := Ascii.ascii_of_nat 10.

(** ['\n' in s] *)
Fixpoint has_newline (s : string) : bool :=
  match s with
  | EmptyString => false
  | String c s' => if Ascii.eqb c newline then true else has_newline s'
  end.

(** [s.split('\n')]: the pieces between line breaks, never an empty list. *)
Fixpoint split_lines (s : string) : list string :=
  match s with
  | EmptyString => [EmptyString]
  | String c s' =>
    if Ascii.eqb c newline then EmptyString :: split_lines s'
    else match split_lines s' with
         | [] => [String c EmptyString]
         | piece :: pieces => String c piece :: pieces
         end
  end.

Section with_strip.

(** [str.strip()], which removes leading and trailing whitespace. *)
Variable strip : string -> string.

(** The loop [for line in lines: message = line.strip(); if message:
    self.logger.log(self.log_level, message)]. *)
Fixpoint log_lines (level : Z) (lines : list string) : list LogCall :=
  match lines with
  | [] => []
  | line :: lines' =>
    let message := strip line in
    (if String.eqb message EmptyString then [] else [(level, message)])
    ++ log_lines level lines'
  end.

(** [write(buf)]: the object afterwards and the calls of the logger. *)
Definition write (self : StreamToLogger) (buf : string) : StreamToLogger * list LogCall :=
  let linebuf := linebuf self +:+ buf in
  if has_newline linebuf then
    let lines := split_lines linebuf in
    (mkStream (stream_level self) (List.last lines EmptyString),
     log_lines (stream_level self) (removelast lines))
  else (mkStream (stream_level self) linebuf, []).

Definition flush (self : StreamToLogger) : StreamToLogger * list LogCall :=
  let message := strip (linebuf self) in
  (mkStream (stream_level self) EmptyString,
   if String.eqb message EmptyString then [] else [(stream_level self, message)]).

End with_strip.

(** A [strip] for the examples: blanks only. *)
Fixpoint lstrip_blank (s : string) : string :=
  match s with
  | String c s' => if Ascii.eqb c (Ascii.ascii_of_nat 32) then lstrip_blank s' else s
  | EmptyString => EmptyString
  end.

Fixpoint rev_string (s acc : string) : string :=
  match s with
  | EmptyString => acc
  | String c s' => rev_string s' (String c acc)
  end.

Definition strip_blank (s : string) : string :=
  rev_string (lstrip_blank (rev_string (lstrip_blank s) EmptyString)) EmptyString.

End stream_to_logger.

(** ** Definitions used by the further properties *)

(** An ignore entry with its [ignore_on_arm] flag replaced, and a world
    whose ignore list carries the replaced flags. *)
Definition reflag (f : IgnoreData -> bool) (data : IgnoreData) : IgnoreData :=
  mkIgnore (building_frk data) (f data) (ignore_on_disarm data).

Definition with_ignore_on_arm (f : IgnoreData -> bool) (env : Env) : Env :=
  mkEnv (live_arm_states env) (proevents_from_db env) (bulk_result env) (axe_result env)
        (fun h => match ignored_proevents env h with
                  | Returned ignored_map => Returned (reflag f <$> ignored_map)
                  | Raised e => Raised e
                  end)
        (building_time env) (clock env).

(** The calls the scheduled check can make. *)
Definition check_event (ev : Event) : bool :=
  match ev with
  | Ev_datetime_now
  | Ev_get_all_live_building_arm_states
  | Ev_get_building_time _
  | Ev_send_disarmed_axe_message _ => true
  | _ => false
  end.

(** A state with its store replaced. *)
Definition with_store (st : Store) (s : State) : State :=
  mkState st (trace s) (logs s).

(** [run_monad] for a world given by its fields. *)
Ltac run_env :=
  repeat (progress (run_monad;
                    cbn [live_arm_states proevents_from_db bulk_result axe_result
                         ignored_proevents building_time clock] in *)).

(** The example cache with an entry for a building the live read no longer
    reports. *)
Definition demo_with_gone : State :=
  demo_state (Some (<[str 1 := false]> (<[str 2 := false]> (<[str 3 := true]> ∅))))
             (Some false).

(** The state in which the loop of the scheduled check starts. *)
Definition check_start (s : State) : State :=
  emit Ev_get_all_live_building_arm_states (emit Ev_datetime_now s).

(** The example world with a schedule read that fails for building 1. *)
Definition demo_env_no_schedule : Env :=
  mkEnv (live_arm_states demo_env) (proevents_from_db demo_env)
        (bulk_result demo_env) (axe_result demo_env) (ignored_proevents demo_env)
        (fun h b => if decide (b = 1) then Raised "database is locked"
                    else building_time demo_env h b)
        (clock demo_env).

(** The example world with an ignore-list read that fails. *)
Definition demo_env_no_ignore_list : Env :=
  mkEnv (live_arm_states demo_env) (proevents_from_db demo_env)
        (bulk_result demo_env) (axe_result demo_env)
        (fun _ => Raised "database is locked")
        (building_time demo_env) (clock demo_env).

(** The example world with a bulk write that raises. *)
Definition demo_env_write_raises : Env :=
  mkEnv (live_arm_states demo_env) (proevents_from_db demo_env)
        (fun _ _ => Raised "connection lost") (axe_result demo_env)
        (ignored_proevents demo_env) (building_time demo_env) (clock demo_env).

(** The state in which [set_proevent_reactive_for_building] calls
    [device_service.get_devices]: its first log line has been written. *)
Definition set_reactive_start (building_id reactive : Z) (ignore_ids : option (list Z))
    (s : State) : State :=
  mkState (store s) (trace s)
    (logs s ++ [mkLog logger_name INFO
                  ("Setting reactive state to " +:+ pretty reactive +:+ " for building "
                   +:+ str building_id +:+ ", ignoring "
                   +:+ fmt_len (default [] ignore_ids) +:+ " IDs.")]).

(** The state in which [device_action] calls
    [set_proevent_reactive_for_building]. *)
Definition device_action_start (req : DeviceActionRequest) (s : State) : State :=
  mkState (store s) (trace s)
    (logs s ++ [mkLog routes.routes_logger WARNING
                  ("Legacy endpoint /devices/action called for building "
                   +:+ str (req_building_id req) +:+ " with action=" +:+ req_action req)]).

(** The state written by [device_action] for an action. *)
Definition action_state (action : string) : Z :=
  if String.eqb (str_lower action) "disarm" then 1 else 0.

(** A [device_service.get_devices] for the examples: three rows for
    building 1 and none for any other, without a call of its own. *)
Definition demo_get_devices (args : GetDevicesArgs) : M (list DeviceRow) :=
  mret (if decide (arg_building_id args = 1)
        then [mkRow 1 "door" 0 None; mkRow 3 "hall" 1 (Some "HQ"); mkRow 7 "gate" 1 None]
        else []).

(** The example world with bulk writes that succeed. *)
Definition demo_env_write_ok : Env :=
  mkEnv (live_arm_states demo_env) (proevents_from_db demo_env)
        (fun _ _ => Returned true) (axe_result demo_env)
        (ignored_proevents demo_env) (building_time demo_env) (clock demo_env).

(** The state in which [list_proevents] calls
    [get_all_proevents_for_building]. *)
Definition list_proevents_start (building : option Z) (search : option string)
    (limit offset : Z) (s : State) : State :=
  mkState (store s) (trace s)
    (logs s ++ [mkLog routes.routes_logger INFO
                  ("GET /devices called - building=" +:+ routes.fmt_opt_Z building
                   +:+ ", search='" +:+ routes.fmt_opt_string search +:+ "', limit="
                   +:+ pretty limit +:+ ", offset=" +:+ pretty offset)]).

(** A [device_service.get_devices] that fails. *)
Definition demo_get_devices_failing (args : GetDevicesArgs) : M (list DeviceRow) :=
  raise "timeout".

(** A computation whose result, calls and store do not depend on the log
    lines written before it. *)
Definition log_blind {A} (m : M A) : Prop :=
  forall env s1 s2, same_effects s1 s2 ->
    (m env s1).1 = (m env s2).1 /\ same_effects (m env s1).2 (m env s2).2.

(** ["\n"], and a stream at [logging.INFO] for the examples. *)
Definition line_break : string := String stream_to_logger.newline EmptyString.

Definition demo_stream (text : string) : stream_to_logger.StreamToLogger :=
  stream_to_logger.mkStream 20 text.

(** The example world with an ignore list whose only entry for building 1
    is flagged [ignore_on_arm] and not [ignore_on_disarm]. *)
Definition demo_arm_flags : gmap Z IgnoreData :=
  <[3 := mkIgnore (Some 1) true false]> (<[9 := mkIgnore (Some 2) false true]> ∅).

Definition demo_env_arm_flags : Env :=
  mkEnv (live_arm_states demo_env) (proevents_from_db demo_env)
        (bulk_result demo_env) (axe_result demo_env)
        (fun _ => Returned demo_arm_flags)
        (building_time demo_env) (clock demo_env).

(** ** Running the monad *)

Lemma run_ret {A B} (a : A) (f : A -> M B) env s : (mret a ≫= f) env s = f a env s.
Proof. reflexivity. Qed.

Lemma run_log {B} name lvl text (f : unit -> M B) env s :
  (log name lvl text ≫= f) env s
  = f tt env (mkState (store s) (trace s) (logs s ++ [mkLog name lvl text])).
Proof. reflexivity. Qed.

Lemma run_call_returned {A B} ev (answer : Env -> list Event -> outcome A)
    (f : A -> M B) env s a :
  answer env (trace s) = Returned a ->
  (call ev answer ≫= f) env s = f a env (emit ev s).
Proof. intros Ha. unfold mbind, M_bind, call. now rewrite Ha. Qed.

Lemma run_call_raised {A B} ev (answer : Env -> list Event -> outcome A)
    (f : A -> M B) env s e :
  answer env (trace s) = Raised e ->
  (call ev answer ≫= f) env s = (Raised e, emit ev s).
Proof. intros Ha. unfold mbind, M_bind, call. now rewrite Ha. Qed.

Lemma run_bind_assoc {A B C} (m : M A) (f : A -> M B) (g : B -> M C) env s :
  ((m ≫= f) ≫= g) env s = (m ≫= (fun a => f a ≫= g)) env s.
Proof. unfold mbind, M_bind. destruct (m env s) as [[a|e] s']; reflexivity. Qed.

Lemma truthy_true {A} (l : list A) : l <> [] -> truthy l = true.
Proof. destruct l; [congruence | reflexivity]. Qed.

Lemma truthy_elements (X : gset Z) : X <> ∅ -> truthy (elements X) = true.
Proof.
  intros HX. apply truthy_true. intros Hnil. apply HX.
  now apply elements_empty_inv, leibniz_equiv in Hnil.
Qed.

(** The set comprehension selects the entries of this building that are
    flagged [ignore_on_disarm]. *)
Lemma elem_of_ignored_ids_of building_id ignored_map pid :
  pid ∈ ignored_ids_of building_id ignored_map <->
  exists data, ignored_map !! pid = Some data
               /\ building_frk data = Some building_id
               /\ ignore_on_disarm data = true.
Proof.
  unfold ignored_ids_of. rewrite elem_of_dom. split.
  - intros [data Hd]. apply map_lookup_filter_Some in Hd as [Hl [Hb Hi]].
    exists data. auto.
  - intros (data & Hl & Hb & Hi). exists data.
    apply map_lookup_filter_Some. auto.
Qed.

Lemma targets_of_fst ignored_ids st : (targets_of ignored_ids st).*1 = elements ignored_ids.
Proof.
  unfold targets_of. rewrite <- list_fmap_compose.
  change (fst ∘ _) with (@id Z). apply list_fmap_id.
Qed.

Lemma NoDup_targets_of ignored_ids st : NoDup (targets_of ignored_ids st).*1.
Proof. rewrite targets_of_fst. apply NoDup_elements. Qed.

Lemma elem_of_targets_of ignored_ids st pid st' :
  (pid, st') ∈ targets_of ignored_ids st <-> pid ∈ ignored_ids /\ st' = st.
Proof.
  unfold targets_of. rewrite list_elem_of_fmap. split.
  - intros (x & Heq & Hx). inversion Heq; subst. split; [|done].
    now apply elem_of_elements.
  - intros [Hx ->]. exists pid. split; [done|]. now apply elem_of_elements.
Qed.

(** ** One iteration of the tick *)

Lemma bool_decide_negb_ne (a : bool) : bool_decide (negb a = a) = false.
Proof. now destruct a. Qed.

(** The iteration for a building whose cached flag differs from the live
    one, up to the bulk write: the device read and the ignore-list read are
    made, then the bulk write on the ignore set, whatever it answers. *)
Lemma step_on_edge_trace env s cached_states new_cached_states building_id is_armed
    devices ignored_map :
  cached_states !! str building_id = Some (negb is_armed) ->
  proevents_from_db env (trace s) building_id = Returned devices ->
  devices <> [] ->
  ignored_proevents env (trace s ++ [Ev_get_proevents_for_building_from_db building_id])
    = Returned ignored_map ->
  ignored_ids_of building_id ignored_map <> ∅ ->
  trace (panel_state_change_step cached_states (building_id, is_armed)
           new_cached_states env s).2
  = trace s ++ [Ev_get_proevents_for_building_from_db building_id;
                Ev_get_ignored_proevents;
                Ev_set_proevent_reactive_state_bulk
                  (targets_of (ignored_ids_of building_id ignored_map)
                              (if is_armed then Reactive else NonReactive))].
Proof.
  intros Hprev Hdev Hne Hign Hset.
  unfold panel_state_change_step, logger_info.
  rewrite Hprev, run_log, bool_decide_negb_ne, run_log.
  unfold proserver_service.get_proevents_for_building_from_db.
  rewrite (run_call_returned _ _ _ _ _ devices) by exact Hdev.
  rewrite (truthy_true devices Hne). cbn [negb].
  unfold sqlite_config.get_ignored_proevents.
  rewrite (run_call_returned _ _ _ _ _ ignored_map) by exact Hign.
  rewrite (truthy_elements _ Hset).
  unfold proserver_service.set_proevent_reactive_state_bulk, Reactive, NonReactive.
  destruct is_armed; cbn [negb andb]; rewrite run_bind_assoc;
    unfold mbind, M_bind, call, emit; cbn [trace];
    match goal with |- context [bulk_result ?e ?h ?t] =>
      destruct (bulk_result e h t) as [[|]|] end;
    cbn; rewrite <- !app_assoc; reflexivity.
Qed.

(** What an iteration returns when it returns: the working copy is left
    alone when the cached flag equals the live one and receives the live
    flag otherwise. *)
Lemma step_returned env s cached_states new_cached_states building_id is_armed new' s' :
  panel_state_change_step cached_states (building_id, is_armed) new_cached_states env s
    = (Returned new', s') ->
  new' = if bool_decide (cached_states !! str building_id = Some is_armed)
         then new_cached_states
         else <[str building_id := is_armed]> new_cached_states.
Proof.
  unfold_service.
  destruct (cached_states !! str building_id) as [prev|] eqn:Hprev.
  - destruct (bool_decide (prev = is_armed)) eqn:Hd.
    + apply bool_decide_eq_true in Hd as ->.
      rewrite bool_decide_eq_true_2 by done. run_monad. now intros [= <- _].
    + apply bool_decide_eq_false in Hd.
      rewrite bool_decide_eq_false_2 by congruence.
      split_cases; intros [= <- _] || discriminate; reflexivity.
  - rewrite bool_decide_eq_false_2 by congruence.
    run_monad. now intros [= <- _].
Qed.

(** An iteration never touches the store, and the calls it makes are the
    device read, the ignore-list read and the bulk write. *)
Lemma step_effects env s cached_states new_cached_states item :
  let r := panel_state_change_step cached_states item new_cached_states env s in
  store r.2 = store s /\
  exists evs, trace r.2 = trace s ++ evs /\ forallb step_event evs = true.
Proof.
  destruct item as [building_id is_armed]. unfold_service.
  split_cases; (split; [reflexivity|]);
    repeat rewrite <- app_assoc; cbn [app];
    first [ by (exists []; rewrite app_nil_r)
          | by (eexists; split; [reflexivity|reflexivity]) ].
Qed.

(** ** The loop of the tick *)

Lemma for_each_cons {A S} (body : A -> S -> M S) x l acc env s :
  for_each body (x :: l) acc env s
  = match body x acc env s with
    | (Returned acc', s') => for_each body l acc' env s'
    | (Raised e, s') => (Raised e, s')
    end.
Proof. reflexivity. Qed.

Lemma loop_returned env cached_states items : forall s new_cached_states new' s',
  for_each (panel_state_change_step cached_states) items new_cached_states env s
    = (Returned new', s') ->
  new' = foldl (advance cached_states) new_cached_states items.
Proof.
  induction items as [|[b a] items IH]; intros s new new' s' Hrun.
  - cbn in Hrun. now injection Hrun as <- _.
  - rewrite for_each_cons in Hrun.
    destruct (panel_state_change_step cached_states (b, a) new env s)
      as [[acc|e] s1] eqn:Hstep; [|discriminate].
    apply step_returned in Hstep. apply IH in Hrun. now subst.
Qed.

Lemma loop_effects env cached_states items : forall s new_cached_states,
  let r := for_each (panel_state_change_step cached_states) items new_cached_states env s in
  store r.2 = store s /\
  exists evs, trace r.2 = trace s ++ evs /\ forallb step_event evs = true.
Proof.
  induction items as [|item items IH]; intros s new.
  - cbn. split; [done|]. exists []. now rewrite app_nil_r.
  - rewrite for_each_cons.
    pose proof (step_effects env s cached_states new item) as [Hst (evs & Htr & Hevs)].
    cbn zeta in Hst, Htr.
    destruct (panel_state_change_step cached_states item new env s)
      as [[acc|e] s1] eqn:Hstep; cbn [fst snd] in *.
    + specialize (IH s1 acc) as [Hst' (evs' & Htr' & Hevs')]. cbn zeta in *.
      split; [congruence|]. exists (evs ++ evs').
      rewrite Htr', Htr, app_assoc, forallb_app, Hevs, Hevs'. done.
    + split; [done|]. by exists evs.
Qed.

Lemma advance_other cached_states items key : forall acc,
  key ∉ str <$> items.*1 ->
  foldl (advance cached_states) acc items !! key = acc !! key.
Proof.
  induction items as [|[b a] items IH]; intros acc Hnot; [done|].
  cbn in Hnot. apply not_elem_of_cons in Hnot as [Hne Hnot].
  cbn [foldl]. rewrite IH by done. unfold advance. cbn [fst snd].
  case_bool_decide; [done|]. now rewrite lookup_insert_ne.
Qed.

(** After a loop that started from a copy of the cache, every building of
    the live read carries its live flag in the working copy. *)
Lemma advance_agrees cached_states items b a :
  NoDup items.*1 -> (b, a) ∈ items ->
  foldl (advance cached_states) cached_states items !! str b = Some a.
Proof.
  intros Hnd Hin.
  assert (forall acc, (forall b' a', (b', a') ∈ items ->
                         acc !! str b' = cached_states !! str b') ->
                      foldl (advance cached_states) acc items !! str b = Some a) as Hgen.
  { clear -Hnd Hin. induction items as [|[b0 a0] items IH]; intros acc Hacc.
    - by apply elem_of_nil in Hin.
    - cbn in Hnd. apply NoDup_cons in Hnd as [Hfresh Hnd].
      cbn [foldl]. apply elem_of_cons in Hin as [[= -> ->]|Hin].
      + rewrite advance_other.
        * unfold advance. cbn [fst snd]. case_bool_decide as Hc.
          -- rewrite (Hacc b0 a0) by left. done.
          -- now rewrite lookup_insert_eq.
        * intros Hmem. apply list_elem_of_fmap in Hmem as (b' & Heq & Hb').
          apply (inj pretty) in Heq. now subst.
      + apply IH; [done|done|]. intros b' a' Hin'.
        unfold advance. cbn [fst snd].
        case_bool_decide; [apply (Hacc b' a'); by right|].
        rewrite lookup_insert_ne; [apply (Hacc b' a'); by right|].
        intros Heq. apply (inj pretty) in Heq. subst b'.
        apply Hfresh. apply list_elem_of_fmap. by exists (b0, a'). }
  apply Hgen. done.
Qed.

(** ** The tick as a whole *)

Lemma try_unfold env s :
  panel_state_change_try env s
  = match live_arm_states env (trace s) with
    | Raised e => (Raised e, emit Ev_get_all_live_building_arm_states s)
    | Returned live_states =>
      match for_each (panel_state_change_step (cached_states_of s)) live_states
                     (cached_states_of s) env (loop_start s) with
      | (Returned new_cached_states, s2) =>
          cache_service.set_panel_state_cache new_cached_states env s2
      | (Raised e, s2) => (Raised e, s2)
      end
    end.
Proof.
  unfold panel_state_change_try, proserver_service.get_all_live_building_arm_states,
    cache_service.get_panel_state_cache, mbind, M_bind, call.
  destruct (live_arm_states env (trace s)); reflexivity.
Qed.

Lemma for_each_app {A S} (body : A -> S -> M S) l1 l2 : forall acc env s,
  for_each body (l1 ++ l2) acc env s
  = match for_each body l1 acc env s with
    | (Returned acc', s') => for_each body l2 acc' env s'
    | (Raised e, s') => (Raised e, s')
    end.
Proof.
  induction l1 as [|x l1 IH]; intros acc env s; [reflexivity|].
  cbn [app]. rewrite !for_each_cons.
  destruct (body x acc env s) as [[acc'|e] s']; [apply IH|reflexivity].
Qed.

(** A tick that runs to its end leaves, for every building of the live
    read, the live flag in the persisted cache. *)
Lemma tick_completed_cache env s s' live_states building_id is_armed :
  live_arm_states env (trace s) = Returned live_states ->
  NoDup live_states.*1 ->
  (building_id, is_armed) ∈ live_states ->
  panel_state_change_try env s = (Returned tt, s') ->
  exists m, panel_state_cache (store s') = Some m /\ m !! str building_id = Some is_armed.
Proof.
  intros Hlive Hnd Hin Hrun. rewrite try_unfold, Hlive in Hrun.
  destruct (for_each _ live_states _ env (loop_start s)) as [[new|e] s2] eqn:Hloop;
    [|discriminate].
  apply loop_returned in Hloop. subst new.
  unfold cache_service.set_panel_state_cache in Hrun. injection Hrun as <-.
  eexists. split; [reflexivity|]. now apply advance_agrees.
Qed.

Lemma issued_app s s' evs : trace s' = trace s ++ evs -> issued s s' = evs.
Proof. intros H. unfold issued. rewrite H. apply drop_app_length. Qed.

(** An iteration for a building whose cached flag equals the live one only
    writes its debug line. *)
Lemma step_no_change env s cached_states new_cached_states building_id is_armed :
  cached_states !! str building_id = Some is_armed ->
  exists s', panel_state_change_step cached_states (building_id, is_armed)
               new_cached_states env s = (Returned new_cached_states, s')
             /\ trace s' = trace s /\ store s' = store s.
Proof.
  intros Hprev. unfold_service. rewrite Hprev, bool_decide_eq_true_2 by done.
  run_monad. eexists. split; [reflexivity|]. done.
Qed.

Lemma loop_no_change env cached_states live_states : forall s new_cached_states,
  (forall b a, (b, a) ∈ live_states -> cached_states !! str b = Some a) ->
  exists s', for_each (panel_state_change_step cached_states) live_states
               new_cached_states env s = (Returned new_cached_states, s')
             /\ trace s' = trace s /\ store s' = store s.
Proof.
  induction live_states as [|[b a] items IH]; intros s new Hall.
  - exists s. done.
  - rewrite for_each_cons.
    destruct (step_no_change env s cached_states new b a) as (s1 & -> & Ht & Hs).
    { apply Hall. by left. }
    destruct (IH s1 new) as (s2 & -> & Ht2 & Hs2).
    { intros b' a' Hin. apply Hall. by right. }
    exists s2. split; [done|]. split; congruence.
Qed.

(** [C2] Idempotence.  When every building of the live read has a cached
    flag equal to its live flag, the tick makes exactly three calls: the
    live read, the cache read and the cache write (of the unchanged dict).
    None of them is a bulk write. *)
Theorem no_edge_no_bulk_write env s live_states :
  live_arm_states env (trace s) = Returned live_states ->
  (forall b a, (b, a) ∈ live_states -> cached_states_of s !! str b = Some a) ->
  let r := manage_proevents_on_panel_state_change env s in
  trace r.2 = trace s ++ [Ev_get_all_live_building_arm_states;
                          Ev_get_cache_value "panel_state_cache";
                          Ev_set_cache_panel_state (cached_states_of s)]
  /\ filter (fun ev => is_bulk_write ev) (issued s r.2) = [].
Proof.
  intros Hlive Hall r.
  assert (trace r.2 = trace s ++ [Ev_get_all_live_building_arm_states;
                                  Ev_get_cache_value "panel_state_cache";
                                  Ev_set_cache_panel_state (cached_states_of s)]) as Hiss.
  { subst r.
    unfold manage_proevents_on_panel_state_change, try_except.
    rewrite try_unfold, Hlive.
    destruct (loop_no_change env (cached_states_of s) live_states (loop_start s)
                (cached_states_of s) Hall) as (s' & -> & Ht & Hs).
    unfold cache_service.set_panel_state_cache. cbn [snd trace].
    rewrite Ht. unfold loop_start, emit. cbn [trace].
    now rewrite <- !app_assoc. }
  split; [exact Hiss|]. rewrite (issued_app _ _ _ Hiss). reflexivity.
Qed.


(** ** The tick around one building *)

(** The calls of one iteration: none, or, for a building on an edge, the
    device read of the building followed by at most the ignore-list read
    and one bulk write. *)
Lemma step_shape env s cached_states new_cached_states building_id is_armed :
  exists evs,
    trace (panel_state_change_step cached_states (building_id, is_armed)
             new_cached_states env s).2 = trace s ++ evs
    /\ (evs = []
        \/ (cached_states !! str building_id = Some (negb is_armed)
            /\ (evs = [Ev_get_proevents_for_building_from_db building_id]
                \/ evs = [Ev_get_proevents_for_building_from_db building_id;
                          Ev_get_ignored_proevents]
                \/ exists target_states,
                     evs = [Ev_get_proevents_for_building_from_db building_id;
                            Ev_get_ignored_proevents;
                            Ev_set_proevent_reactive_state_bulk target_states]))).
Proof.
  unfold_service.
  destruct (cached_states !! str building_id) as [prev|] eqn:Hprev.
  - destruct (bool_decide (prev = is_armed)) eqn:Hd.
    + run_monad. exists []. rewrite app_nil_r. split; [done|by left].
    + apply bool_decide_eq_false in Hd.
      assert (prev = negb is_armed) as ->
        by (destruct prev, is_armed; try reflexivity; by destruct Hd).
      split_cases; rewrite <- ?app_assoc; cbn [app];
        (eexists; split; [reflexivity|]); right; (split; [reflexivity|]);
        first [ by left | by (right; left) | by (right; right; eexists) ].
  - run_monad. exists []. rewrite app_nil_r. split; [done|by left].
Qed.


(** The iteration of another building makes no device read of this one and
    contributes no bulk write of this one. *)
Lemma step_writes_other b0 env s cached_states new_cached_states building_id is_armed
    current :
  building_id <> b0 ->
  exists evs current',
    trace (panel_state_change_step cached_states (building_id, is_armed)
             new_cached_states env s).2 = trace s ++ evs
    /\ (current' = current \/ current' <> Some b0)
    /\ filter (fun ev => is_device_read_of b0 ev) evs = []
    /\ forall tail, bulk_writes_for b0 current (evs ++ tail)
                    = bulk_writes_for b0 current' tail.
Proof.
  intros Hne.
  destruct (step_shape env s cached_states new_cached_states building_id is_armed)
    as (evs & Htr & Hshape).
  exists evs.
  assert (bool_decide (Some building_id = Some b0) = false) as Hd
    by (apply bool_decide_eq_false; congruence).
  assert (Some building_id <> Some b0) as Hcur by congruence.
  assert (forall rest,
            filter (fun ev => is_device_read_of b0 ev)
              (Ev_get_proevents_for_building_from_db building_id :: rest)
            = filter (fun ev => is_device_read_of b0 ev) rest) as Hread.
  { intros rest. rewrite filter_cons. cbn [is_device_read_of].
    rewrite bool_decide_eq_false_2 by done. reflexivity. }
  destruct Hshape as [->|[_ [->|[->|[target_states ->]]]]].
  - exists current. split; [exact Htr|]. split; [by left|]. split; done.
  - exists (Some building_id). split; [exact Htr|]. split; [by right|].
    split; [apply Hread|done].
  - exists (Some building_id). split; [exact Htr|]. split; [by right|].
    split; [apply Hread|done].
  - exists (Some building_id). split; [exact Htr|]. split; [by right|].
    split; [apply Hread|].
    intros tail. cbn [app bulk_writes_for]. now rewrite Hd.
Qed.

Lemma loop_writes_other b0 env cached_states items : forall s new_cached_states current,
  b0 ∉ items.*1 ->
  exists evs current',
    trace (for_each (panel_state_change_step cached_states) items new_cached_states
             env s).2 = trace s ++ evs
    /\ (current' = current \/ current' <> Some b0)
    /\ filter (fun ev => is_device_read_of b0 ev) evs = []
    /\ forall tail, bulk_writes_for b0 current (evs ++ tail)
                    = bulk_writes_for b0 current' tail.
Proof.
  induction items as [|[b a] items IH]; intros s new current Hnot.
  - exists [], current. cbn. rewrite app_nil_r. split; [done|]. split; [by left|]. done.
  - cbn in Hnot. apply not_elem_of_cons in Hnot as [Hne Hnot].
    rewrite for_each_cons.
    destruct (step_writes_other b0 env s cached_states new b a current)
      as (evs1 & cur1 & Htr1 & Hcur1 & Hread1 & Hbw1); [congruence|].
    destruct (panel_state_change_step cached_states (b, a) new env s)
      as [[acc|e] s1]; cbn [snd] in *.
    + destruct (IH s1 acc cur1 Hnot) as (evs2 & cur2 & Htr2 & Hcur2 & Hread2 & Hbw2).
      exists (evs1 ++ evs2), cur2. split; [now rewrite Htr2, Htr1, app_assoc|].
      split; [destruct Hcur1 as [->|?], Hcur2 as [->|?]; auto|].
      split; [now rewrite filter_app, Hread1, Hread2|].
      intros tail. now rewrite <- app_assoc, Hbw1, Hbw2.
    + exists evs1, cur1. done.
Qed.



Lemma manage_completed env s s' :
  panel_state_change_try env s = (Returned tt, s') ->
  manage_proevents_on_panel_state_change env s = (Returned tt, s').
Proof.
  intros Hrun. unfold manage_proevents_on_panel_state_change, try_except.
  now rewrite Hrun.
Qed.



Lemma NoDup_keys_middle (before after : list (Z * bool)) b a :
  NoDup (before ++ (b, a) :: after).*1 -> (b ∉ before.*1) /\ (b ∉ after.*1).
Proof.
  rewrite fmap_app, fmap_cons. cbn [fst]. intros Hnd.
  apply NoDup_app in Hnd as (_ & Hdisj & Hnd). apply NoDup_cons in Hnd as [Hafter _].
  split; [|exact Hafter]. intros Hin. apply (Hdisj b Hin). by left.
Qed.

Lemma loop_start_trace s :
  trace (loop_start s)
  = trace s ++ [Ev_get_all_live_building_arm_states; Ev_get_cache_value "panel_state_cache"].
Proof. unfold loop_start, emit. cbn [trace]. now rewrite <- app_assoc. Qed.

(** The tick around an iteration that finds an edge, devices and a
    non-empty ignore set: its calls are those made up to the iteration, the
    device read, the ignore-list read and the bulk write of the iteration,
    and what the later buildings add; the bulk write is the only one of the
    tick that belongs to the building. *)
Lemma edge_in_tick env s before building_id is_armed after acc s1 devices ignored_map :
  live_arm_states env (trace s) = Returned (before ++ (building_id, is_armed) :: after) ->
  NoDup (before ++ (building_id, is_armed) :: after).*1 ->
  cached_states_of s !! str building_id = Some (negb is_armed) ->
  for_each (panel_state_change_step (cached_states_of s)) before (cached_states_of s)
    env (loop_start s) = (Returned acc, s1) ->
  proevents_from_db env (trace s1) building_id = Returned devices ->
  devices <> [] ->
  ignored_proevents env (trace s1 ++ [Ev_get_proevents_for_building_from_db building_id])
    = Returned ignored_map ->
  ignored_ids_of building_id ignored_map <> ∅ ->
  let r := manage_proevents_on_panel_state_change env s in
  let target_states := targets_of (ignored_ids_of building_id ignored_map)
                                  (if is_armed then Reactive else NonReactive) in
  (exists later,
     trace r.2 = trace s1 ++ [Ev_get_proevents_for_building_from_db building_id;
                              Ev_get_ignored_proevents;
                              Ev_set_proevent_reactive_state_bulk target_states] ++ later)
  /\ bulk_writes_for building_id None (issued s r.2) = [target_states].
Proof.
  intros Hlive Hnd Hprev Hbefore Hdev Hne Hign Hset r target_states.
  apply NoDup_keys_middle in Hnd as [Hnb Hna].
  destruct (loop_writes_other building_id env (cached_states_of s) before (loop_start s)
              (cached_states_of s) None Hnb) as (evs_b & cur_b & Htr_b & Hcur_b & _ & Hbw_b).
  rewrite Hbefore in Htr_b. cbn [snd] in Htr_b.
  assert (cur_b <> Some building_id) as Hcur by (destruct Hcur_b as [->|?]; done).
  pose proof (step_on_edge_trace env s1 (cached_states_of s) acc building_id is_armed
                devices ignored_map Hprev Hdev Hne Hign Hset) as Hstep.
  fold target_states in Hstep.
  assert (exists evs_a cur_a tail,
            trace r.2 = trace s1 ++ [Ev_get_proevents_for_building_from_db building_id;
                                     Ev_get_ignored_proevents;
                                     Ev_set_proevent_reactive_state_bulk target_states]
                        ++ evs_a ++ tail
            /\ (forall tl, bulk_writes_for building_id (Some building_id) (evs_a ++ tl)
                           = bulk_writes_for building_id cur_a tl)
            /\ (tail = [] \/ exists m, tail = [Ev_set_cache_panel_state m]))
    as (evs_a & cur_a & tail & Htr & Hbw_a & Htail).
  { subst r. unfold manage_proevents_on_panel_state_change, try_except.
    rewrite try_unfold, Hlive, for_each_app, Hbefore, for_each_cons.
    destruct (panel_state_change_step (cached_states_of s) (building_id, is_armed)
                acc env s1) as [[acc'|e] s2]; cbn [snd] in Hstep.
    - destruct (loop_writes_other building_id env (cached_states_of s) after s2 acc'
                  (Some building_id) Hna) as (evs_a & cur_a & Htr_a & _ & _ & Hbw_a).
      exists evs_a, cur_a.
      destruct (for_each _ after acc' env s2) as [[new|e] s3]; cbn [snd] in Htr_a.
      + exists [Ev_set_cache_panel_state new].
        unfold cache_service.set_panel_state_cache. cbn [snd trace].
        rewrite Htr_a, Hstep, <- !app_assoc. split; [reflexivity|].
        split; [exact Hbw_a|]. right. by eexists.
      + exists []. unfold logger_error, log. cbn [snd trace].
        rewrite Htr_a, Hstep, app_nil_r, <- !app_assoc. split; [reflexivity|].
        split; [exact Hbw_a|]. by left.
    - exists [], (Some building_id), []. unfold logger_error, log. cbn [snd trace].
      rewrite Hstep. split; [reflexivity|]. split; [done|]. by left. }
  split; [by eexists|].
  rewrite (issued_app s r.2
             ([Ev_get_all_live_building_arm_states; Ev_get_cache_value "panel_state_cache"]
              ++ evs_b
              ++ [Ev_get_proevents_for_building_from_db building_id;
                  Ev_get_ignored_proevents;
                  Ev_set_proevent_reactive_state_bulk target_states] ++ evs_a ++ tail)).
  - cbn [app bulk_writes_for]. rewrite Hbw_b. cbn [app bulk_writes_for].
    rewrite bool_decide_eq_true_2 by done. rewrite Hbw_a.
    destruct Htail as [->|[m ->]]; reflexivity.
  - rewrite Htr, Htr_b, loop_start_trace, <- !app_assoc. reflexivity.
Qed.

(** The ignore set of building 1 in the example world. *)
Lemma demo_ignore_set_3_7 pid :
  pid ∈ ignored_ids_of 1 demo_ignored <-> pid = 3 \/ pid = 7.
Proof.
  assert (ignored_ids_of 1 demo_ignored = {[3; 7]}) as -> by (vm_compute; reflexivity).
  set_solver.
Qed.

(** [C1], as stated, fails.  The live read lists building 2 before
    building 1, and both are on an edge; building 1 has the devices 1, 3, 7
    and the ignore set {3, 7}.  The device read for building 2 raises, which
    ends the [try] block: the tick never gets to building 1 and issues no
    bulk write at all. *)
Lemma edge_write_missing_after_failed_read :
  live_arm_states demo_env_earlier_fails (trace demo_mixed)
    = Returned [(2, false); (1, true)]
  /\ cached_states_of demo_mixed !! str 1 = Some false
  /\ (forall h, proevents_from_db demo_env_earlier_fails h 1
                = Returned [mkDevice 1 0; mkDevice 3 1; mkDevice 7 1])
  /\ (forall h, ignored_proevents demo_env_earlier_fails h = Returned demo_ignored)
  /\ (forall pid, pid ∈ ignored_ids_of 1 demo_ignored <-> pid = 3 \/ pid = 7)
  /\ let r := manage_proevents_on_panel_state_change demo_env_earlier_fails demo_mixed in
     issued demo_mixed r.2
     = [Ev_get_all_live_building_arm_states; Ev_get_cache_value "panel_state_cache";
        Ev_get_proevents_for_building_from_db 2]
     /\ filter (fun ev => is_bulk_write ev) (issued demo_mixed r.2) = []
     /\ bulk_writes_for 1 None (issued demo_mixed r.2) = [].
Proof.
  split; [reflexivity|]. split; [vm_compute; reflexivity|]. split; [reflexivity|].
  split; [reflexivity|]. split; [exact demo_ignore_set_3_7|]. vm_compute. done.
Qed.

(** [C1] Edge correctness and symmetry, as the code has it.  Take a tick
    whose live read lists a building with a cached flag that is a definite
    boolean different from the live flag.  When the iterations for the
    buildings listed before it return, and the device read and the
    ignore-list read for the building return, with at least one device and
    a non-empty ignore set, then the tick issues, right after these two
    reads, one bulk write, and this is the only bulk write of the whole tick
    that belongs to the building.  Its targets are the devices of the ignore
    list that carry this building's id and [ignore_on_disarm], each once,
    and no other device; every target state is Reactive (0) on a transition
    to Armed and Non-Reactive (1) on a transition to Disarmed.  The order of
    the targets in the write is left open. *)
Theorem edge_bulk_write_on_ignore_set env s before building_id is_armed after acc s1
    devices ignored_map :
  live_arm_states env (trace s) = Returned (before ++ (building_id, is_armed) :: after) ->
  NoDup (before ++ (building_id, is_armed) :: after).*1 ->
  cached_states_of s !! str building_id = Some (negb is_armed) ->
  for_each (panel_state_change_step (cached_states_of s)) before (cached_states_of s)
    env (loop_start s) = (Returned acc, s1) ->
  proevents_from_db env (trace s1) building_id = Returned devices ->
  devices <> [] ->
  ignored_proevents env (trace s1 ++ [Ev_get_proevents_for_building_from_db building_id])
    = Returned ignored_map ->
  ignored_ids_of building_id ignored_map <> ∅ ->
  let r := manage_proevents_on_panel_state_change env s in
  exists target_states later,
    trace r.2 = trace s1 ++ [Ev_get_proevents_for_building_from_db building_id;
                             Ev_get_ignored_proevents;
                             Ev_set_proevent_reactive_state_bulk target_states] ++ later
    /\ bulk_writes_for building_id None (issued s r.2) = [target_states]
    /\ NoDup target_states.*1
    /\ forall pid st,
         (pid, st) ∈ target_states <->
         st = (if is_armed then Reactive else NonReactive) /\
         exists data, ignored_map !! pid = Some data
                      /\ building_frk data = Some building_id
                      /\ ignore_on_disarm data = true.
Proof.
  intros Hlive Hnd Hprev Hbefore Hdev Hne Hign Hset r.
  destruct (edge_in_tick env s before building_id is_armed after acc s1 devices
              ignored_map Hlive Hnd Hprev Hbefore Hdev Hne Hign Hset)
    as [[later Htr] Hbw].
  eexists. exists later. split; [exact Htr|]. split; [exact Hbw|]. split.
  - apply NoDup_targets_of.
  - intros pid st. rewrite elem_of_targets_of, elem_of_ignored_ids_of. tauto.
Qed.






(** ** The two definitions of the tick *)

Lemma step_equiv env cached_states item new_cached_states s1 s2 :
  same_effects s1 s2 ->
  let r1 := panel_state_change_step_shadowed cached_states item new_cached_states env s1 in
  let r2 := panel_state_change_step cached_states item new_cached_states env s2 in
  r1.1 = r2.1 /\ same_effects r1.2 r2.2.
Proof.
  destruct item as [building_id is_armed].
  destruct s1 as [st1 tr1 lg1], s2 as [st2 tr2 lg2].
  intros [Hst Htr]. cbn in Hst, Htr. subst st2 tr2.
  unfold same_effects. unfold_service. split_cases; done.
Qed.

Lemma loop_equiv env cached_states live_states : forall new_cached_states s1 s2,
  same_effects s1 s2 ->
  let r1 := for_each (panel_state_change_step_shadowed cached_states) live_states
              new_cached_states env s1 in
  let r2 := for_each (panel_state_change_step cached_states) live_states
              new_cached_states env s2 in
  r1.1 = r2.1 /\ same_effects r1.2 r2.2.
Proof.
  induction live_states as [|item items IH]; intros new s1 s2 Hse; [done|].
  cbn zeta. rewrite !for_each_cons.
  pose proof (step_equiv env cached_states item new s1 s2 Hse) as [Hres Hse'].
  cbn zeta in *.
  destruct (panel_state_change_step_shadowed cached_states item new env s1)
    as [[acc1|e1] s1'],
    (panel_state_change_step cached_states item new env s2) as [[acc2|e2] s2'];
    cbn [fst snd] in *; try discriminate.
  - injection Hres as ->. now apply IH.
  - done.
Qed.

(** [C9] The shadowed first definition of the tick and the second one are
    equivalent in everything but the debug line the second writes per
    building: from the same state and against the same live system, ignore
    list and device lists, both return, issue the same calls in the same
    order (in particular the same bulk writes) and leave the same store (in
    particular the same persisted cache). *)
Theorem shadowed_definition_equivalent env s :
  let r1 := manage_proevents_on_panel_state_change_shadowed env s in
  let r2 := manage_proevents_on_panel_state_change env s in
  r1.1 = r2.1
  /\ trace r1.2 = trace r2.2
  /\ filter (fun ev => is_bulk_write ev) (issued s r1.2)
     = filter (fun ev => is_bulk_write ev) (issued s r2.2)
  /\ store r1.2 = store r2.2.
Proof.
  cbn zeta.
  assert (let r1 := manage_proevents_on_panel_state_change_shadowed env s in
          let r2 := manage_proevents_on_panel_state_change env s in
          r1.1 = r2.1 /\ same_effects r1.2 r2.2) as [Hres [Hst Htr]].
  { cbn zeta.
    unfold manage_proevents_on_panel_state_change_shadowed,
      manage_proevents_on_panel_state_change, try_except,
      panel_state_change_try_shadowed, panel_state_change_try,
      proserver_service.get_all_live_building_arm_states,
      cache_service.get_panel_state_cache, cache_service.set_panel_state_cache,
      logger_error, log, mbind, M_bind, call.
    destruct (live_arm_states env (trace s)) as [live_states|e]; [|done].
    set (s1 := emit _ (emit _ s)).
    pose proof (loop_equiv env (default ∅ (panel_state_cache (store s))) live_states
                  (default ∅ (panel_state_cache (store s))) s1 s1
                  (conj eq_refl eq_refl)) as [Hres [Hst Htr]].
    cbn zeta in *.
    destruct (for_each (panel_state_change_step_shadowed _) live_states _ env s1)
      as [[acc1|e1] s1'],
      (for_each (panel_state_change_step _) live_states _ env s1) as [[acc2|e2] s2'];
      cbn [fst snd] in *; try discriminate.
    - injection Hres as ->. unfold same_effects. cbn. rewrite Hst, Htr. done.
    - unfold same_effects. cbn. done. }
  split; [done|]. split; [done|]. split; [|done].
  unfold issued. now rewrite Htr.
Qed.

(** ** Scheduled check, manual trigger, snapshots *)

(** The two sides of the time comparison: [HH:MM] of the clock against
    the first five characters of the configured text.  For a configured text
    that starts with a zero-padded [HH:MM], the strings are equal exactly
    when hour and minute are. *)
Lemma app_inj_same_length (a a' b b' : string) :
  String.length a = String.length a' -> a +:+ b = a' +:+ b' -> a = a' /\ b = b'.
Proof.
  revert a'. induction a as [|c a IH]; intros [|c' a'] Hlen Heq; try discriminate.
  - done.
  - cbn in Hlen, Heq. injection Hlen as Hlen. injection Heq as -> Heq.
    destruct (IH a' Hlen Heq) as [-> ->]. done.
Qed.

Lemma string_length_app (a b : string) :
  String.length (a +:+ b) = (String.length a + String.length b)%nat.
Proof.
  induction a as [|c a IH]; [reflexivity|].
  change (S (String.length (a +:+ b)) = S (String.length a + String.length b)).
  now rewrite IH.
Qed.

Lemma two_digits_length n : (n < 100)%nat -> String.length (two_digits n) = 2%nat.
Proof.
  intros Hn.
  assert (Forall (fun n => String.length (two_digits n) = 2%nat) (seq 0 100)) as Hall
    by compute_done.
  rewrite Forall_forall in Hall. apply Hall, elem_of_seq. lia.
Qed.

Lemma two_digits_inj n n' :
  (n < 100)%nat -> (n' < 100)%nat -> two_digits n = two_digits n' -> n = n'.
Proof.
  intros Hn Hn'.
  assert (Forall (fun n => Forall (fun n' => two_digits n = two_digits n' -> n = n')
                                  (seq 0 100)) (seq 0 100)) as Hall
    by compute_done.
  rewrite Forall_forall in Hall. specialize (Hall n). rewrite Forall_forall in Hall.
  apply Hall; apply elem_of_seq; lia.
Qed.

Lemma strftime_HM_inj (t t' : nat * nat) :
  (t.1 < 100)%nat -> (t.2 < 100)%nat -> (t'.1 < 100)%nat -> (t'.2 < 100)%nat ->
  strftime_HM t = strftime_HM t' -> t = t'.
Proof.
  destruct t as [h m], t' as [h' m']. cbn [fst snd]. intros Hh Hm Hh' Hm' Heq.
  unfold strftime_HM in Heq. cbn [fst snd] in Heq.
  apply app_inj_same_length in Heq as [Hhh Hrest];
    [|now rewrite !two_digits_length].
  injection Hrest as Hmm.
  f_equal; now apply two_digits_inj.
Qed.

Lemma start_time_of_cut (t : nat * nat) (rest : string) :
  (t.1 < 100)%nat -> (t.2 < 100)%nat ->
  start_time_of (mkSchedule (Some (strftime_HM t +:+ rest))) = strftime_HM t.
Proof.
  intros Hh Hm.
  assert (String.length (strftime_HM t) = 5%nat) as Hlen.
  { unfold strftime_HM. rewrite !string_length_app, !two_digits_length by done.
    reflexivity. }
  destruct (strftime_HM t) as [|c1 [|c2 [|c3 [|c4 [|c5 [|c6 u]]]]]]; try discriminate.
  destruct rest; reflexivity.
Qed.

Lemma same_minute_iff (now configured : nat * nat) (rest : string) :
  (now.1 < 24)%nat -> (now.2 < 60)%nat ->
  (configured.1 < 24)%nat -> (configured.2 < 60)%nat ->
  strftime_HM now = start_time_of (mkSchedule (Some (strftime_HM configured +:+ rest)))
  <-> now = configured.
Proof.
  intros Hh Hm Hh' Hm'. rewrite start_time_of_cut by lia. split.
  - apply strftime_HM_inj; lia.
  - now intros ->.
Qed.

Lemma check_unfold env s :
  check_and_manage_scheduled_states env s
  = match live_arm_states env (trace s ++ [Ev_datetime_now]) with
    | Raised e =>
        logging_error ("Error in scheduled check_and_manage_scheduled_states: " +:+ e)
          env (check_start s)
    | Returned live_states =>
      match for_each (scheduled_check_step (strftime_HM (clock env (trace s))))
                     live_states tt env (check_start s) with
      | (Returned u, s2) => (Returned u, s2)
      | (Raised e, s2) =>
          logging_error ("Error in scheduled check_and_manage_scheduled_states: " +:+ e)
            env s2
      end
    end.
Proof.
  unfold check_and_manage_scheduled_states, try_except,
    proserver_service.get_all_live_building_arm_states, mbind, M_bind, call, check_start.
  cbn [fst snd trace emit].
  destruct (live_arm_states env (trace s ++ [Ev_datetime_now])); reflexivity.
Qed.

(** One iteration of the scheduled check: the schedule read, followed by
    an alert only for a Disarmed building. *)
Lemma check_step_effects env s current_time building_id is_armed :
  let r := scheduled_check_step current_time (building_id, is_armed) tt env s in
  store r.2 = store s
  /\ (trace r.2 = trace s ++ [Ev_get_building_time building_id]
      \/ (is_armed = false
          /\ trace r.2 = trace s ++ [Ev_get_building_time building_id;
                                     Ev_send_disarmed_axe_message building_id])).
Proof.
  cbn zeta. unfold scheduled_check_step. unfold_service.
  split_cases; (split; [reflexivity|]);
    first [ left; reflexivity
          | right; split; [reflexivity|]; now rewrite <- app_assoc ].
Qed.

(** The calls of one iteration of the scheduled check for a building whose
    schedule read returns a schedule. *)
Lemma check_step_with_schedule env s current_time building_id is_armed schedule :
  building_time env (trace s) building_id = Returned (Some schedule) ->
  trace (scheduled_check_step current_time (building_id, is_armed) tt env s).2
  = trace s ++ Ev_get_building_time building_id
               :: (if String.eqb current_time (start_time_of schedule) && negb is_armed
                   then [Ev_send_disarmed_axe_message building_id] else []).
Proof.
  intros Htime. unfold scheduled_check_step, sqlite_config.get_building_time.
  rewrite (run_call_returned _ _ _ _ _ (Some schedule)) by exact Htime.
  destruct (String.eqb current_time (start_time_of schedule)); cbn [negb andb].
  - destruct is_armed; cbn [negb].
    + reflexivity.
    + unfold logging_warning, proserver_service.send_disarmed_axe_message.
      rewrite run_log. unfold call, emit. cbn [snd trace]. now rewrite <- app_assoc.
  - reflexivity.
Qed.

(** The iterations for other buildings send no alert for this one. *)
Lemma check_loop_other b0 env current_time items : forall s,
  b0 ∉ items.*1 ->
  exists evs,
    trace (for_each (scheduled_check_step current_time) items tt env s).2 = trace s ++ evs
    /\ filter (fun ev => is_alert_for b0 ev) evs = [].
Proof.
  induction items as [|[b a] items IH]; intros s Hnot.
  - exists []. cbn. now rewrite app_nil_r.
  - cbn in Hnot. apply not_elem_of_cons in Hnot as [Hne Hnot].
    rewrite for_each_cons.
    assert (exists evs1,
              trace (scheduled_check_step current_time (b, a) tt env s).2 = trace s ++ evs1
              /\ filter (fun ev => is_alert_for b0 ev) evs1 = []) as (evs1 & Htr1 & Hal1).
    { destruct (check_step_effects env s current_time b a) as [_ [Htr|[_ Htr]]];
        (eexists; split; [exact Htr|]); [reflexivity|].
      rewrite !filter_cons. cbn [is_alert_for].
      rewrite bool_decide_eq_false_2 by congruence. reflexivity. }
    destruct (scheduled_check_step current_time (b, a) tt env s) as [[[]|e] s1];
      cbn [snd] in *.
    + destruct (IH s1 Hnot) as (evs2 & Htr2 & Hal2).
      exists (evs1 ++ evs2). now rewrite Htr2, Htr1, app_assoc, filter_app, Hal1, Hal2.
    + by exists evs1.
Qed.

Lemma check_start_trace s :
  trace (check_start s) = trace s ++ [Ev_datetime_now; Ev_get_all_live_building_arm_states].
Proof. unfold check_start, emit. cbn [trace]. now rewrite <- app_assoc. Qed.

(** The alerts of a whole scheduled check for a building the loop reaches
    and whose schedule read returns a schedule: one when the formatted clock
    reading equals the cut configured text and the panel is Disarmed, none
    otherwise. *)
Lemma alerts_of_check env s before building_id is_armed after s1 schedule :
  live_arm_states env (trace s ++ [Ev_datetime_now])
    = Returned (before ++ (building_id, is_armed) :: after) ->
  NoDup (before ++ (building_id, is_armed) :: after).*1 ->
  for_each (scheduled_check_step (strftime_HM (clock env (trace s)))) before tt env
    (check_start s) = (Returned tt, s1) ->
  building_time env (trace s1) building_id = Returned (Some schedule) ->
  filter (fun ev => is_alert_for building_id ev)
         (issued s (check_and_manage_scheduled_states env s).2)
  = if String.eqb (strftime_HM (clock env (trace s))) (start_time_of schedule)
       && negb is_armed
    then [Ev_send_disarmed_axe_message building_id] else [].
Proof.
  intros Hlive Hnd Hbefore Htime.
  apply NoDup_keys_middle in Hnd as [Hnb Hna].
  set (current_time := strftime_HM (clock env (trace s))) in *.
  destruct (check_loop_other building_id env current_time before (check_start s) Hnb)
    as (evs_b & Htr_b & Hal_b).
  rewrite Hbefore in Htr_b. cbn [snd] in Htr_b.
  pose proof (check_step_with_schedule env s1 current_time building_id is_armed schedule
                Htime) as Hstep.
  set (mine := if String.eqb current_time (start_time_of schedule) && negb is_armed
               then [Ev_send_disarmed_axe_message building_id] else []) in *.
  assert (exists evs_a,
            trace (check_and_manage_scheduled_states env s).2
            = trace s1 ++ (Ev_get_building_time building_id :: mine) ++ evs_a
            /\ filter (fun ev => is_alert_for building_id ev) evs_a = [])
    as (evs_a & Htr & Hal_a).
  { rewrite check_unfold, Hlive. fold current_time.
    rewrite for_each_app, Hbefore, for_each_cons.
    destruct (scheduled_check_step current_time (building_id, is_armed) tt env s1)
      as [[[]|e] s2]; cbn [snd] in Hstep.
    - destruct (check_loop_other building_id env current_time after s2 Hna)
        as (evs_a & Htr_a & Hal_a).
      exists evs_a. split; [|exact Hal_a].
      destruct (for_each _ after tt env s2) as [[[]|e] s3]; cbn [snd] in *;
        unfold logging_error, log; cbn [snd trace];
        now rewrite Htr_a, Hstep, <- app_assoc.
    - exists []. split; [|done]. unfold logging_error, log. cbn [snd trace].
      now rewrite Hstep, app_nil_r. }
  rewrite (issued_app s _
             ([Ev_datetime_now; Ev_get_all_live_building_arm_states] ++ evs_b
              ++ (Ev_get_building_time building_id :: mine) ++ evs_a)).
  - rewrite !filter_app, Hal_b, Hal_a, app_nil_r. cbn [app].
    subst mine. destruct (String.eqb _ _ && negb is_armed); [|reflexivity].
    rewrite !filter_cons, filter_nil. cbn [is_alert_for].
    rewrite bool_decide_eq_true_2 by done. reflexivity.
  - rewrite Htr, Htr_b, check_start_trace, <- !app_assoc. reflexivity.
Qed.

(** [C8], as stated, fails.  The clock reads 20:00; building 2 is
    configured for ["20:00:00"] and its panel is Disarmed.  The schedule
    read for building 1, which the live read lists first, raises: the check
    ends there and no alert is sent for building 2. *)
Lemma alert_missing_after_failed_schedule_read :
  clock demo_env_no_schedule (trace demo_disarmed) = (20, 0)%nat
  /\ live_arm_states demo_env_no_schedule (trace demo_disarmed ++ [Ev_datetime_now])
     = Returned [(1, true); (2, false)]
  /\ (forall h, building_time demo_env_no_schedule h 2
                = Returned (Some (mkSchedule (Some "20:00:00"))))
  /\ let r := check_and_manage_scheduled_states demo_env_no_schedule demo_disarmed in
     r.1 = Returned tt
     /\ issued demo_disarmed r.2
        = [Ev_datetime_now; Ev_get_all_live_building_arm_states; Ev_get_building_time 1]
     /\ filter (fun ev => is_alert ev) (issued demo_disarmed r.2) = [].
Proof.
  split; [reflexivity|]. split; [reflexivity|]. split; [reflexivity|]. vm_compute. done.
Qed.

(** [C8] Alert gating, as the code has it.  Take a scheduled check whose
    clock reads hour and minute [now] and whose live read lists a building.
    When the iterations for the buildings listed before it return and the
    schedule read for the building returns a configured time that starts
    with a zero-padded [HH:MM] for hour and minute [configured] (followed by
    anything, such as the seconds), then over the whole check: if [now] and
    [configured] are the same hour and minute, an Armed panel gets no alert
    and a Disarmed panel gets exactly one disarmed alert for this building;
    if they differ, no alert is sent for the building. *)
Theorem alert_gating env s before building_id is_armed after s1 now configured rest :
  clock env (trace s) = now ->
  (now.1 < 24)%nat -> (now.2 < 60)%nat ->
  (configured.1 < 24)%nat -> (configured.2 < 60)%nat ->
  live_arm_states env (trace s ++ [Ev_datetime_now])
    = Returned (before ++ (building_id, is_armed) :: after) ->
  NoDup (before ++ (building_id, is_armed) :: after).*1 ->
  for_each (scheduled_check_step (strftime_HM now)) before tt env (check_start s)
    = (Returned tt, s1) ->
  building_time env (trace s1) building_id
    = Returned (Some (mkSchedule (Some (strftime_HM configured +:+ rest)))) ->
  let r := check_and_manage_scheduled_states env s in
  let alerts := filter (fun ev => is_alert_for building_id ev) (issued s r.2) in
  (now = configured -> is_armed = true -> alerts = [])
  /\ (now = configured -> is_armed = false ->
      alerts = [Ev_send_disarmed_axe_message building_id])
  /\ (now <> configured -> alerts = []).
Proof.
  intros Hclock Hh Hm Hh' Hm' Hlive Hnd Hbefore Htime r alerts.
  rewrite <- Hclock in Hbefore.
  pose proof (alerts_of_check env s before building_id is_armed after s1 _
                Hlive Hnd Hbefore Htime) as Halerts.
  fold r in Halerts. fold alerts in Halerts. rewrite Hclock in Halerts.
  pose proof (same_minute_iff now configured rest Hh Hm Hh' Hm') as Hsame.
  split; [|split].
  - intros Heq ->. rewrite Halerts. now rewrite andb_false_r.
  - intros Heq ->. rewrite Halerts.
    apply Hsame in Heq. rewrite Heq, String.eqb_refl. reflexivity.
  - intros Hneq. rewrite Halerts.
    destruct (String.eqb_spec (strftime_HM now)
                (start_time_of (mkSchedule (Some (strftime_HM configured +:+ rest)))))
      as [Heq|Hne]; [|reflexivity].
    apply Hsame in Heq. contradiction.
Qed.

(** [C7] Manual-trigger rejection.  While the global panel flag is Armed,
    [reevaluate_building_state] returns without an exception after reading
    that flag from the cache and nothing else: no live-system read, no
    device write, no change of the store.  In every other case (flag
    Disarmed or never set) it runs [_evaluate_building_state] for the
    building, logging and re-raising what that raises. *)
Theorem manual_trigger_rejected_when_armed env s building_id :
  let r := reevaluate_building_state building_id env s in
  match panel_armed (store s) with
  | Some true =>
      r.1 = Returned tt
      /\ trace r.2 = trace s ++ [Ev_get_cache_value "panel_armed"]
      /\ store r.2 = store s
  | _ =>
      r = try_except (_evaluate_building_state building_id)
            (fun e =>
               logger_error ("Error in reevaluate_building_state (Building "
                             +:+ str building_id +:+ "): " +:+ e);;
               raise e)
            env (reevaluate_delegation_state building_id s)
  end.
Proof.
  cbn zeta. unfold reevaluate_building_state, cache_service.get_panel_armed,
    reevaluate_delegation_state, logger_warning, logger_info, try_except,
    mbind, M_bind, log, emit.
  destruct (panel_armed (store s)) as [[|]|]; cbn [default fst snd store trace].
  - done.
  - reflexivity.
  - reflexivity.
Qed.

(** [C6], as stated, fails.  Building 1 has a snapshot and the bulk write
    raises: [revert_snapshot] attempts the write, catches the exception and
    returns; [clear_snapshot] is not called and the snapshot row is still
    there. *)
Lemma snapshot_not_cleared_when_write_raises :
  snapshots (store demo_captured) !! 1 = Some [(1, Reactive); (2, NonReactive)]
  /\ (forall h target_states,
        bulk_result demo_env_write_raises h target_states = Raised "connection lost")
  /\ let r := revert_snapshot 1 [(1, Reactive); (2, NonReactive)] demo_env_write_raises
                demo_captured in
     r.1 = Returned tt
     /\ issued demo_captured r.2
        = [Ev_set_proevent_reactive_state_bulk [(1, Reactive); (2, NonReactive)]]
     /\ snapshots (store r.2) !! 1 = Some [(1, Reactive); (2, NonReactive)].
Proof.
  split; [reflexivity|]. split; [reflexivity|]. vm_compute. done.
Qed.

(** [C6] Revert fidelity, as the code has it.  When the bulk write returns,
    with either success flag, [revert_snapshot] makes exactly two calls: one
    bulk write whose argument is the snapshot data it was given, pair for
    pair and in the same order, then the clearing of the building's snapshot
    row.  It reads
    nothing from the live system or the ignore list, so the outcome does not
    depend on the current live state; the rest of the store is unchanged and
    no exception leaves the function. *)
Theorem revert_reapplies_captured_pairs env s building_id snapshot_data ok :
  bulk_result env (trace s) snapshot_data = Returned ok ->
  let r := revert_snapshot building_id snapshot_data env s in
  r.1 = Returned tt
  /\ trace r.2 = trace s ++ [Ev_set_proevent_reactive_state_bulk snapshot_data;
                             Ev_clear_snapshot building_id]
  /\ snapshots (store r.2) = delete building_id (snapshots (store s))
  /\ snapshots (store r.2) !! building_id = None
  /\ panel_state_cache (store r.2) = panel_state_cache (store s)
  /\ panel_armed (store r.2) = panel_armed (store s).
Proof.
  intros Hbulk. cbn zeta.
  unfold revert_snapshot, try_except, logger_info,
    proserver_service.set_proevent_reactive_state_bulk, sqlite_config.clear_snapshot.
  rewrite run_log, (run_call_returned _ _ _ _ _ ok) by exact Hbulk.
  unfold emit. cbn [fst snd store trace snapshots panel_state_cache panel_armed].
  split; [done|]. split.
  - now rewrite <- app_assoc.
  - split; [done|]. split; [apply lookup_delete_eq|done].
Qed.

(** ** Snapshot guard *)

(** [C5], as stated, fails.  Building 2 of the example world has a schedule
    and no device: the first call reads the (empty) device list and saves
    nothing, so the second call finds no snapshot and reads the device list
    again.  And for building 1 with a snapshot already stored, neither call
    reads or applies anything. *)
Lemma exactly_once_fails_without_devices :
  (forall h, building_time demo_env h 2 = Returned (Some (mkSchedule (Some "20:00:00"))))
  /\ (let r1 := _evaluate_building_state 2 demo_env demo_disarmed in
      let r2 := _evaluate_building_state 2 demo_env r1.2 in
      filter (fun ev => is_device_read ev) (issued demo_disarmed r2.2)
        = [Ev_get_proevents_for_building_from_db 2;
           Ev_get_proevents_for_building_from_db 2]
      /\ filter (fun ev => is_snapshot_save ev) (issued demo_disarmed r1.2) = []
      /\ snapshots (store r1.2) !! 2 = None)
  /\ ~ exactly_once demo_env demo_disarmed 2
  /\ ~ exactly_once demo_env demo_snapshotted 1.
Proof.
  split; [reflexivity|]. split; [|split].
  - vm_compute. done.
  - intros (Hreads & _). vm_compute in Hreads. discriminate.
  - intros (Hreads & _). vm_compute in Hreads. discriminate.
Qed.

(** With a snapshot stored for the building, [_evaluate_building_state]
    reads the schedule and, if there is one, the snapshot, and does nothing
    else. *)
Lemma evaluate_with_snapshot env s building_id snapshot_data :
  snapshots (store s) !! building_id = Some snapshot_data ->
  let r := _evaluate_building_state building_id env s in
  store r.2 = store s
  /\ (trace r.2 = trace s ++ [Ev_get_building_time building_id]
      \/ trace r.2 = trace s ++ [Ev_get_building_time building_id;
                                 Ev_get_snapshot building_id]).
Proof.
  intros Hsnap. cbn zeta. unfold _evaluate_building_state. unfold_service.
  run_monad.
  destruct (building_time env (trace s) building_id) as [[schedule|]|e];
    cbn [fst snd store trace]; [|by split; [|left]..].
  rewrite Hsnap, bool_decide_eq_true_2 by done. cbn [fst snd store trace].
  split; [done|]. right. now rewrite <- app_assoc.
Qed.

(** The first call on a building with a schedule, no snapshot and at least
    one device. *)
Lemma evaluate_without_snapshot env s building_id schedule devices ignored_map :
  building_time env (trace s) building_id = Returned (Some schedule) ->
  snapshots (store s) !! building_id = None ->
  proevents_from_db env
    (trace s ++ [Ev_get_building_time building_id; Ev_get_snapshot building_id])
    building_id = Returned devices ->
  devices <> [] ->
  ignored_proevents env
    (trace s ++ [Ev_get_building_time building_id; Ev_get_snapshot building_id;
                 Ev_get_proevents_for_building_from_db building_id;
                 Ev_save_snapshot building_id (snapshot_of devices)])
    = Returned ignored_map ->
  let r := _evaluate_building_state building_id env s in
  r.1 = Returned tt
  /\ trace r.2
     = trace s ++
       [Ev_get_building_time building_id; Ev_get_snapshot building_id;
        Ev_get_proevents_for_building_from_db building_id;
        Ev_save_snapshot building_id (snapshot_of devices);
        Ev_get_ignored_proevents;
        Ev_set_proevent_reactive_state_bulk
          (schedule_targets (ignored_ids_of building_id ignored_map)
                            (snapshot_of devices))]
  /\ snapshots (store r.2) = <[building_id := snapshot_of devices]> (snapshots (store s)).
Proof.
  intros Htime Hsnap Hdev Hne Hign. cbn zeta.
  unfold _evaluate_building_state, take_snapshot_and_apply_schedule. unfold_service.
  run_monad. rewrite Htime. cbn [fst snd store trace]. rewrite Hsnap.
  rewrite bool_decide_eq_false_2 by (intros H; now apply H).
  cbn [fst snd store trace]. rewrite <- !app_assoc. cbn [app].
  rewrite Hdev, (truthy_true devices Hne). cbn [negb fst snd store trace snapshots].
  rewrite <- !app_assoc. cbn [app]. rewrite Hign.
  match goal with |- context [bulk_result ?e ?h ?t] =>
    destruct (bulk_result e h t) as [ok|e'] end;
    cbn [fst snd store trace snapshots];
    (split; [done|]); (split; [|done]);
    rewrite <- ?app_assoc; reflexivity.
Qed.

(** [C5] Snapshot exactly-once, as the code has it.  For a building with a
    schedule, no stored snapshot and at least one device in the live system,
    when the device read and the ignore-list read of the first call return:
    the first call reads the devices once, saves them as the snapshot and
    issues one bulk write (ignored devices to 1, the others to 0); the
    second call finds the snapshot, leaves the store alone and makes no
    device read, no snapshot save and no bulk write. *)
Theorem snapshot_exactly_once_with_devices env s building_id schedule devices ignored_map :
  building_time env (trace s) building_id = Returned (Some schedule) ->
  snapshots (store s) !! building_id = None ->
  proevents_from_db env
    (trace s ++ [Ev_get_building_time building_id; Ev_get_snapshot building_id])
    building_id = Returned devices ->
  devices <> [] ->
  ignored_proevents env
    (trace s ++ [Ev_get_building_time building_id; Ev_get_snapshot building_id;
                 Ev_get_proevents_for_building_from_db building_id;
                 Ev_save_snapshot building_id (snapshot_of devices)])
    = Returned ignored_map ->
  let r1 := _evaluate_building_state building_id env s in
  let r2 := _evaluate_building_state building_id env r1.2 in
  issued s r1.2
  = [Ev_get_building_time building_id; Ev_get_snapshot building_id;
     Ev_get_proevents_for_building_from_db building_id;
     Ev_save_snapshot building_id (snapshot_of devices);
     Ev_get_ignored_proevents;
     Ev_set_proevent_reactive_state_bulk
       (schedule_targets (ignored_ids_of building_id ignored_map) (snapshot_of devices))]
  /\ snapshots (store r1.2) !! building_id = Some (snapshot_of devices)
  /\ store r2.2 = store r1.2
  /\ filter (fun ev => is_device_read ev || is_snapshot_save ev || is_bulk_write ev)
            (issued r1.2 r2.2) = []
  /\ exactly_once env s building_id.
Proof.
  intros Htime Hsnap Hdev Hne Hign r1 r2.
  pose proof (evaluate_without_snapshot env s building_id schedule devices ignored_map
                Htime Hsnap Hdev Hne Hign) as (Hres & Htr & Hstore).
  cbn zeta in Hres, Htr, Hstore. fold r1 in Hres, Htr, Hstore.
  assert (snapshots (store r1.2) !! building_id = Some (snapshot_of devices)) as Hsaved.
  { rewrite Hstore. apply lookup_insert_eq. }
  pose proof (evaluate_with_snapshot env r1.2 building_id _ Hsaved) as [Hstore2 Htr2].
  cbn zeta in Hstore2, Htr2. fold r2 in Hstore2, Htr2.
  unfold exactly_once. cbn zeta. fold r1. fold r2.
  rewrite (issued_app _ _ _ Htr).
  destruct Htr2 as [Htr2|Htr2]; rewrite (issued_app _ _ _ Htr2);
    (erewrite (issued_app s r2.2);
     [| rewrite Htr2, Htr, <- app_assoc; reflexivity]);
    rewrite Hsaved; cbn; done.
Qed.

(** ** The properties on the example world *)

(** Building 1, cached Disarmed and live Armed, devices 1, 3, 7, ignore set
    {3, 7}: one bulk write for the building, devices 3 and 7 to Reactive. *)
Lemma edge_bulk_write_on_ignore_set_witness :
  let r := manage_proevents_on_panel_state_change demo_env demo_disarmed in
  exists target_states later,
    trace r.2 = trace (loop_start demo_disarmed)
                ++ [Ev_get_proevents_for_building_from_db 1; Ev_get_ignored_proevents;
                    Ev_set_proevent_reactive_state_bulk target_states] ++ later
    /\ bulk_writes_for 1 None (issued demo_disarmed r.2) = [target_states]
    /\ NoDup target_states.*1
    /\ forall pid st,
         (pid, st) ∈ target_states <->
         st = Reactive /\
         exists data, demo_ignored !! pid = Some data
                      /\ building_frk data = Some 1
                      /\ ignore_on_disarm data = true.
Proof.
  apply (edge_bulk_write_on_ignore_set demo_env demo_disarmed [] 1 true [(2, false)]
           (cached_states_of demo_disarmed) (loop_start demo_disarmed)
           [mkDevice 1 0; mkDevice 3 1; mkDevice 7 1] demo_ignored).
  - reflexivity.
  - compute_done.
  - vm_compute. reflexivity.
  - reflexivity.
  - reflexivity.
  - discriminate.
  - reflexivity.
  - intros H. apply (f_equal elements) in H. vm_compute in H. discriminate.
Defined.

(** The spec's two examples on whole ticks: the only bulk write of the tick
    sets devices 3 and 7, and no other, to Reactive on the way to Armed and
    to Non-Reactive on the way to Disarmed. *)
Example edge_to_armed_3_7 :
  let r := manage_proevents_on_panel_state_change demo_env demo_disarmed in
  exists target_states,
    filter (fun ev => is_bulk_write ev) (issued demo_disarmed r.2)
    = [Ev_set_proevent_reactive_state_bulk target_states]
    /\ bulk_writes_for 1 None (issued demo_disarmed r.2) = [target_states]
    /\ target_states ≡ₚ [(3, Reactive); (7, Reactive)].
Proof.
  eexists. split; [vm_compute; reflexivity|]. split; [vm_compute; reflexivity|].
  apply perm_swap.
Qed.

Example edge_to_disarmed_3_7 :
  let r := manage_proevents_on_panel_state_change demo_env_disarming demo_armed in
  exists target_states,
    filter (fun ev => is_bulk_write ev) (issued demo_armed r.2)
    = [Ev_set_proevent_reactive_state_bulk target_states]
    /\ bulk_writes_for 1 None (issued demo_armed r.2) = [target_states]
    /\ target_states ≡ₚ [(3, NonReactive); (7, NonReactive)].
Proof.
  eexists. split; [vm_compute; reflexivity|]. split; [vm_compute; reflexivity|].
  apply perm_swap.
Qed.

Lemma no_edge_no_bulk_write_witness :
  let r := manage_proevents_on_panel_state_change demo_env demo_settled in
  trace r.2
  = trace demo_settled
    ++ [Ev_get_all_live_building_arm_states;
        Ev_get_cache_value "panel_state_cache";
        Ev_set_cache_panel_state (cached_states_of demo_settled)]
  /\ filter (fun ev => is_bulk_write ev) (issued demo_settled r.2) = [].
Proof.
  apply (no_edge_no_bulk_write demo_env demo_settled [(1, true); (2, false)]).
  - reflexivity.
  - intros b a Hin. apply list_elem_of_In in Hin.
    destruct Hin as [[= <- <-]|[[= <- <-]|[]]]; vm_compute; reflexivity.
Defined.


(** On a cold start the whole tick writes the cache and nothing else. *)
Example cold_start_tick :
  let r := manage_proevents_on_panel_state_change demo_env demo_cold in
  issued demo_cold r.2
  = [Ev_get_all_live_building_arm_states; Ev_get_cache_value "panel_state_cache";
     Ev_set_cache_panel_state (<[str 2 := false]> (<[str 1 := true]> ∅))]
  /\ panel_state_cache (store r.2) = Some (<[str 2 := false]> (<[str 1 := true]> ∅)).
Proof. vm_compute. done. Qed.


Example failed_write_tick_advances_cache :
  let r := manage_proevents_on_panel_state_change demo_env demo_disarmed in
  panel_state_cache (store r.2) = Some (<[str 1 := true]> (<[str 2 := false]> ∅))
  /\ length (filter (fun ev => is_bulk_write ev) (issued demo_disarmed r.2)) = 1%nat.
Proof. vm_compute. done. Qed.

Lemma snapshot_exactly_once_with_devices_witness :
  let r1 := _evaluate_building_state 1 demo_env demo_disarmed in
  let r2 := _evaluate_building_state 1 demo_env r1.2 in
  issued demo_disarmed r1.2
  = [Ev_get_building_time 1; Ev_get_snapshot 1;
     Ev_get_proevents_for_building_from_db 1;
     Ev_save_snapshot 1 (snapshot_of [mkDevice 1 0; mkDevice 3 1; mkDevice 7 1]);
     Ev_get_ignored_proevents;
     Ev_set_proevent_reactive_state_bulk
       (schedule_targets (ignored_ids_of 1 demo_ignored)
          (snapshot_of [mkDevice 1 0; mkDevice 3 1; mkDevice 7 1]))]
  /\ snapshots (store r1.2) !! 1
     = Some (snapshot_of [mkDevice 1 0; mkDevice 3 1; mkDevice 7 1])
  /\ store r2.2 = store r1.2
  /\ filter (fun ev => is_device_read ev || is_snapshot_save ev || is_bulk_write ev)
            (issued r1.2 r2.2) = []
  /\ exactly_once demo_env demo_disarmed 1.
Proof.
  apply (snapshot_exactly_once_with_devices demo_env demo_disarmed 1
           (mkSchedule (Some "20:00:00"))
           [mkDevice 1 0; mkDevice 3 1; mkDevice 7 1] demo_ignored).
  - reflexivity.
  - reflexivity.
  - reflexivity.
  - discriminate.
  - reflexivity.
Defined.

Example schedule_applied_once :
  let r1 := _evaluate_building_state 1 demo_env demo_disarmed in
  let r2 := _evaluate_building_state 1 demo_env r1.2 in
  filter (fun ev => is_bulk_write ev) (issued demo_disarmed r2.2)
  = [Ev_set_proevent_reactive_state_bulk
       [(1, Reactive); (3, NonReactive); (7, NonReactive)]].
Proof. vm_compute. reflexivity. Qed.

(** The spec's example: [revert_snapshot(B, [(1, Reactive), (2, NonReactive)])]
    on a building that has this snapshot, here with a write that reports
    failure. *)
Lemma revert_reapplies_captured_pairs_witness :
  let r := revert_snapshot 1 [(1, Reactive); (2, NonReactive)] demo_env demo_captured in
  snapshots (store demo_captured) !! 1 = Some [(1, Reactive); (2, NonReactive)]
  /\ r.1 = Returned tt
  /\ trace r.2
     = trace demo_captured
       ++ [Ev_set_proevent_reactive_state_bulk [(1, Reactive); (2, NonReactive)];
           Ev_clear_snapshot 1]
  /\ snapshots (store r.2) = delete 1 (snapshots (store demo_captured))
  /\ snapshots (store r.2) !! 1 = None
  /\ panel_state_cache (store r.2) = panel_state_cache (store demo_captured)
  /\ panel_armed (store r.2) = panel_armed (store demo_captured).
Proof.
  split; [reflexivity|].
  apply (revert_reapplies_captured_pairs demo_env demo_captured 1
           [(1, Reactive); (2, NonReactive)] false).
  reflexivity.
Defined.

(** Building 2 is Disarmed at its configured time ["20:00:00"], cut to
    ["20:00"], and the clock of the example world reads 20:00: the check
    sends one alert for it. *)
Lemma alert_gating_witness :
  let r := check_and_manage_scheduled_states demo_env demo_disarmed in
  filter (fun ev => is_alert_for 2 ev) (issued demo_disarmed r.2)
  = [Ev_send_disarmed_axe_message 2].
Proof.
  destruct (alert_gating demo_env demo_disarmed [(1, true)] 2 false []
              (for_each (scheduled_check_step (strftime_HM (20, 0)%nat)) [(1, true)] tt
                 demo_env (check_start demo_disarmed)).2
              (20, 0)%nat (20, 0)%nat ":00") as (_ & Hdisarmed & _).
  - reflexivity.
  - cbn; lia.
  - cbn; lia.
  - cbn; lia.
  - cbn; lia.
  - reflexivity.
  - compute_done.
  - reflexivity.
  - reflexivity.
  - apply Hdisarmed; reflexivity.
Defined.

Example scheduled_check_at_20_00 :
  let r := check_and_manage_scheduled_states demo_env demo_disarmed in
  issued demo_disarmed r.2
  = [Ev_datetime_now; Ev_get_all_live_building_arm_states;
     Ev_get_building_time 1; Ev_get_building_time 2;
     Ev_send_disarmed_axe_message 2].
Proof. vm_compute. reflexivity. Qed.

Example time_formats :
  strftime_HM (8%nat, 5%nat) = "08:05"
  /\ start_time_of (mkSchedule (Some "20:00:00")) = "20:00"
  /\ start_time_of (mkSchedule None) = "20:00"
  /\ start_time_of (mkSchedule (Some EmptyString)) = "20:00".
Proof. vm_compute. done. Qed.

Example manual_trigger_while_armed :
  let r := reevaluate_building_state 1 demo_env demo_armed in
  r.1 = Returned tt /\ issued demo_armed r.2 = [Ev_get_cache_value "panel_armed"]
  /\ store r.2 = store demo_armed.
Proof. vm_compute. done. Qed.

(** * Further properties of the code *)

(** ** The tick: edges without a bulk write, the ignore flags, the cache *)

(** [X1] An edge for a building the live system returns no device for: the
    iteration makes the device read and nothing else (no ignore-list read,
    no bulk write) and still puts the live flag into the working copy. *)
Theorem edge_without_devices env s cached_states new_cached_states building_id is_armed :
  cached_states !! str building_id = Some (negb is_armed) ->
  proevents_from_db env (trace s) building_id = Returned [] ->
  let r := panel_state_change_step cached_states (building_id, is_armed)
             new_cached_states env s in
  r.1 = Returned (<[str building_id := is_armed]> new_cached_states)
  /\ trace r.2 = trace s ++ [Ev_get_proevents_for_building_from_db building_id]
  /\ store r.2 = store s.
Proof.
  intros Hprev Hdev. cbn zeta. unfold panel_state_change_step, logger_info.
  rewrite Hprev, run_log, bool_decide_negb_ne, run_log.
  unfold proserver_service.get_proevents_for_building_from_db.
  rewrite (run_call_returned _ _ _ _ _ []) by exact Hdev.
  cbn [truthy negb]. unfold logger_warning. rewrite run_log. done.
Qed.

(** Building 2 of the example world, cached Armed and live Disarmed, has no
    device. *)
Lemma edge_without_devices_witness :
  let r := panel_state_change_step (cached_states_of demo_armed) (2, false)
             (cached_states_of demo_armed) demo_env (loop_start demo_armed) in
  r.1 = Returned (<[str 2 := false]> (cached_states_of demo_armed))
  /\ trace r.2 = trace (loop_start demo_armed) ++ [Ev_get_proevents_for_building_from_db 2]
  /\ store r.2 = store (loop_start demo_armed).
Proof.
  apply (edge_without_devices demo_env (loop_start demo_armed)
           (cached_states_of demo_armed) (cached_states_of demo_armed) 2 false).
  - vm_compute. reflexivity.
  - reflexivity.
Defined.

Lemma ignored_ids_of_empty building_id ignored_map :
  (forall pid data, ignored_map !! pid = Some data ->
                    building_frk data = Some building_id ->
                    ignore_on_disarm data = false) ->
  ignored_ids_of building_id ignored_map = ∅.
Proof.
  intros Hnone. apply set_eq. intros pid. rewrite elem_of_ignored_ids_of. split.
  - intros (data & Hl & Hb & Hi). rewrite (Hnone pid data Hl Hb) in Hi. discriminate.
  - intros Hin. by apply not_elem_of_empty in Hin.
Qed.

(** [X2] An edge for a building with devices but with no entry of the ignore
    list that carries its id and [ignore_on_disarm]: the iteration reads
    the devices and the ignore list, issues no bulk write, and still puts
    the live flag into the working copy, on either transition. *)
Theorem edge_with_empty_ignore_set env s cached_states new_cached_states building_id
    is_armed devices ignored_map :
  cached_states !! str building_id = Some (negb is_armed) ->
  proevents_from_db env (trace s) building_id = Returned devices ->
  devices <> [] ->
  ignored_proevents env (trace s ++ [Ev_get_proevents_for_building_from_db building_id])
    = Returned ignored_map ->
  (forall pid data, ignored_map !! pid = Some data ->
                    building_frk data = Some building_id ->
                    ignore_on_disarm data = false) ->
  let r := panel_state_change_step cached_states (building_id, is_armed)
             new_cached_states env s in
  r.1 = Returned (<[str building_id := is_armed]> new_cached_states)
  /\ trace r.2 = trace s ++ [Ev_get_proevents_for_building_from_db building_id;
                             Ev_get_ignored_proevents]
  /\ store r.2 = store s.
Proof.
  intros Hprev Hdev Hne Hign Hnone. cbn zeta.
  unfold panel_state_change_step, logger_info.
  rewrite Hprev, run_log, bool_decide_negb_ne, run_log.
  unfold proserver_service.get_proevents_for_building_from_db.
  rewrite (run_call_returned _ _ _ _ _ devices) by exact Hdev.
  rewrite (truthy_true devices Hne). cbn [negb].
  unfold sqlite_config.get_ignored_proevents.
  rewrite (run_call_returned _ _ _ _ _ ignored_map) by exact Hign.
  rewrite (ignored_ids_of_empty _ _ Hnone), elements_empty. cbn [truthy andb].
  destruct is_armed; cbn [negb andb]; rewrite ?run_bind_assoc, run_log;
    cbn; rewrite <- app_assoc; done.
Qed.

(** Building 1 with an ignore entry that is flagged for arming only. *)
Lemma edge_with_empty_ignore_set_witness :
  let r := panel_state_change_step (cached_states_of demo_disarmed) (1, true)
             (cached_states_of demo_disarmed) demo_env_arm_flags
             (loop_start demo_disarmed) in
  r.1 = Returned (<[str 1 := true]> (cached_states_of demo_disarmed))
  /\ trace r.2 = trace (loop_start demo_disarmed)
                 ++ [Ev_get_proevents_for_building_from_db 1; Ev_get_ignored_proevents]
  /\ store r.2 = store (loop_start demo_disarmed).
Proof.
  apply (edge_with_empty_ignore_set demo_env_arm_flags (loop_start demo_disarmed)
           (cached_states_of demo_disarmed) (cached_states_of demo_disarmed) 1 true
           [mkDevice 1 0; mkDevice 3 1; mkDevice 7 1] demo_arm_flags).
  - vm_compute. reflexivity.
  - reflexivity.
  - discriminate.
  - reflexivity.
  - assert (map_Forall (fun (_ : Z) data => building_frk data = Some 1 ->
                                           ignore_on_disarm data = false)
                       demo_arm_flags) as Hall by compute_done.
    intros pid data Hl. exact (Hall pid data Hl).
Defined.

Lemma ignored_ids_of_reflag (f : IgnoreData -> bool) building_id
    (ignored_map : gmap Z IgnoreData) :
  ignored_ids_of building_id (reflag f <$> ignored_map)
  = ignored_ids_of building_id ignored_map.
Proof.
  apply set_eq. intros pid. rewrite !elem_of_ignored_ids_of.
  setoid_rewrite lookup_fmap. split.
  - intros (data & Hl & Hb & Hi).
    destruct (ignored_map !! pid) as [data0|] eqn:Hl0; [|discriminate].
    cbn in Hl. injection Hl as <-. exists data0. done.
  - intros (data & Hl & Hb & Hi). rewrite Hl. cbn. eexists. split; [reflexivity|]. done.
Qed.

Lemma step_reflag f env cached_states item new_cached_states s :
  panel_state_change_step cached_states item new_cached_states (with_ignore_on_arm f env) s
  = panel_state_change_step cached_states item new_cached_states env s.
Proof.
  destruct item as [building_id is_armed]. unfold_service.
  unfold with_ignore_on_arm. run_env.
  destruct (cached_states !! str building_id) as [prev|]; run_env; [|reflexivity].
  destruct (bool_decide (prev = is_armed)); run_env; [reflexivity|].
  destruct (proevents_from_db env (trace s) building_id) as [devices|e];
    run_env; [|reflexivity].
  destruct (negb (truthy devices)); run_env; [reflexivity|].
  destruct (ignored_proevents env _) as [ignored_map|e]; run_env; [|reflexivity].
  rewrite ignored_ids_of_reflag.
  destruct is_armed; run_env;
    destruct (truthy (elements (ignored_ids_of building_id ignored_map)));
    run_env; try reflexivity;
    (destruct (bulk_result env _ _) as [[|]|]; run_env; reflexivity).
Qed.

(** [X3] The [ignore_on_arm] flag of the ignore entries is never read by
    the tick: against a world whose ignore list carries any other values of
    that flag, the tick returns the same result and leaves the same state
    (same calls, same bulk writes, same cache, same log). *)
Theorem tick_ignores_ignore_on_arm f env s :
  manage_proevents_on_panel_state_change (with_ignore_on_arm f env) s
  = manage_proevents_on_panel_state_change env s.
Proof.
  unfold manage_proevents_on_panel_state_change, try_except.
  assert (forall live_states new s0,
            for_each (panel_state_change_step (cached_states_of s)) live_states new
              (with_ignore_on_arm f env) s0
            = for_each (panel_state_change_step (cached_states_of s)) live_states new
                env s0) as Hloop.
  { induction live_states as [|item items IH]; intros new s0; [reflexivity|].
    rewrite !for_each_cons, step_reflag.
    destruct (panel_state_change_step _ item new env s0) as [[acc|e] s1];
      [apply IH|reflexivity]. }
  rewrite !try_unfold. cbn [with_ignore_on_arm live_arm_states].
  destruct (live_arm_states env (trace s)) as [live_states|e]; [|reflexivity].
  now rewrite Hloop.
Qed.

(** [X4] The tick only ever changes the cache entries of the buildings in
    its live read.  After a tick that runs to its end, every other key of
    the persisted cache (a building the live system no longer reports) has
    the value it had before; the global panel flag and the snapshots are
    untouched. *)
Theorem tick_keeps_other_entries env s live_states key :
  live_arm_states env (trace s) = Returned live_states ->
  key ∉ str <$> live_states.*1 ->
  (panel_state_change_try env s).1 = Returned tt ->
  let r := manage_proevents_on_panel_state_change env s in
  (exists m, panel_state_cache (store r.2) = Some m
             /\ m !! key = cached_states_of s !! key)
  /\ panel_armed (store r.2) = panel_armed (store s)
  /\ snapshots (store r.2) = snapshots (store s).
Proof.
  intros Hlive Hkey Hdone. cbn zeta.
  destruct (panel_state_change_try env s) as [[[]|e] s'] eqn:Hrun; [|discriminate].
  rewrite (manage_completed env s s' Hrun). cbn [snd].
  rewrite try_unfold, Hlive in Hrun.
  pose proof (loop_effects env (cached_states_of s) live_states (loop_start s)
                (cached_states_of s)) as [Hst _]. cbn zeta in Hst.
  destruct (for_each _ live_states _ env (loop_start s)) as [[new|e] s2] eqn:Hloop;
    [|discriminate].
  apply loop_returned in Hloop. subst new.
  unfold cache_service.set_panel_state_cache in Hrun. injection Hrun as <-.
  cbn [snd store panel_state_cache panel_armed snapshots] in *. rewrite Hst.
  split; [|done]. eexists. split; [reflexivity|]. now apply advance_other.
Qed.

Lemma tick_keeps_other_entries_witness :
  let r := manage_proevents_on_panel_state_change demo_env demo_with_gone in
  (exists m, panel_state_cache (store r.2) = Some m
             /\ m !! str 3 = cached_states_of demo_with_gone !! str 3)
  /\ panel_armed (store r.2) = panel_armed (store demo_with_gone)
  /\ snapshots (store r.2) = snapshots (store demo_with_gone).
Proof.
  apply (tick_keeps_other_entries demo_env demo_with_gone [(1, true); (2, false)] (str 3)).
  - reflexivity.
  - compute_done.
  - reflexivity.
Defined.

(** The trace of a tick that sees no edge (the argument of the idempotence
    property, for use below). *)
Lemma tick_without_edge env s live_states :
  live_arm_states env (trace s) = Returned live_states ->
  (forall b a, (b, a) ∈ live_states -> cached_states_of s !! str b = Some a) ->
  manage_proevents_on_panel_state_change env s
  = (Returned tt,
     mkState (mkStore (Some (cached_states_of s)) (panel_armed (store s))
                      (snapshots (store s)))
             (trace s ++ [Ev_get_all_live_building_arm_states;
                          Ev_get_cache_value "panel_state_cache";
                          Ev_set_cache_panel_state (cached_states_of s)])
             (logs (manage_proevents_on_panel_state_change env s).2)).
Proof.
  intros Hlive Hall.
  unfold manage_proevents_on_panel_state_change, try_except.
  rewrite try_unfold, Hlive.
  destruct (loop_no_change env (cached_states_of s) live_states (loop_start s)
              (cached_states_of s) Hall) as (s' & -> & Ht & Hs).
  unfold cache_service.set_panel_state_cache. cbn [snd logs].
  rewrite Ht, Hs. unfold loop_start, emit. cbn [trace store].
  now rewrite <- !app_assoc.
Qed.

(** [X5] The tick converges.  When a tick has run to its end and the next
    tick reads the same live states, the next tick finds no edge: it makes
    the live read, the cache read and the cache write, issues no bulk write
    and leaves the persisted cache as it is. *)
Theorem second_tick_is_quiet env s live_states :
  live_arm_states env (trace s) = Returned live_states ->
  NoDup live_states.*1 ->
  (panel_state_change_try env s).1 = Returned tt ->
  let s1 := (manage_proevents_on_panel_state_change env s).2 in
  live_arm_states env (trace s1) = Returned live_states ->
  let r := manage_proevents_on_panel_state_change env s1 in
  trace r.2 = trace s1 ++ [Ev_get_all_live_building_arm_states;
                           Ev_get_cache_value "panel_state_cache";
                           Ev_set_cache_panel_state (cached_states_of s1)]
  /\ filter (fun ev => is_bulk_write ev) (issued s1 r.2) = []
  /\ store r.2 = store s1.
Proof.
  intros Hlive Hnd Hdone s1 Hlive1 r.
  destruct (panel_state_change_try env s) as [[[]|e] s'] eqn:Hrun; [|discriminate].
  assert (s1 = s') as Hs1 by (subst s1; now rewrite (manage_completed env s s' Hrun)).
  assert (forall b a, (b, a) ∈ live_states -> cached_states_of s1 !! str b = Some a) as Hall.
  { intros b a Hin. rewrite Hs1.
    destruct (tick_completed_cache env s s' live_states b a Hlive Hnd Hin Hrun)
      as (m & Hm & Hb).
    unfold cached_states_of. now rewrite Hm. }
  assert (exists m, panel_state_cache (store s1) = Some m) as [m Hm].
  { rewrite Hs1. rewrite try_unfold, Hlive in Hrun.
    destruct (for_each _ live_states _ env (loop_start s)) as [[new|e] s2];
      [|discriminate].
    unfold cache_service.set_panel_state_cache in Hrun. injection Hrun as <-.
    eexists. reflexivity. }
  subst r. rewrite (tick_without_edge env s1 live_states Hlive1 Hall). cbn [snd trace store].
  split; [done|]. split.
  - erewrite issued_app; [|cbn [trace]; reflexivity]. reflexivity.
  - unfold cached_states_of. rewrite Hm. cbn [default].
    destruct (store s1) as [c f sn]. cbn in *. now subst c.
Qed.

Lemma second_tick_is_quiet_witness :
  let s1 := (manage_proevents_on_panel_state_change demo_env demo_disarmed).2 in
  let r := manage_proevents_on_panel_state_change demo_env s1 in
  trace r.2 = trace s1 ++ [Ev_get_all_live_building_arm_states;
                           Ev_get_cache_value "panel_state_cache";
                           Ev_set_cache_panel_state (cached_states_of s1)]
  /\ filter (fun ev => is_bulk_write ev) (issued s1 r.2) = []
  /\ store r.2 = store s1.
Proof.
  apply (second_tick_is_quiet demo_env demo_disarmed [(1, true); (2, false)]).
  - reflexivity.
  - compute_done.
  - reflexivity.
  - reflexivity.
Defined.

(** [X6] One failing device read ends the tick for every later building.
    When the loop has reached a building on an edge and the device read for
    it raises, the tick makes no further call: the buildings after it in the
    live read are not looked at, no cache write is issued, the store is as
    before the tick, and the tick itself returns normally. *)
Theorem failed_device_read_ends_tick env s before building_id is_armed after acc s1 e :
  live_arm_states env (trace s) = Returned (before ++ (building_id, is_armed) :: after) ->
  for_each (panel_state_change_step (cached_states_of s)) before (cached_states_of s)
    env (loop_start s) = (Returned acc, s1) ->
  cached_states_of s !! str building_id = Some (negb is_armed) ->
  proevents_from_db env (trace s1) building_id = Raised e ->
  let r := manage_proevents_on_panel_state_change env s in
  r.1 = Returned tt
  /\ trace r.2 = trace s1 ++ [Ev_get_proevents_for_building_from_db building_id]
  /\ store r.2 = store s.
Proof.
  intros Hlive Hbefore Hprev Hdev. cbn zeta.
  pose proof (loop_effects env (cached_states_of s) before (loop_start s)
                (cached_states_of s)) as [Hst _]. cbn zeta in Hst.
  rewrite Hbefore in Hst. cbn [snd] in Hst.
  unfold manage_proevents_on_panel_state_change, try_except.
  rewrite try_unfold, Hlive, for_each_app, Hbefore, for_each_cons.
  unfold panel_state_change_step, logger_info.
  rewrite Hprev, run_log, bool_decide_negb_ne, run_log.
  unfold proserver_service.get_proevents_for_building_from_db.
  rewrite (run_call_raised _ _ _ _ _ e) by exact Hdev.
  unfold logger_error, log, emit. cbn [fst snd store trace]. done.
Qed.

Lemma failed_device_read_ends_tick_witness :
  let r := manage_proevents_on_panel_state_change demo_env_failing demo_mixed in
  r.1 = Returned tt
  /\ trace r.2
     = trace (for_each (panel_state_change_step (cached_states_of demo_mixed))
                [(1, true)] (cached_states_of demo_mixed) demo_env_failing
                (loop_start demo_mixed)).2
       ++ [Ev_get_proevents_for_building_from_db 2]
  /\ store r.2 = store demo_mixed.
Proof.
  apply (failed_device_read_ends_tick demo_env_failing demo_mixed [(1, true)] 2 false []
           (<[str 1 := true]> (cached_states_of demo_mixed)) _ "connection lost").
  - reflexivity.
  - vm_compute. reflexivity.
  - vm_compute. reflexivity.
  - reflexivity.
Defined.

(** ** The scheduled check *)

Lemma check_loop_effects env current_time live_states : forall s,
  let r := for_each (scheduled_check_step current_time) live_states tt env s in
  store r.2 = store s
  /\ exists evs,
       trace r.2 = trace s ++ evs
       /\ Forall (fun ev => check_event ev = true
                            /\ forall b, ev = Ev_send_disarmed_axe_message b ->
                                         (b, false) ∈ live_states) evs.
Proof.
  induction live_states as [|[b a] items IH]; intros s.
  - cbn. split; [done|]. exists []. now rewrite app_nil_r.
  - cbn zeta. rewrite for_each_cons.
    pose proof (check_step_effects env s current_time b a) as [Hst Htr]. cbn zeta in *.
    assert (exists evs0, trace (scheduled_check_step current_time (b, a) tt env s).2
                         = trace s ++ evs0
                         /\ Forall (fun ev => check_event ev = true
                                /\ forall b', ev = Ev_send_disarmed_axe_message b' ->
                                              (b', false) ∈ (b, a) :: items) evs0)
      as (evs0 & Htr0 & Hall0).
    { destruct Htr as [Htr|[-> Htr]]; eexists; (split; [exact Htr|]).
      - constructor; [|constructor].
        split; [reflexivity|]. intros b1 Heq. discriminate.
      - constructor; [|constructor; [|constructor]].
        + split; [reflexivity|]. intros b1 Heq. discriminate.
        + split; [reflexivity|]. intros b1 [= <-]. by left. }
    destruct (scheduled_check_step current_time (b, a) tt env s) as [[[]|e] s1];
      cbn [fst snd] in *.
    + specialize (IH s1) as [Hst' (evs' & Htr' & Hall')]. cbn zeta in *.
      split; [congruence|]. exists (evs0 ++ evs').
      split; [now rewrite Htr', Htr0, app_assoc|].
      apply Forall_app. split; [exact Hall0|].
      eapply Forall_impl; [exact Hall'|]. cbn. intros ev [Hev Hsend].
      split; [exact Hev|]. intros b' Heq. right. now apply Hsend.
    + split; [done|]. by exists evs0.
Qed.

(** [X7] The scheduled check never raises, never changes the store, and
    makes no call other than the clock read, the live read, schedule reads
    and alerts (no bulk write, no cache access).  Every alert it sends is
    for a building that its live read reports Disarmed. *)
Theorem scheduled_check_effects env s :
  let r := check_and_manage_scheduled_states env s in
  r.1 = Returned tt
  /\ store r.2 = store s
  /\ exists evs,
       trace r.2 = trace s ++ evs
       /\ forall ev, ev ∈ evs ->
            check_event ev = true
            /\ forall b, ev = Ev_send_disarmed_axe_message b ->
                 exists live_states,
                   live_arm_states env (trace s ++ [Ev_datetime_now]) = Returned live_states
                   /\ (b, false) ∈ live_states.
Proof.
  cbn zeta. rewrite check_unfold.
  destruct (live_arm_states env (trace s ++ [Ev_datetime_now])) as [live_states|e].
  - pose proof (check_loop_effects env (strftime_HM (clock env (trace s))) live_states
                  (check_start s)) as [Hst (evs & Htr & Hall)]. cbn zeta in *.
    assert (forall ev, ev ∈ [Ev_datetime_now; Ev_get_all_live_building_arm_states] ++ evs ->
              check_event ev = true
              /\ forall b, ev = Ev_send_disarmed_axe_message b ->
                   exists live_states0,
                     Returned live_states = Returned live_states0
                     /\ (b, false) ∈ live_states0) as Hevs.
    { intros ev Hin. apply elem_of_app in Hin as [Hin|Hin].
      - apply list_elem_of_In in Hin. destruct Hin as [<-|[<-|[]]];
          (split; [reflexivity|discriminate]).
      - rewrite Forall_forall in Hall. destruct (Hall ev Hin) as [Hev Hsend].
        split; [exact Hev|]. intros b Heq. exists live_states. split; [done|].
        now apply Hsend. }
    destruct (for_each _ live_states tt env (check_start s)) as [[[]|e] s2];
      cbn [fst snd] in *; unfold logging_error, log; cbn [fst snd store trace];
      (split; [done|]); (split; [exact Hst|]);
      exists ([Ev_datetime_now; Ev_get_all_live_building_arm_states] ++ evs);
      (split; [|exact Hevs]);
      rewrite Htr; unfold check_start, emit; cbn [trace]; now rewrite <- !app_assoc.
  - unfold logging_error, log, check_start, emit. cbn [fst snd store trace].
    split; [done|]. split; [done|].
    exists [Ev_datetime_now; Ev_get_all_live_building_arm_states].
    split; [now rewrite <- app_assoc|].
    intros ev Hin. apply list_elem_of_In in Hin. destruct Hin as [<-|[<-|[]]];
      (split; [reflexivity|discriminate]).
Qed.

Lemma check_step_with_store st env s current_time item :
  scheduled_check_step current_time item tt env (with_store st s)
  = ((scheduled_check_step current_time item tt env s).1,
     with_store st (scheduled_check_step current_time item tt env s).2).
Proof.
  destruct item as [building_id is_armed].
  unfold scheduled_check_step, with_store. unfold_service.
  split_cases; reflexivity.
Qed.

Lemma check_loop_with_store st env current_time live_states : forall s,
  for_each (scheduled_check_step current_time) live_states tt env (with_store st s)
  = ((for_each (scheduled_check_step current_time) live_states tt env s).1,
     with_store st (for_each (scheduled_check_step current_time) live_states tt env s).2).
Proof.
  induction live_states as [|item items IH]; intros s; [reflexivity|].
  rewrite !for_each_cons, check_step_with_store.
  destruct (scheduled_check_step current_time item tt env s) as [[[]|e] s1];
    cbn [fst snd]; [apply IH|reflexivity].
Qed.

(** [X8] The scheduled check does not look at the store: run against any
    other content of the panel-state cache, the global flag and the
    snapshots, it returns the same result, makes the same calls (the same
    alerts) and writes the same log lines.  In particular a building the
    tick has never observed is alerted like any other. *)
Theorem scheduled_check_ignores_store st env s :
  check_and_manage_scheduled_states env (with_store st s)
  = ((check_and_manage_scheduled_states env s).1,
     with_store st (check_and_manage_scheduled_states env s).2).
Proof.
  rewrite !check_unfold.
  change (trace (with_store st s)) with (trace s).
  change (check_start (with_store st s)) with (with_store st (check_start s)).
  destruct (live_arm_states env (trace s ++ [Ev_datetime_now])) as [live_states|e];
    [|reflexivity].
  rewrite check_loop_with_store.
  destruct (for_each _ live_states tt env (check_start s)) as [[[]|e] s2]; reflexivity.
Qed.

(** [X9] One failing schedule read ends the scheduled check for every later
    building.  When the loop has reached a building and the schedule read
    for it raises, the check makes no further call (no alert for this or any
    later building of the live read) and returns normally. *)
Theorem failed_schedule_read_ends_check env s before building_id is_armed after s1 e :
  live_arm_states env (trace s ++ [Ev_datetime_now])
    = Returned (before ++ (building_id, is_armed) :: after) ->
  for_each (scheduled_check_step (strftime_HM (clock env (trace s)))) before tt env
    (check_start s) = (Returned tt, s1) ->
  building_time env (trace s1) building_id = Raised e ->
  let r := check_and_manage_scheduled_states env s in
  r.1 = Returned tt
  /\ trace r.2 = trace s1 ++ [Ev_get_building_time building_id].
Proof.
  intros Hlive Hbefore Htime. cbn zeta.
  rewrite check_unfold, Hlive, for_each_app, Hbefore, for_each_cons.
  unfold scheduled_check_step, sqlite_config.get_building_time.
  rewrite (run_call_raised _ _ _ _ _ e) by exact Htime.
  unfold logging_error, log, emit. cbn [fst snd trace]. done.
Qed.

(** Building 2 is Disarmed at its check time, but the schedule read for
    building 1, which comes first, fails: no alert is sent. *)
Lemma failed_schedule_read_ends_check_witness :
  let r := check_and_manage_scheduled_states demo_env_no_schedule demo_disarmed in
  r.1 = Returned tt
  /\ trace r.2 = trace (check_start demo_disarmed) ++ [Ev_get_building_time 1].
Proof.
  apply (failed_schedule_read_ends_check demo_env_no_schedule demo_disarmed [] 1 true
           [(2, false)] (check_start demo_disarmed) "database is locked").
  - reflexivity.
  - reflexivity.
  - reflexivity.
Defined.

(** [X10] The time comparison of the scheduled check.  For a clock reading
    and a configured text that starts with a zero-padded [HH:MM] (followed
    by anything, such as [:SS]), the formatted current time equals the
    configured time cut to five characters exactly when hour and minute are
    the same. *)
Theorem check_time_matches_same_minute (now configured : nat * nat) (rest : string) :
  (now.1 < 24)%nat -> (now.2 < 60)%nat ->
  (configured.1 < 24)%nat -> (configured.2 < 60)%nat ->
  strftime_HM now = start_time_of (mkSchedule (Some (strftime_HM configured +:+ rest)))
  <-> now = configured.
Proof. apply same_minute_iff. Qed.

Lemma check_time_matches_same_minute_witness :
  strftime_HM (20, 0)%nat
    = start_time_of (mkSchedule (Some (strftime_HM (20, 0)%nat +:+ ":00")))
  <-> (20, 0)%nat = (20, 0)%nat.
Proof.
  apply (check_time_matches_same_minute (20, 0)%nat (20, 0)%nat ":00"); cbn; lia.
Defined.

(** ** Snapshots *)

(** [_evaluate_building_state] changes nothing in the store but the
    snapshot row of its building. *)
Lemma evaluate_keeps_cache env s building_id :
  let r := _evaluate_building_state building_id env s in
  panel_state_cache (store r.2) = panel_state_cache (store s)
  /\ panel_armed (store r.2) = panel_armed (store s).
Proof.
  cbn zeta. unfold _evaluate_building_state, take_snapshot_and_apply_schedule.
  unfold_service. split_cases; done.
Qed.

(** With a schedule, no snapshot and at least one device read, the first
    [_evaluate_building_state] stores the devices read as the snapshot of
    the building, whatever the ignore-list read and the bulk write do
    afterwards. *)
Lemma evaluate_saves_snapshot env s building_id schedule devices :
  building_time env (trace s) building_id = Returned (Some schedule) ->
  snapshots (store s) !! building_id = None ->
  proevents_from_db env
    (trace s ++ [Ev_get_building_time building_id; Ev_get_snapshot building_id])
    building_id = Returned devices ->
  devices <> [] ->
  snapshots (store (_evaluate_building_state building_id env s).2)
  = <[building_id := snapshot_of devices]> (snapshots (store s)).
Proof.
  intros Htime Hsnap Hdev Hne.
  unfold _evaluate_building_state, take_snapshot_and_apply_schedule. unfold_service.
  run_monad. rewrite Htime. cbn [fst snd store trace]. rewrite Hsnap.
  rewrite bool_decide_eq_false_2 by (intros H; now apply H).
  cbn [fst snd store trace]. rewrite <- !app_assoc. cbn [app].
  rewrite Hdev, (truthy_true devices Hne). cbn [negb fst snd store trace snapshots].
  match goal with |- context [ignored_proevents ?e ?h] =>
    destruct (ignored_proevents e h) as [ignored_map|e'] end;
    cbn [fst snd store trace snapshots]; [|reflexivity].
  match goal with |- context [bulk_result ?e ?h ?t] =>
    destruct (bulk_result e h t) as [ok|e'] end;
    reflexivity.
Qed.

(** [X11] Snapshot round trip.  Take a first [_evaluate_building_state] on a
    building with a schedule and no snapshot, whose device read returns at
    least one device.  Whatever its ignore-list read and its bulk write do,
    the stored snapshot is the list of (id, state) pairs exactly as the
    device read returned them.  When the bulk write of a [revert_snapshot]
    with that snapshot returns (with either flag), the revert issues that
    one bulk write, which gives every device the state it was read with,
    then clears the snapshot, and the store is again what it was before the
    schedule was applied.  (When that write raises, the snapshot stays.) *)
Theorem snapshot_round_trip env s building_id schedule devices ok :
  building_time env (trace s) building_id = Returned (Some schedule) ->
  snapshots (store s) !! building_id = None ->
  proevents_from_db env
    (trace s ++ [Ev_get_building_time building_id; Ev_get_snapshot building_id])
    building_id = Returned devices ->
  devices <> [] ->
  let r1 := _evaluate_building_state building_id env s in
  bulk_result env (trace r1.2) (snapshot_of devices) = Returned ok ->
  exists snapshot_data,
    snapshots (store r1.2) !! building_id = Some snapshot_data
    /\ snapshot_data = (fun dev => (dev_id dev, dev_state dev)) <$> devices
    /\ let r2 := revert_snapshot building_id snapshot_data env r1.2 in
       trace r2.2 = trace r1.2 ++ [Ev_set_proevent_reactive_state_bulk snapshot_data;
                                   Ev_clear_snapshot building_id]
       /\ store r2.2 = store s.
Proof.
  intros Htime Hsnap Hdev Hne r1 Hbulk.
  pose proof (evaluate_saves_snapshot env s building_id schedule devices
                Htime Hsnap Hdev Hne) as Hstore.
  pose proof (evaluate_keeps_cache env s building_id) as [Hcache Hflag].
  cbn zeta in Hcache, Hflag. fold r1 in Hstore, Hcache, Hflag.
  exists (snapshot_of devices). split; [rewrite Hstore; apply lookup_insert_eq|].
  split; [reflexivity|]. cbn zeta.
  unfold revert_snapshot, try_except, logger_info,
    proserver_service.set_proevent_reactive_state_bulk, sqlite_config.clear_snapshot.
  rewrite run_log, (run_call_returned _ _ _ _ _ ok) by exact Hbulk.
  unfold emit. cbn [fst snd store trace snapshots panel_state_cache panel_armed].
  split; [now rewrite <- app_assoc|].
  rewrite Hstore, Hcache, Hflag, delete_insert_id by exact Hsnap.
  now destruct (store s).
Qed.

Lemma snapshot_round_trip_witness :
  let r1 := _evaluate_building_state 1 demo_env demo_disarmed in
  exists snapshot_data,
    snapshots (store r1.2) !! 1 = Some snapshot_data
    /\ snapshot_data
       = (fun dev => (dev_id dev, dev_state dev))
           <$> [mkDevice 1 0; mkDevice 3 1; mkDevice 7 1]
    /\ let r2 := revert_snapshot 1 snapshot_data demo_env r1.2 in
       trace r2.2 = trace r1.2 ++ [Ev_set_proevent_reactive_state_bulk snapshot_data;
                                   Ev_clear_snapshot 1]
       /\ store r2.2 = store demo_disarmed.
Proof.
  apply (snapshot_round_trip demo_env demo_disarmed 1 (mkSchedule (Some "20:00:00"))
           [mkDevice 1 0; mkDevice 3 1; mkDevice 7 1] false).
  - reflexivity.
  - reflexivity.
  - reflexivity.
  - discriminate.
  - reflexivity.
Defined.

(** [X12] A failed ignore-list read leaves a snapshot without an applied
    schedule.  [take_snapshot_and_apply_schedule] saves the snapshot before
    it loads the ignore list: when that read raises, the snapshot is stored,
    no bulk write is issued and no exception leaves the call; every later
    [_evaluate_building_state] finds the snapshot and does nothing, so the
    schedule stays unapplied until the snapshot is cleared. *)
Theorem failed_ignore_read_leaves_snapshot env s building_id schedule devices e :
  building_time env (trace s) building_id = Returned (Some schedule) ->
  snapshots (store s) !! building_id = None ->
  proevents_from_db env
    (trace s ++ [Ev_get_building_time building_id; Ev_get_snapshot building_id])
    building_id = Returned devices ->
  devices <> [] ->
  ignored_proevents env
    (trace s ++ [Ev_get_building_time building_id; Ev_get_snapshot building_id;
                 Ev_get_proevents_for_building_from_db building_id;
                 Ev_save_snapshot building_id (snapshot_of devices)])
    = Raised e ->
  let r1 := _evaluate_building_state building_id env s in
  let r2 := _evaluate_building_state building_id env r1.2 in
  r1.1 = Returned tt
  /\ trace r1.2
     = trace s ++ [Ev_get_building_time building_id; Ev_get_snapshot building_id;
                   Ev_get_proevents_for_building_from_db building_id;
                   Ev_save_snapshot building_id (snapshot_of devices);
                   Ev_get_ignored_proevents]
  /\ snapshots (store r1.2) !! building_id = Some (snapshot_of devices)
  /\ store r2.2 = store r1.2
  /\ filter (fun ev => is_device_read ev || is_snapshot_save ev || is_bulk_write ev)
            (issued r1.2 r2.2) = [].
Proof.
  intros Htime Hsnap Hdev Hne Hign r1 r2.
  assert (r1.1 = Returned tt
          /\ trace r1.2
             = trace s ++ [Ev_get_building_time building_id; Ev_get_snapshot building_id;
                           Ev_get_proevents_for_building_from_db building_id;
                           Ev_save_snapshot building_id (snapshot_of devices);
                           Ev_get_ignored_proevents]
          /\ snapshots (store r1.2) !! building_id = Some (snapshot_of devices))
    as (Hres & Htr & Hsaved).
  { subst r1.
    unfold _evaluate_building_state, take_snapshot_and_apply_schedule. unfold_service.
    run_monad. rewrite Htime. cbn [fst snd store trace]. rewrite Hsnap.
    rewrite bool_decide_eq_false_2 by (intros H; now apply H).
    cbn [fst snd store trace]. rewrite <- !app_assoc. cbn [app].
    rewrite Hdev, (truthy_true devices Hne). cbn [negb fst snd store trace snapshots].
    rewrite <- !app_assoc. cbn [app]. rewrite Hign.
    cbn [fst snd store trace snapshots].
    split; [done|]. split; [now rewrite <- ?app_assoc|]. apply lookup_insert_eq. }
  split; [exact Hres|]. split; [exact Htr|]. split; [exact Hsaved|].
  pose proof (evaluate_with_snapshot env r1.2 building_id _ Hsaved) as [Hstore2 Htr2].
  cbn zeta in Hstore2, Htr2. fold r2 in Hstore2, Htr2.
  split; [exact Hstore2|].
  destruct Htr2 as [Htr2|Htr2]; rewrite (issued_app _ _ _ Htr2); reflexivity.
Qed.

Lemma failed_ignore_read_leaves_snapshot_witness :
  let r1 := _evaluate_building_state 1 demo_env_no_ignore_list demo_disarmed in
  let r2 := _evaluate_building_state 1 demo_env_no_ignore_list r1.2 in
  r1.1 = Returned tt
  /\ trace r1.2
     = trace demo_disarmed
       ++ [Ev_get_building_time 1; Ev_get_snapshot 1;
           Ev_get_proevents_for_building_from_db 1;
           Ev_save_snapshot 1 (snapshot_of [mkDevice 1 0; mkDevice 3 1; mkDevice 7 1]);
           Ev_get_ignored_proevents]
  /\ snapshots (store r1.2) !! 1
     = Some (snapshot_of [mkDevice 1 0; mkDevice 3 1; mkDevice 7 1])
  /\ store r2.2 = store r1.2
  /\ filter (fun ev => is_device_read ev || is_snapshot_save ev || is_bulk_write ev)
            (issued r1.2 r2.2) = [].
Proof.
  apply (failed_ignore_read_leaves_snapshot demo_env_no_ignore_list demo_disarmed 1
           (mkSchedule (Some "20:00:00")) [mkDevice 1 0; mkDevice 3 1; mkDevice 7 1]
           "database is locked").
  - reflexivity.
  - reflexivity.
  - reflexivity.
  - discriminate.
  - reflexivity.
Defined.

(** [X13] [revert_snapshot] never lets an exception out, and a bulk write
    that raises keeps the snapshot: the write is attempted with the given
    data, [clear_snapshot] is not called and the store is unchanged, so the
    revert can be tried again. *)
Theorem revert_keeps_snapshot_when_write_raises env s building_id snapshot_data e :
  bulk_result env (trace s) snapshot_data = Raised e ->
  let r := revert_snapshot building_id snapshot_data env s in
  r.1 = Returned tt
  /\ trace r.2 = trace s ++ [Ev_set_proevent_reactive_state_bulk snapshot_data]
  /\ store r.2 = store s.
Proof.
  intros Hbulk. cbn zeta.
  unfold revert_snapshot, try_except, logger_info,
    proserver_service.set_proevent_reactive_state_bulk.
  rewrite run_log, (run_call_raised _ _ _ _ _ e) by exact Hbulk.
  unfold logger_error, log, emit. cbn [fst snd store trace]. done.
Qed.

Lemma revert_keeps_snapshot_when_write_raises_witness :
  let r := revert_snapshot 1 [(1, Reactive); (2, NonReactive)] demo_env_write_raises
             demo_snapshotted in
  r.1 = Returned tt
  /\ trace r.2 = trace demo_snapshotted
                 ++ [Ev_set_proevent_reactive_state_bulk [(1, Reactive); (2, NonReactive)]]
  /\ store r.2 = store demo_snapshotted.
Proof.
  apply (revert_keeps_snapshot_when_write_raises demo_env_write_raises demo_snapshotted 1
           [(1, Reactive); (2, NonReactive)] "connection lost").
  reflexivity.
Defined.

(** ** The manual trigger seen from its route *)

Lemma run_bind {A B} (m : M A) (f : A -> M B) env s :
  (m ≫= f) env s
  = match m env s with
    | (Returned a, s') => f a env s'
    | (Raised e, s') => (Raised e, s')
    end.
Proof. reflexivity. Qed.

Lemma evaluate_outcome env s building_id :
  (_evaluate_building_state building_id env s).1
  = match building_time env (trace s) building_id with
    | Raised e => Raised e
    | Returned _ => Returned tt
    end.
Proof.
  unfold _evaluate_building_state, take_snapshot_and_apply_schedule. unfold_service.
  split_cases; reflexivity.
Qed.

(** What [reevaluate_building_state] raises: nothing while the global flag
    is Armed, and otherwise exactly what the schedule read raises. *)
Lemma reevaluate_outcome env s building_id :
  (reevaluate_building_state building_id env s).1
  = if default false (panel_armed (store s)) then Returned tt
    else match building_time env (trace s ++ [Ev_get_cache_value "panel_armed"])
                 building_id with
         | Raised e => Raised e
         | Returned _ => Returned tt
         end.
Proof.
  unfold reevaluate_building_state, cache_service.get_panel_armed, logger_warning,
    logger_info, logger_error, try_except, mbind, M_bind, log, emit, raise.
  cbn [fst snd store trace].
  destruct (default false (panel_armed (store s))); [reflexivity|].
  match goal with |- context [_evaluate_building_state building_id env ?s1] =>
    pose proof (evaluate_outcome env s1 building_id) as Hout;
    destruct (_evaluate_building_state building_id env s1) as [[[]|e] s2]
  end; cbn [fst snd trace] in *;
    destruct (building_time env _ building_id) as [?|?]; congruence.
Qed.

(** [X14] What [POST /buildings/{id}/reevaluate] answers.  While the global
    flag is Armed the handler answers with the success body although
    nothing was evaluated (only the flag was read).  Otherwise: when the
    schedule read raises, it answers with status 500, the detail carrying
    the exception text; when the schedule read returns, it answers with the
    success body whatever the device read, the ignore-list read and the bulk
    write do, because what they raise is caught inside
    [take_snapshot_and_apply_schedule].  The cache read and the snapshot
    read are those of the key/row store as modelled above, which return;
    what the handler answers when one of them raises is not covered. *)
Theorem reevaluate_route_answer env s building_id :
  let r := routes.reevaluate_building building_id env s in
  let success :=
    Response (mkStatusMessage "success"
                ("Building " +:+ str building_id +:+ " re-evaluated.")) in
  match panel_armed (store s) with
  | Some true =>
      r.1 = Returned success
      /\ trace r.2 = trace s ++ [Ev_get_cache_value "panel_armed"]
      /\ store r.2 = store s
  | _ =>
      r.1 = Returned
              match building_time env (trace s ++ [Ev_get_cache_value "panel_armed"])
                      building_id with
              | Raised e => HTTPException 500 ("Failed to re-evaluate building: " +:+ e)
              | Returned _ => success
              end
  end.
Proof.
  cbn zeta. unfold routes.reevaluate_building, try_except. rewrite run_log.
  match goal with |- context [(reevaluate_building_state building_id ≫= _) env ?s1] =>
    set (s0 := s1) end.
  rewrite (run_bind (reevaluate_building_state building_id)).
  pose proof (reevaluate_outcome env s0 building_id) as Hout.
  change (store s0) with (store s) in Hout. change (trace s0) with (trace s) in Hout.
  destruct (panel_armed (store s)) as [[|]|] eqn:Hflag; cbn [default] in Hout.
  - clear Hout. subst s0.
    unfold reevaluate_building_state, cache_service.get_panel_armed,
      logger_warning, try_except, mbind, M_bind, log, emit, mret, M_ret.
    cbn [fst snd store trace]. rewrite Hflag. cbn [default fst snd store trace]. done.
  - destruct (reevaluate_building_state building_id env s0) as [[[]|e] s2];
      cbn [fst snd] in *;
      destruct (building_time env _ building_id) as [?|?]; try discriminate.
    + reflexivity.
    + injection Hout as ->. reflexivity.
  - destruct (reevaluate_building_state building_id env s0) as [[[]|e] s2];
      cbn [fst snd] in *;
      destruct (building_time env _ building_id) as [?|?]; try discriminate.
    + reflexivity.
    + injection Hout as ->. reflexivity.
Qed.

(** ** The global panel flag *)

Lemma evaluate_reads_schedule_first env s building_id :
  exists rest,
    trace (_evaluate_building_state building_id env s).2
    = trace s ++ Ev_get_building_time building_id :: rest.
Proof.
  unfold _evaluate_building_state, take_snapshot_and_apply_schedule. unfold_service.
  split_cases; rewrite <- ?app_assoc; cbn [app]; eexists; reflexivity.
Qed.

(** [X15] Reading the panel status arms an unset flag.  On a cache where the
    global flag was never set, [GET /panel_status] answers Armed and writes
    Armed into the cache.  So a manual re-evaluation, which is let through
    (it goes on to read the schedule) as long as the flag is unset, is
    rejected once the status has been read. *)
Theorem panel_status_read_arms_unset_flag env s building_id :
  panel_armed (store s) = None ->
  let before := reevaluate_building_state building_id env s in
  let read := routes.get_panel_status env s in
  let after := reevaluate_building_state building_id env read.2 in
  read.1 = Returned (mkPanelStatus true)
  /\ store read.2 = mkStore (panel_state_cache (store s)) (Some true) (snapshots (store s))
  /\ (exists rest, trace before.2
                   = trace s ++ Ev_get_cache_value "panel_armed"
                               :: Ev_get_building_time building_id :: rest)
  /\ after.1 = Returned tt
  /\ trace after.2 = trace read.2 ++ [Ev_get_cache_value "panel_armed"]
  /\ store after.2 = store read.2.
Proof.
  intros Hflag before read after.
  assert (read = (Returned (mkPanelStatus true),
                  mkState (mkStore (panel_state_cache (store s)) (Some true)
                                   (snapshots (store s)))
                          (trace s ++ [Ev_get_cache_value "panel_armed"])
                          (logs s ++ [mkLog routes.routes_logger INFO
                                        ("Panel status retrieved: " +:+ "Armed")])))
    as Hread.
  { subst read. unfold routes.get_panel_status, cache_service.get_panel_armed,
      routes.set_panel_armed, mbind, M_bind, mret, M_ret, log, emit.
    cbn [fst snd store trace logs]. rewrite Hflag. reflexivity. }
  split; [now rewrite Hread|]. split; [now rewrite Hread|]. split.
  - subst before.
    unfold reevaluate_building_state, cache_service.get_panel_armed, logger_info,
      logger_error, try_except, mbind, M_bind, log, emit, raise.
    cbn [fst snd store trace]. rewrite Hflag. cbn [default].
    match goal with |- context [_evaluate_building_state building_id env ?s1] =>
      destruct (evaluate_reads_schedule_first env s1 building_id) as [rest Hrest];
      destruct (_evaluate_building_state building_id env s1) as [[[]|e] s2]
    end; cbn [fst snd trace] in *; exists rest; rewrite Hrest, <- app_assoc; reflexivity.
  - subst after. rewrite Hread. cbn [snd].
    unfold reevaluate_building_state, cache_service.get_panel_armed, logger_warning,
      try_except, mbind, M_bind, log, emit.
    cbn [fst snd store trace panel_armed default]. done.
Qed.

Lemma panel_status_read_arms_unset_flag_witness :
  let before := reevaluate_building_state 1 demo_env demo_cold in
  let read := routes.get_panel_status demo_env demo_cold in
  let after := reevaluate_building_state 1 demo_env read.2 in
  read.1 = Returned (mkPanelStatus true)
  /\ store read.2 = mkStore (panel_state_cache (store demo_cold)) (Some true)
                            (snapshots (store demo_cold))
  /\ (exists rest, trace before.2
                   = trace demo_cold ++ Ev_get_cache_value "panel_armed"
                                       :: Ev_get_building_time 1 :: rest)
  /\ after.1 = Returned tt
  /\ trace after.2 = trace read.2 ++ [Ev_get_cache_value "panel_armed"]
  /\ store after.2 = store read.2.
Proof.
  apply (panel_status_read_arms_unset_flag demo_env demo_cold 1). reflexivity.
Defined.

(** [X16] The panel status round trip.  After [POST /panel_status] with a
    value, [GET /panel_status] answers that value and leaves the store as
    it is; the write changes nothing but the global flag. *)
Theorem panel_status_round_trip env s value :
  let written := routes.set_panel_status value env s in
  let read := routes.get_panel_status env written.2 in
  written.1 = Returned value
  /\ store written.2
     = mkStore (panel_state_cache (store s)) (Some (armed value)) (snapshots (store s))
  /\ read.1 = Returned value
  /\ store read.2 = store written.2.
Proof.
  destruct value as [v]. cbn zeta.
  unfold routes.set_panel_status, routes.get_panel_status, cache_service.get_panel_armed,
    routes.set_panel_armed, mbind, M_bind, mret, M_ret, log, emit.
  cbn [fst snd store trace logs panel_armed armed]. done.
Qed.

(** ** The legacy bulk action *)

Lemma elem_of_ids_to_update devices ignore_ids pid :
  pid ∈ proevent_service_rest.ids_to_update devices ignore_ids
  <-> (exists d, d ∈ devices /\ row_id d = pid) /\ pid ∉ ignore_ids.
Proof.
  unfold proevent_service_rest.ids_to_update.
  rewrite list_elem_of_filter, list_elem_of_fmap. split.
  - intros [Hnot (d & -> & Hd)]. split; [|done]. by exists d.
  - intros [(d & Hd & <-) Hnot]. split; [done|]. by exists d.
Qed.

(** [X17] What [set_proevent_reactive_for_building] writes and returns when
    the device read returns.  The ids to update are the ids of the rows
    read, in their order, without those on the ignore list.  If none is
    left (no device, or all ignored) nothing is written and 0 is returned;
    otherwise one bulk write sets exactly these ids to the requested state,
    and the number of ids is returned when the write reports success, 0 when
    it reports failure or raises.  No exception leaves the function. *)
Theorem legacy_bulk_write env s get_devices building_id reactive ignore_ids devices s1 :
  get_devices (mkArgs building_id None (Some 1000) None) env
    (set_reactive_start building_id reactive ignore_ids s) = (Returned devices, s1) ->
  let ids := proevent_service_rest.ids_to_update devices (default [] ignore_ids) in
  let target_states := (fun pid => (pid, reactive)) <$> ids in
  let r := proevent_service_rest.set_proevent_reactive_for_building get_devices
             building_id reactive ignore_ids env s in
  (forall pid, pid ∈ ids <->
               (exists d, d ∈ devices /\ row_id d = pid) /\ pid ∉ default [] ignore_ids)
  /\ trace r.2 = trace s1 ++ match ids with
                             | [] => []
                             | _ => [Ev_set_proevent_reactive_state_bulk target_states]
                             end
  /\ r.1 = Returned match ids with
                    | [] => 0%nat
                    | _ => match bulk_result env (trace s1) target_states with
                           | Returned true => length ids
                           | _ => 0%nat
                           end
                    end
  /\ store r.2 = store s1.
Proof.
  intros Hdev ids target_states r.
  split; [intros pid; apply elem_of_ids_to_update|].
  subst r. unfold proevent_service_rest.set_proevent_reactive_for_building, logger_info.
  rewrite run_log. fold (set_reactive_start building_id reactive ignore_ids s).
  unfold try_except. rewrite run_bind, Hdev.
  destruct devices as [|d devices'].
  { cbn [truthy negb]. unfold logger_warning. rewrite run_log. cbn.
    now rewrite app_nil_r. }
  remember (d :: devices') as devices eqn:Hdevices.
  assert (truthy devices = true) as -> by now subst devices.
  cbn [negb]. fold ids. fold target_states.
  destruct ids as [|pid ids'] eqn:Hids.
  { cbn [truthy negb]. unfold logger_info. rewrite run_log. cbn.
    now rewrite app_nil_r. }
  cbn [truthy negb].
  unfold proserver_service.set_proevent_reactive_state_bulk, call, mbind, M_bind, mret,
    M_ret, logger_error, log, emit.
  destruct (bulk_result env (trace s1) target_states) as [[|]|e];
    cbn [fst snd store trace]; done.
Qed.

Lemma legacy_bulk_write_witness :
  let ids := proevent_service_rest.ids_to_update
               [mkRow 1 "door" 0 None; mkRow 3 "hall" 1 (Some "HQ"); mkRow 7 "gate" 1 None] (default [] (Some [3])) in
  let target_states := (fun pid => (pid, NonReactive)) <$> ids in
  let r := proevent_service_rest.set_proevent_reactive_for_building demo_get_devices
             1 NonReactive (Some [3]) demo_env_write_ok demo_disarmed in
  (forall pid, pid ∈ ids <->
               (exists d, d ∈ [mkRow 1 "door" 0 None; mkRow 3 "hall" 1 (Some "HQ"); mkRow 7 "gate" 1 None]
                          /\ row_id d = pid) /\ pid ∉ default [] (Some [3]))
  /\ trace r.2 = trace (set_reactive_start 1 NonReactive (Some [3]) demo_disarmed)
                 ++ match ids with
                    | [] => []
                    | _ => [Ev_set_proevent_reactive_state_bulk target_states]
                    end
  /\ r.1 = Returned match ids with
                    | [] => 0%nat
                    | _ => match bulk_result demo_env_write_ok
                                   (trace (set_reactive_start 1 NonReactive (Some [3])
                                             demo_disarmed)) target_states with
                           | Returned true => length ids
                           | _ => 0%nat
                           end
                    end
  /\ store r.2 = store (set_reactive_start 1 NonReactive (Some [3]) demo_disarmed).
Proof.
  apply (legacy_bulk_write demo_env_write_ok demo_disarmed demo_get_devices 1 NonReactive
           (Some [3]) [mkRow 1 "door" 0 None; mkRow 3 "hall" 1 (Some "HQ"); mkRow 7 "gate" 1 None]
           (set_reactive_start 1 NonReactive (Some [3]) demo_disarmed)).
  reflexivity.
Defined.

Example legacy_bulk_write_skips_ignored :
  let r := proevent_service_rest.set_proevent_reactive_for_building demo_get_devices
             1 NonReactive (Some [3]) demo_env_write_ok demo_disarmed in
  r.1 = Returned 2%nat
  /\ trace r.2 = [Ev_set_proevent_reactive_state_bulk [(1, NonReactive); (7, NonReactive)]].
Proof. vm_compute. done. Qed.

(** [X18] A device read that raises is not reported.
    [get_all_proevents_for_building] then returns the empty list, and
    [set_proevent_reactive_for_building] returns 0 without writing
    anything; in both cases the caller gets no exception. *)
Theorem legacy_device_read_errors_are_swallowed env s get_devices building_id search
    limit offset reactive ignore_ids e s1 s2 :
  get_devices (mkArgs building_id search (Some limit) (Some offset)) env s
    = (Raised e, s1) ->
  get_devices (mkArgs building_id None (Some 1000) None) env
    (set_reactive_start building_id reactive ignore_ids s) = (Raised e, s2) ->
  let listed := proevent_service_rest.get_all_proevents_for_building get_devices
                  building_id search limit offset env s in
  let written := proevent_service_rest.set_proevent_reactive_for_building get_devices
                   building_id reactive ignore_ids env s in
  listed.1 = Returned []
  /\ trace listed.2 = trace s1 /\ store listed.2 = store s1
  /\ written.1 = Returned 0%nat
  /\ trace written.2 = trace s2 /\ store written.2 = store s2.
Proof.
  intros Hlist Hwrite. cbn zeta.
  unfold proevent_service_rest.get_all_proevents_for_building,
    proevent_service_rest.set_proevent_reactive_for_building, logger_info.
  rewrite run_log. fold (set_reactive_start building_id reactive ignore_ids s).
  unfold try_except. rewrite !run_bind, Hlist, Hwrite.
  unfold logger_error. rewrite !run_log. done.
Qed.

Lemma legacy_device_read_errors_are_swallowed_witness :
  let listed := proevent_service_rest.get_all_proevents_for_building
                  demo_get_devices_failing 1 None 100 0 demo_env demo_disarmed in
  let written := proevent_service_rest.set_proevent_reactive_for_building
                   demo_get_devices_failing 1 NonReactive None demo_env demo_disarmed in
  listed.1 = Returned []
  /\ trace listed.2 = trace demo_disarmed /\ store listed.2 = store demo_disarmed
  /\ written.1 = Returned 0%nat
  /\ trace written.2 = trace (set_reactive_start 1 NonReactive None demo_disarmed)
  /\ store written.2 = store (set_reactive_start 1 NonReactive None demo_disarmed).
Proof.
  apply (legacy_device_read_errors_are_swallowed demo_env demo_disarmed
           demo_get_devices_failing 1 None 100 0 NonReactive None "timeout"
           demo_disarmed (set_reactive_start 1 NonReactive None demo_disarmed));
    reflexivity.
Defined.

Lemma ids_to_update_nil devices :
  proevent_service_rest.ids_to_update devices [] = row_id <$> devices.
Proof.
  unfold proevent_service_rest.ids_to_update.
  induction (row_id <$> devices) as [|pid ids IH]; [reflexivity|].
  rewrite filter_cons_True by apply not_elem_of_nil. now rewrite IH.
Qed.

(** [X19] The legacy endpoint never reports a failure.  Whatever the device
    read and the bulk write do (return, report failure, raise), the answer
    of [POST /devices/action] is a summary with [failure_count] 0 and no
    details, never an [HTTPException]. *)
Theorem device_action_never_reports_failure env s get_devices req :
  exists n,
    (routes.device_action get_devices req env s).1
    = Returned (Response (mkSummary n 0 [])).
Proof.
  unfold routes.device_action, try_except. rewrite run_log, run_bind.
  unfold proevent_service_rest.set_proevent_reactive_for_building, logger_info.
  rewrite run_log. unfold try_except at 1. rewrite run_bind.
  match goal with |- context [get_devices ?a env ?s0] =>
    destruct (get_devices a env s0) as [[devices|e] s1] end.
  - destruct (negb (truthy devices)).
    { unfold logger_warning. rewrite run_log. cbn. by eexists. }
    destruct (negb (truthy _)).
    { unfold logger_info. rewrite run_log. cbn. by eexists. }
    unfold proserver_service.set_proevent_reactive_state_bulk, call, mbind, M_bind, mret,
      M_ret, logger_error, log, emit.
    destruct (bulk_result env (trace s1) _) as [[|]|e]; cbn [fst snd]; by eexists.
  - unfold logger_error. rewrite run_log. cbn. by eexists.
Qed.

(** [X20] What the legacy endpoint writes.  The state written is
    Non-Reactive (1) when the action, lower-cased, is ["disarm"], and
    Reactive (0) for every other text.  With a device read that returns
    rows, one bulk write sets every row's id to that state (the endpoint
    passes an empty ignore list), and [success_count] is the number of rows
    when the write reports success and 0 otherwise. *)
Theorem device_action_writes_every_device env s get_devices req devices s1 :
  get_devices (mkArgs (req_building_id req) None (Some 1000) None) env
    (set_reactive_start (req_building_id req) (action_state (req_action req)) (Some [])
       (device_action_start req s)) = (Returned devices, s1) ->
  devices <> [] ->
  let target_states :=
    (fun d => (row_id d, if decide (str_lower (req_action req) = "disarm")
                         then NonReactive else Reactive)) <$> devices in
  let r := routes.device_action get_devices req env s in
  trace r.2 = trace s1 ++ [Ev_set_proevent_reactive_state_bulk target_states]
  /\ r.1 = Returned (Response (mkSummary
                       match bulk_result env (trace s1) target_states with
                       | Returned true => length devices
                       | _ => 0%nat
                       end 0 [])).
Proof.
  intros Hdev Hne target_states r.
  pose proof (legacy_bulk_write env (device_action_start req s) get_devices
                (req_building_id req) (action_state (req_action req)) (Some [])
                devices s1 Hdev) as (_ & Htr & Hres & _).
  cbn zeta in Htr, Hres. cbn [default] in Htr, Hres.
  rewrite ids_to_update_nil in Htr, Hres.
  assert ((fun pid => (pid, action_state (req_action req))) <$> (row_id <$> devices)
          = target_states) as Htargets.
  { subst target_states. rewrite <- list_fmap_compose. apply list_fmap_ext.
    intros i d _. cbn. unfold action_state, NonReactive, Reactive.
    destruct (String.eqb_spec (str_lower (req_action req)) "disarm") as [Heq|Hneq].
    - now rewrite decide_True.
    - now rewrite decide_False. }
  rewrite Htargets in Htr, Hres.
  assert (row_id <$> devices <> []) as Hids.
  { destruct devices; [done|discriminate]. }
  destruct (row_id <$> devices) as [|pid ids] eqn:Hrows; [done|].
  assert (length (pid :: ids) = length devices) as Hlen
    by (rewrite <- Hrows; apply length_fmap).
  rewrite Hlen in Hres.
  subst r. unfold routes.device_action, try_except. rewrite run_log.
  fold (device_action_start req s). fold (action_state (req_action req)).
  rewrite run_bind.
  destruct (proevent_service_rest.set_proevent_reactive_for_building get_devices
              (req_building_id req) (action_state (req_action req)) (Some []) env
              (device_action_start req s)) as [[n|e] s2];
    cbn [fst snd] in *; [|discriminate].
  injection Hres as ->. rewrite run_log. cbn [fst snd trace]. done.
Qed.

Lemma device_action_writes_every_device_witness :
  let req := mkActionRequest 1 "DisArm" in
  let devices := [mkRow 1 "door" 0 None; mkRow 3 "hall" 1 (Some "HQ"); mkRow 7 "gate" 1 None] in
  let s1 := set_reactive_start 1 (action_state "DisArm") (Some [])
              (device_action_start req demo_disarmed) in
  let target_states :=
    (fun d => (row_id d, if decide (str_lower (req_action req) = "disarm")
                         then NonReactive else Reactive)) <$> devices in
  let r := routes.device_action demo_get_devices req demo_env_write_ok demo_disarmed in
  trace r.2 = trace s1 ++ [Ev_set_proevent_reactive_state_bulk target_states]
  /\ r.1 = Returned (Response (mkSummary
                       match bulk_result demo_env_write_ok (trace s1) target_states with
                       | Returned true => length devices
                       | _ => 0%nat
                       end 0 [])).
Proof.
  apply (device_action_writes_every_device demo_env_write_ok demo_disarmed
           demo_get_devices (mkActionRequest 1 "DisArm")
           [mkRow 1 "door" 0 None; mkRow 3 "hall" 1 (Some "HQ"); mkRow 7 "gate" 1 None]).
  - reflexivity.
  - discriminate.
Defined.

Example action_states :
  action_state "disarm" = NonReactive /\ action_state "DISARM" = NonReactive
  /\ action_state "arm" = Reactive /\ action_state "disarmed" = Reactive
  /\ action_state " disarm" = Reactive.
Proof. vm_compute. done. Qed.

Example device_action_on_failed_write :
  (routes.device_action demo_get_devices (mkActionRequest 1 "disarm") demo_env
     demo_disarmed).1
  = Returned (Response (mkSummary 0 0 [])).
Proof. vm_compute. reflexivity. Qed.

(** ** The helpers that use [sqlite_config] as a connection factory *)

(** [X21] The "selected ProEvents" helpers never reach the database.
    [get_selected_proevents] fails on its first statement, so it returns the
    empty list for every building; [set_selected_proevents_nonreactive] and
    [set_selected_proevents_reactive] therefore only log and return, with no
    call made and the store unchanged, whatever the database operations
    would do.  Even for given ids, the updating parts of both fail before
    their [UPDATE]. *)
Theorem selected_proevents_helpers_do_nothing (Conn : Type)
    (select_selected : Conn -> Z -> M (list Z))
    (update_reactive : Conn -> Z -> Z -> list Z -> M unit) env s building_id selected_ids :
  let unchanged (r : outcome unit * State) :=
    r.1 = Returned tt /\ trace r.2 = trace s /\ store r.2 = store s in
  (proevent_service_rest.get_selected_proevents Conn select_selected building_id env s).1
    = Returned []
  /\ unchanged (proevent_service_rest.set_selected_proevents_nonreactive Conn
                  select_selected update_reactive building_id env s)
  /\ unchanged (proevent_service_rest.set_selected_proevents_reactive Conn
                  select_selected update_reactive building_id env s)
  /\ unchanged (proevent_service_rest.update_selected_nonreactive Conn update_reactive
                  building_id selected_ids env s)
  /\ unchanged (proevent_service_rest.update_selected_reactive Conn update_reactive
                  building_id selected_ids env s).
Proof.
  cbn zeta.
  unfold proevent_service_rest.set_selected_proevents_nonreactive,
    proevent_service_rest.set_selected_proevents_reactive,
    proevent_service_rest.update_selected_nonreactive,
    proevent_service_rest.update_selected_reactive,
    proevent_service_rest.get_selected_proevents,
    proevent_service_rest.call_sqlite_config_module,
    proevent_service_rest.cursor_of_empty_tuple,
    logger_info, logger_error, try_except, raise, mbind, M_bind, mret, M_ret, log.
  cbn [fst snd store trace truthy negb]. done.
Qed.

(** ** The scheduled job *)

Lemma log_blind_for_each {A S} (body : A -> S -> M S) (l : list A) :
  (forall x acc, log_blind (body x acc)) -> forall acc, log_blind (for_each body l acc).
Proof.
  intros Hbody. induction l as [|x l IH]; intros acc env s1 s2 Hse; [done|].
  rewrite !for_each_cons.
  destruct (Hbody x acc env s1 s2 Hse) as [Hres Hse'].
  destruct (body x acc env s1) as [[acc1|e1] s1'], (body x acc env s2) as [[acc2|e2] s2'];
    cbn [fst snd] in *; try discriminate.
  - injection Hres as ->. now apply IH.
  - done.
Qed.

Lemma log_blind_step cached_states item new_cached_states :
  log_blind (panel_state_change_step cached_states item new_cached_states).
Proof.
  intros env [st1 tr1 lg1] [st2 tr2 lg2] [Hst Htr]. cbn in Hst, Htr. subst st2 tr2.
  destruct item as [building_id is_armed].
  unfold same_effects. unfold_service. split_cases; done.
Qed.

Lemma log_blind_check_step current_time item u :
  log_blind (scheduled_check_step current_time item u).
Proof.
  intros env [st1 tr1 lg1] [st2 tr2 lg2] [Hst Htr]. cbn in Hst, Htr. subst st2 tr2.
  destruct item as [building_id is_armed], u.
  unfold same_effects, scheduled_check_step. unfold_service. split_cases; done.
Qed.

Lemma log_blind_manage : log_blind manage_proevents_on_panel_state_change.
Proof.
  intros env s1 s2 Hse.
  unfold manage_proevents_on_panel_state_change, try_except. rewrite !try_unfold.
  destruct Hse as [Hst Htr]. unfold cached_states_of. rewrite Hst, Htr.
  destruct (live_arm_states env (trace s2)) as [live_states|e];
    [|unfold same_effects, logger_error, log, emit; cbn; rewrite Hst, Htr; done].
  destruct (log_blind_for_each _ live_states
              (fun x acc => log_blind_step (default ∅ (panel_state_cache (store s2))) x acc)
              (default ∅ (panel_state_cache (store s2))) env (loop_start s1) (loop_start s2))
    as [Hres [Hst' Htr']].
  { unfold loop_start, emit. split; cbn; congruence. }
  destruct (for_each _ live_states _ env (loop_start s1)) as [[new1|e1] s1'],
    (for_each _ live_states _ env (loop_start s2)) as [[new2|e2] s2'];
    cbn [fst snd] in *; try discriminate.
  - injection Hres as ->. unfold same_effects. cbn. rewrite Hst', Htr'. done.
  - unfold same_effects. cbn. done.
Qed.

Lemma log_blind_check : log_blind check_and_manage_scheduled_states.
Proof.
  intros env s1 s2 Hse. rewrite !check_unfold.
  destruct Hse as [Hst Htr]. rewrite Htr.
  destruct (live_arm_states env (trace s2 ++ [Ev_datetime_now])) as [live_states|e].
  - destruct (log_blind_for_each _ live_states
                (fun x acc => log_blind_check_step
                                (strftime_HM (clock env (trace s2))) x acc)
                tt env (check_start s1) (check_start s2)) as [Hres [Hst' Htr']].
    { unfold check_start, emit. split; cbn; congruence. }
    destruct (for_each _ live_states tt env (check_start s1)) as [[[]|e1] s1'],
      (for_each _ live_states tt env (check_start s2)) as [[[]|e2] s2'];
      cbn [fst snd] in *; try discriminate; unfold same_effects; cbn; done.
  - unfold same_effects, check_start, emit. cbn. rewrite Hst, Htr. done.
Qed.

Lemma manage_returns env s : (manage_proevents_on_panel_state_change env s).1 = Returned tt.
Proof.
  unfold manage_proevents_on_panel_state_change, try_except. rewrite try_unfold.
  destruct (live_arm_states env (trace s)) as [live_states|e]; [|reflexivity].
  destruct (for_each _ live_states _ env (loop_start s)) as [[new|e] s2]; reflexivity.
Qed.

Lemma check_returns env s : (check_and_manage_scheduled_states env s).1 = Returned tt.
Proof.
  rewrite check_unfold.
  destruct (live_arm_states env (trace s ++ [Ev_datetime_now])) as [live_states|e];
    [|reflexivity].
  destruct (for_each _ live_states tt env (check_start s)) as [[[]|e] s2]; reflexivity.
Qed.

(** [X22] The scheduled job always runs both phases.  Neither phase lets an
    exception out, so the job's own handler is never entered: whatever
    fails inside the scheduled check (the live read, a schedule read, an
    alert), the reconciliation tick runs after it, in the state the check
    left; the job returns normally, and its calls and its effect on the
    store are those of the check followed by the tick. *)
Theorem scheduled_job_runs_both_phases format_exc env s :
  let r := scheduler_service.scheduled_job format_exc env s in
  let phase1 := check_and_manage_scheduled_states env s in
  let phase2 := manage_proevents_on_panel_state_change env phase1.2 in
  r.1 = Returned tt
  /\ trace r.2 = trace phase2.2
  /\ store r.2 = store phase2.2.
Proof.
  cbn zeta. unfold scheduler_service.scheduled_job.
  rewrite !run_log. unfold try_except. rewrite run_bind, run_log, run_bind.
  match goal with |- context [check_and_manage_scheduled_states env ?s0] =>
    destruct (log_blind_check env s0 s) as [Hres1 Hse1]; [done|];
    pose proof (check_returns env s0) as Hret1;
    destruct (check_and_manage_scheduled_states env s0) as [[[]|e1] c1]
  end; cbn [fst snd] in *; [|discriminate].
  rewrite !run_log, run_bind.
  match goal with |- context [manage_proevents_on_panel_state_change env ?s0] =>
    destruct (log_blind_manage env s0 (check_and_manage_scheduled_states env s).2)
      as [Hres2 [Hst2 Htr2]];
      [destruct Hse1 as [Hst1 Htr1]; split; cbn; congruence|];
    pose proof (manage_returns env s0) as Hret2;
    destruct (manage_proevents_on_panel_state_change env s0) as [[[]|e2] m1]
  end; cbn [fst snd] in *; [|discriminate].
  rewrite !run_log. cbn [fst snd trace store]. auto.
Qed.

Example rule_line_is_60 : String.length scheduler_service.rule_line = 60%nat.
Proof. reflexivity. Qed.

(** ** [StreamToLogger] *)

Section stream.

Import stream_to_logger.

Variable strip : string -> string.

Lemma string_app_assoc (a b c : string) : (a +:+ b) +:+ c = a +:+ (b +:+ c).
Proof.
  induction a as [|ch a IH]; [reflexivity|].
  change (String ch ((a +:+ b) +:+ c) = String ch (a +:+ (b +:+ c))). now rewrite IH.
Qed.

Lemma string_app_nil_r (a : string) : a +:+ EmptyString = a.
Proof.
  induction a as [|ch a IH]; [reflexivity|].
  change (String ch (a +:+ EmptyString) = String ch a). now rewrite IH.
Qed.

Lemma has_newline_app (a b : string) :
  has_newline (a +:+ b) = has_newline a || has_newline b.
Proof.
  induction a as [|ch a IH]; [reflexivity|].
  change (has_newline (String ch (a +:+ b))
          = has_newline (String ch a) || has_newline b).
  cbn [has_newline]. destruct (Ascii.eqb ch newline); [reflexivity|exact IH].
Qed.

Lemma split_lines_nonempty (s : string) : split_lines s <> [].
Proof.
  destruct s as [|ch s]; [discriminate|]. cbn [split_lines].
  destruct (Ascii.eqb ch newline); [discriminate|].
  destruct (split_lines s); discriminate.
Qed.

Lemma split_lines_no_newline (s : string) :
  has_newline s = false -> split_lines s = [s].
Proof.
  induction s as [|ch s IH]; [reflexivity|]. cbn [has_newline split_lines].
  destruct (Ascii.eqb ch newline); [discriminate|]. intros Hs. now rewrite IH.
Qed.

Lemma last_cons_nonempty {A} (x : A) (l : list A) d :
  l <> [] -> List.last (x :: l) d = List.last l d.
Proof. destruct l; [done|reflexivity]. Qed.

Lemma last_app_nonempty {A} (l l' : list A) d :
  l' <> [] -> List.last (l ++ l') d = List.last l' d.
Proof.
  intros Hne. induction l as [|x l IH]; [reflexivity|].
  cbn [app]. rewrite last_cons_nonempty; [exact IH|].
  destruct l; [exact Hne|discriminate].
Qed.

(** Splitting a text that is continued: the last, unfinished piece of the
    first part is completed by the continuation. *)
Lemma split_lines_app (x y : string) :
  split_lines (x +:+ y)
  = removelast (split_lines x) ++ split_lines (List.last (split_lines x) EmptyString +:+ y).
Proof.
  induction x as [|ch x IH]; [reflexivity|].
  change (String ch x +:+ y) with (String ch (x +:+ y)). cbn [split_lines].
  destruct (Ascii.eqb ch newline) eqn:Hch.
  - rewrite IH. pose proof (split_lines_nonempty x) as Hne.
    destruct (split_lines x) as [|p ps] eqn:Hx; [done|]. reflexivity.
  - rewrite IH. pose proof (split_lines_nonempty x) as Hne.
    destruct (split_lines x) as [|p ps] eqn:Hx; [done|].
    destruct ps as [|p' ps'].
    + cbn [removelast List.last app].
      change (String ch p +:+ y) with (String ch (p +:+ y)). cbn [split_lines].
      rewrite Hch.
      pose proof (split_lines_nonempty (p +:+ y)) as Hne'.
      destruct (split_lines (p +:+ y)); [done|reflexivity].
    + change (removelast (String ch p :: p' :: ps'))
        with (String ch p :: removelast (p' :: ps')).
      change (List.last (String ch p :: p' :: ps') EmptyString)
        with (List.last (p' :: ps') EmptyString).
      change (removelast (p :: p' :: ps')) with (p :: removelast (p' :: ps')).
      change (List.last (p :: p' :: ps') EmptyString)
        with (List.last (p' :: ps') EmptyString).
      reflexivity.
Qed.

Lemma last_piece_no_newline (s : string) :
  has_newline (List.last (split_lines s) EmptyString) = false.
Proof.
  induction s as [|ch s IH]; [reflexivity|]. cbn [split_lines].
  pose proof (split_lines_nonempty s) as Hne.
  destruct (Ascii.eqb ch newline) eqn:Hch.
  - now rewrite last_cons_nonempty.
  - destruct (split_lines s) as [|p ps] eqn:Hs; [done|].
    destruct ps as [|p' ps'].
    + cbn [List.last] in *. cbn [has_newline]. now rewrite Hch.
    + exact IH.
Qed.

Lemma split_lines_with_newline (s : string) :
  has_newline s = true -> exists p p' ps, split_lines s = p :: p' :: ps.
Proof.
  induction s as [|ch s IH]; [discriminate|]. cbn [has_newline split_lines].
  pose proof (split_lines_nonempty s) as Hne.
  destruct (Ascii.eqb ch newline).
  - intros _. destruct (split_lines s) as [|p ps]; [done|]. by eexists _, _, _.
  - intros Hs. destruct (IH Hs) as (p & p' & ps & ->). by eexists _, _, _.
Qed.

(** The last piece is what follows the last line break. *)
Lemma last_piece_is_tail (s : string) :
  exists pre,
    s = pre +:+ List.last (split_lines s) EmptyString
    /\ (if has_newline s
        then exists pre', pre = pre' +:+ String newline EmptyString
        else pre = EmptyString).
Proof.
  induction s as [|ch s (pre & Heq & Hpre)]; [by exists EmptyString|].
  cbn [split_lines has_newline].
  pose proof (split_lines_nonempty s) as Hne.
  destruct (Ascii.eqb ch newline) eqn:Hch.
  - apply Ascii.eqb_eq in Hch. subst ch.
    rewrite last_cons_nonempty by exact Hne.
    exists (String newline pre). split.
    { change (String newline s = String newline (pre +:+ List.last (split_lines s) EmptyString)).
      now f_equal. }
    destruct (has_newline s).
    + destruct Hpre as [pre' ->]. by exists (String newline pre').
    + subst pre. by exists EmptyString.
  - destruct (has_newline s) eqn:Hn.
    + destruct (split_lines_with_newline s Hn) as (p & p' & ps & Hs).
      rewrite Hs in *.
      change (List.last (String ch p :: p' :: ps) EmptyString)
        with (List.last (p :: p' :: ps) EmptyString).
      exists (String ch pre). split.
      { change (String ch s
                = String ch (pre +:+ List.last (p :: p' :: ps) EmptyString)).
        now f_equal. }
      destruct Hpre as [pre' ->]. by exists (String ch pre').
    + rewrite (split_lines_no_newline s Hn). by exists EmptyString.
Qed.

(** [X23] [write] keeps the unfinished line.  After a write the buffer
    holds exactly the text that follows the last line break of what was
    buffered plus what was written (all of it, if there is no line break),
    so it never contains a line break; the level is unchanged, and nothing
    is logged as long as no line break has arrived. *)
Theorem write_keeps_unfinished_line (self : StreamToLogger) (buf : string) :
  let r := write strip self buf in
  has_newline (linebuf r.1) = false
  /\ (exists pre,
        linebuf self +:+ buf = pre +:+ linebuf r.1
        /\ (if has_newline (linebuf self +:+ buf)
            then exists pre', pre = pre' +:+ String newline EmptyString
            else pre = EmptyString))
  /\ stream_level r.1 = stream_level self
  /\ (has_newline (linebuf self +:+ buf) = false -> r.2 = []).
Proof.
  cbn zeta. unfold write.
  destruct (has_newline (linebuf self +:+ buf)) eqn:Hn; cbn [fst snd linebuf stream_level].
  - split; [apply last_piece_no_newline|]. split; [|done].
    pose proof (last_piece_is_tail (linebuf self +:+ buf)) as Htail.
    now rewrite Hn in Htail.
  - split; [exact Hn|]. split; [|done]. by exists EmptyString.
Qed.

Lemma log_lines_app level (l l' : list string) :
  log_lines strip level (l ++ l') = log_lines strip level l ++ log_lines strip level l'.
Proof.
  induction l as [|line l IH]; [reflexivity|].
  cbn [app log_lines]. now rewrite IH, app_assoc.
Qed.

(** [X24] Writes compose.  Writing a text in two parts leaves the same
    object and makes the same calls of the logger, in the same order, as
    writing it at once: how a caller cuts its output into [write] calls
    does not change what is logged. *)
Theorem write_in_two_parts (self : StreamToLogger) (a b : string) :
  let first := write strip self a in
  let second := write strip first.1 b in
  let whole := write strip self (a +:+ b) in
  second.1 = whole.1 /\ first.2 ++ second.2 = whole.2.
Proof.
  cbn zeta. unfold write. rewrite <- string_app_assoc.
  set (x := linebuf self +:+ a).
  destruct (has_newline x) eqn:Hx; cbn [fst snd linebuf stream_level].
  - rewrite (has_newline_app x b), Hx. cbn [orb]. rewrite (split_lines_app x b).
    set (tail := List.last (split_lines x) EmptyString).
    pose proof (split_lines_nonempty (tail +:+ b)) as Hne.
    destruct (has_newline (tail +:+ b)) eqn:Ht; cbn [fst snd].
    + rewrite last_app_nonempty by exact Hne.
      rewrite removelast_app by exact Hne. now rewrite log_lines_app.
    + rewrite (split_lines_no_newline _ Ht).
      rewrite last_last, removelast_last. now rewrite app_nil_r.
  - destruct (has_newline (x +:+ b)); split; reflexivity.
Qed.

Lemma split_lines_line (t : string) :
  has_newline t = false ->
  split_lines (t +:+ String newline EmptyString) = [t; EmptyString].
Proof.
  induction t as [|ch t IH].
  - intros _. change (split_lines (String newline EmptyString) = [EmptyString; EmptyString]).
    cbn [split_lines]. now rewrite Ascii.eqb_refl.
  - change (String ch t +:+ String newline EmptyString)
      with (String ch (t +:+ String newline EmptyString)).
    cbn [has_newline split_lines].
    destruct (Ascii.eqb ch newline); [discriminate|]. intros Ht. now rewrite IH.
Qed.

(** [X25] A written line is logged once, stripped.  Writing a text without
    a line break and then the line break (what [print] does) logs the
    stripped line, buffered text included, exactly once, or nothing when
    the stripped line is empty; the buffer is empty afterwards. *)
Theorem written_line_is_logged_once (self : StreamToLogger) (text : string) :
  has_newline (linebuf self +:+ text) = false ->
  let first := write strip self text in
  let second := write strip first.1 (String newline EmptyString) in
  first.2 = []
  /\ second.2 = (if String.eqb (strip (linebuf self +:+ text)) EmptyString then []
                 else [(stream_level self, strip (linebuf self +:+ text))])
  /\ linebuf second.1 = EmptyString.
Proof.
  intros Hn. cbn zeta.
  assert (write strip self text
          = (mkStream (stream_level self) (linebuf self +:+ text), [])) as ->.
  { unfold write. now rewrite Hn. }
  cbn [fst snd]. unfold write. cbn [linebuf stream_level].
  rewrite (has_newline_app (linebuf self +:+ text)). cbn [has_newline].
  rewrite Ascii.eqb_refl, orb_true_r. cbn [fst snd linebuf].
  rewrite (split_lines_line _ Hn).
  cbn [removelast List.last log_lines]. rewrite app_nil_r. done.
Qed.

(** [X26] [flush] empties the buffer.  It logs the stripped buffer once, or
    nothing when that is empty, and leaves an empty buffer at the same
    level; a second flush logs nothing. *)
Theorem flush_empties_buffer (self : StreamToLogger) :
  strip EmptyString = EmptyString ->
  let r := flush strip self in
  linebuf r.1 = EmptyString
  /\ stream_level r.1 = stream_level self
  /\ r.2 = (if String.eqb (strip (linebuf self)) EmptyString then []
            else [(stream_level self, strip (linebuf self))])
  /\ flush strip r.1 = (r.1, []).
Proof.
  intros Hstrip. cbn zeta. unfold flush. cbn [fst snd linebuf stream_level].
  rewrite Hstrip. done.
Qed.

End stream.

Lemma written_line_is_logged_once_witness :
  let first := stream_to_logger.write stream_to_logger.strip_blank
                 (demo_stream "Log file ") "ready  " in
  let second := stream_to_logger.write stream_to_logger.strip_blank first.1
                  (String stream_to_logger.newline EmptyString) in
  first.2 = []
  /\ second.2
     = (if String.eqb (stream_to_logger.strip_blank
                         (stream_to_logger.linebuf (demo_stream "Log file ") +:+ "ready  "))
                      EmptyString
        then []
        else [(stream_to_logger.stream_level (demo_stream "Log file "),
               stream_to_logger.strip_blank
                 (stream_to_logger.linebuf (demo_stream "Log file ") +:+ "ready  "))])
  /\ stream_to_logger.linebuf second.1 = EmptyString.
Proof.
  apply (written_line_is_logged_once stream_to_logger.strip_blank
           (demo_stream "Log file ") "ready  ").
  reflexivity.
Defined.

Lemma flush_empties_buffer_witness :
  let r := stream_to_logger.flush stream_to_logger.strip_blank (demo_stream "  tail ") in
  stream_to_logger.linebuf r.1 = EmptyString
  /\ stream_to_logger.stream_level r.1
     = stream_to_logger.stream_level (demo_stream "  tail ")
  /\ r.2 = (if String.eqb (stream_to_logger.strip_blank
                             (stream_to_logger.linebuf (demo_stream "  tail ")))
                          EmptyString
            then []
            else [(stream_to_logger.stream_level (demo_stream "  tail "),
                   stream_to_logger.strip_blank
                     (stream_to_logger.linebuf (demo_stream "  tail ")))])
  /\ stream_to_logger.flush stream_to_logger.strip_blank r.1 = (r.1, []).
Proof.
  apply (flush_empties_buffer stream_to_logger.strip_blank (demo_stream "  tail ")).
  reflexivity.
Defined.

Example write_logs_complete_lines :
  stream_to_logger.write stream_to_logger.strip_blank (demo_stream "he")
    ("llo" +:+ line_break +:+ "  world " +:+ line_break +:+ line_break +:+ "par")
  = (demo_stream "par", [(20, "hello"); (20, "world")]).
Proof. vm_compute. reflexivity. Qed.

Example flush_logs_the_rest :
  stream_to_logger.flush stream_to_logger.strip_blank (demo_stream " par ")
  = (demo_stream EmptyString, [(20, "par")]).
Proof. vm_compute. reflexivity. Qed.

(** ** The device list of the HTTP layer *)

Lemma get_all_proevents_returned get_devices building search limit offset env s rows s1 :
  get_devices (mkArgs building search (Some limit) (Some offset)) env s
    = (Returned rows, s1) ->
  proevent_service_rest.get_all_proevents_for_building get_devices building search limit
    offset env s = (Returned rows, s1).
Proof.
  intros Hdev. unfold proevent_service_rest.get_all_proevents_for_building, try_except.
  rewrite run_bind, Hdev. now destruct rows.
Qed.

Lemma get_all_proevents_raised get_devices building search limit offset env s e s1 :
  get_devices (mkArgs building search (Some limit) (Some offset)) env s = (Raised e, s1) ->
  exists s2,
    proevent_service_rest.get_all_proevents_for_building get_devices building search limit
      offset env s = (Returned [], s2)
    /\ trace s2 = trace s1.
Proof.
  intros Hdev. unfold proevent_service_rest.get_all_proevents_for_building, try_except.
  rewrite run_bind, Hdev. unfold logger_error. rewrite run_log. eexists. split; reflexivity.
Qed.

Lemma list_proevents_run get_devices building search limit offset env s rows s1
    ignored_map :
  proevent_service_rest.get_all_proevents_for_building get_devices building search limit
    offset env (list_proevents_start (Some building) search limit offset s)
    = (Returned rows, s1) ->
  ignored_proevents env (trace s1) = Returned ignored_map ->
  exists s2,
    routes.list_proevents get_devices (Some building) search limit offset env s
      = (Returned (Response (routes.device_out ignored_map <$> rows)), s2)
    /\ trace s2 = trace s1 ++ [Ev_get_ignored_proevents].
Proof.
  intros Hall Hign. unfold routes.list_proevents. rewrite run_log.
  fold (list_proevents_start (Some building) search limit offset s).
  unfold try_except. rewrite run_bind, Hall. unfold sqlite_config.get_ignored_proevents.
  rewrite (run_call_returned _ _ _ _ _ ignored_map) by exact Hign.
  rewrite run_log. eexists. split; reflexivity.
Qed.

(** [X27] A failed device read looks like an empty building.  When
    [device_service.get_devices] raises and the ignore list can be read,
    [GET /devices] answers with an empty list, not with an error. *)
Theorem list_proevents_hides_failed_device_read env s get_devices building search limit
    offset e s1 ignored_map :
  get_devices (mkArgs building search (Some limit) (Some offset)) env
    (list_proevents_start (Some building) search limit offset s) = (Raised e, s1) ->
  ignored_proevents env (trace s1) = Returned ignored_map ->
  exists s2,
    routes.list_proevents get_devices (Some building) search limit offset env s
      = (Returned (Response []), s2)
    /\ trace s2 = trace s1 ++ [Ev_get_ignored_proevents].
Proof.
  intros Hdev Hign.
  destruct (get_all_proevents_raised _ _ _ _ _ _ _ _ _ Hdev) as (s2 & Hall & Htr).
  rewrite <- Htr in Hign.
  destruct (list_proevents_run _ _ _ _ _ _ _ _ _ _ Hall Hign) as (s3 & Hrun & Htr3).
  exists s3. split; [exact Hrun|]. now rewrite Htr3, Htr.
Qed.

Lemma list_proevents_hides_failed_device_read_witness :
  exists s2,
    routes.list_proevents demo_get_devices_failing (Some 1) (Some EmptyString)
      100 0 demo_env demo_disarmed = (Returned (Response []), s2)
    /\ trace s2
       = trace (list_proevents_start (Some 1) (Some EmptyString) 100 0 demo_disarmed)
         ++ [Ev_get_ignored_proevents].
Proof.
  apply (list_proevents_hides_failed_device_read demo_env demo_disarmed
           demo_get_devices_failing 1 (Some EmptyString) 100 0 "timeout"
           (list_proevents_start (Some 1) (Some EmptyString) 100 0 demo_disarmed)
           demo_ignored); reflexivity.
Defined.

(** [X28] What [GET /devices] lists.  When the device read and the
    ignore-list read return, the answer has one entry per row read, in the
    same order and with the row's id; its state text is ["armed"] exactly
    for reactive state 0 and ["disarmed"] otherwise; and every listed
    device that the tick would toggle for this building (its id is in the
    building's ignore set) is shown as ignored. *)
Theorem list_proevents_agrees_with_tick env s get_devices building search limit offset
    proevents s1 ignored_map :
  get_devices (mkArgs building search (Some limit) (Some offset)) env
    (list_proevents_start (Some building) search limit offset s)
    = (Returned proevents, s1) ->
  ignored_proevents env (trace s1) = Returned ignored_map ->
  exists proevents_out,
    (routes.list_proevents get_devices (Some building) search limit offset env s).1
      = Returned (Response proevents_out)
    /\ out_id <$> proevents_out = row_id <$> proevents
    /\ (forall i p out, proevents !! i = Some p -> proevents_out !! i = Some out ->
          (out_state out = "armed" <-> row_reactive_state p = 0)
          /\ (out_state out = "disarmed" <-> row_reactive_state p <> 0))
    /\ (forall out, out ∈ proevents_out ->
          out_id out ∈ ignored_ids_of building ignored_map -> out_is_ignored out = true).
Proof.
  intros Hdev Hign. exists (routes.device_out ignored_map <$> proevents).
  split; [|split; [|split]].
  - apply get_all_proevents_returned in Hdev.
    destruct (list_proevents_run _ _ _ _ _ _ _ _ _ _ Hdev Hign) as (s2 & -> & _).
    reflexivity.
  - rewrite <- list_fmap_compose. reflexivity.
  - intros i p out Hp Hout. rewrite list_lookup_fmap, Hp in Hout.
    injection Hout as <-. unfold routes.device_out. cbn [out_state].
    destruct (decide (row_reactive_state p = 0)); split; split; try done.
  - intros out Hin Hset. apply list_elem_of_fmap in Hin as (p & -> & _).
    unfold routes.device_out in *. cbn [out_id out_is_ignored] in *.
    apply elem_of_ignored_ids_of in Hset as (data & Hl & _ & Hi).
    now rewrite Hl.
Qed.

Lemma list_proevents_agrees_with_tick_witness :
  exists proevents_out,
    (routes.list_proevents demo_get_devices (Some 1) (Some EmptyString) 100 0 demo_env
       demo_disarmed).1 = Returned (Response proevents_out)
    /\ out_id <$> proevents_out
       = row_id <$> [mkRow 1 "door" 0 None; mkRow 3 "hall" 1 (Some "HQ"); mkRow 7 "gate" 1 None]
    /\ (forall i p out,
          [mkRow 1 "door" 0 None; mkRow 3 "hall" 1 (Some "HQ"); mkRow 7 "gate" 1 None] !! i
            = Some p ->
          proevents_out !! i = Some out ->
          (out_state out = "armed" <-> row_reactive_state p = 0)
          /\ (out_state out = "disarmed" <-> row_reactive_state p <> 0))
    /\ (forall out, out ∈ proevents_out ->
          out_id out ∈ ignored_ids_of 1 demo_ignored -> out_is_ignored out = true).
Proof.
  apply (list_proevents_agrees_with_tick demo_env demo_disarmed demo_get_devices 1
           (Some EmptyString) 100 0 _
           (list_proevents_start (Some 1) (Some EmptyString) 100 0 demo_disarmed));
    reflexivity.
Defined.

Example list_proevents_of_building_1 :
  (routes.list_proevents demo_get_devices (Some 1) (Some EmptyString) 100 0 demo_env
     demo_disarmed).1
  = Returned (Response [mkDeviceOut 1 "door" "armed" EmptyString false;
                        mkDeviceOut 3 "hall" "disarmed" "HQ" true;
                        mkDeviceOut 7 "gate" "disarmed" EmptyString true]).
Proof. vm_compute. reflexivity. Qed.
